(** * Vision-guided job-page discovery: a shallow embedding

    The Python sources modelled here are
    - [job_page_discovery.py]   (click-point resolution, fence extraction,
                                 [_find_job_links_on_page], [discover_job_pages]),
    - [simple_job_discovery.py] ([_click_element]),
    - [extract_bboxes.py]       (viewport-relative to page-absolute boxes),
    - [viewport_analyzer.py]    ([_parse_vision_response], [_validate_element],
                                 [analyze_viewport_screenshot], [_perform_input],
                                 [perform_action]),
    - [vision_pagination.py]    ([vision_detect_pagination]).

    Conventions.
    - A Python [str] is a Rocq [string]; text is taken to be ASCII, with a
      character outside ASCII carried as the bytes of its UTF-8 encoding.
      Whitespace and letter case are the ASCII ones.
    - A Python [int] is a [Z]; pixel coordinates are integers, as every prompt
      of the sources asks for.  [//] is floor division, which is [Z.div] for
      the positive divisor 2.
    - The browser page and the vision model are the environment: every call
      on them is an event answered by a handler over an abstract world, and
      may raise.  Each answered call is appended to a trace.
    - [print] calls under [verbose] are left out, except where formatting can
      raise.
    - The builtins [int], [json.loads] and [urljoin] are parameters of the
      functions that call them: what is proved of such a function holds
      whatever the builtin answers or raises.  [PyStr.int] and [Json.loads]
      model the first two, for the runs on scripted pages. *)

From Stdlib Require Import ZArith String Ascii List Lia Bool.
From stdpp Require Import base gmap strings list.
Import ListNotations.
Local Open Scope Z_scope.
Set Warnings "-register-all".

(** ** Python strings *)

Module PyStr.

(** [str.isspace] on ASCII: TAB..CR, FS..US and the space. *)
Definition isspace (c : ascii) : bool :=
  let n := nat_of_ascii c in
  ((9 <=? n) && (n <=? 13) || (28 <=? n) && (n <=? 32))%nat.

Fixpoint lstrip (s : string) : string :=
  match s with
  | EmptyString => EmptyString
  | String c s' => if isspace c then lstrip s' else s
  end.

Fixpoint rstrip (s : string) : string :=
  match s with
  | EmptyString => EmptyString
  | String c s' =>
      match rstrip s' with
      | EmptyString => if isspace c then EmptyString else String c EmptyString
      | r => String c r
      end
  end.

(** [s.strip()] *)
Definition strip (s : string) : string := rstrip (lstrip s).

(** [s.startswith(p)] *)
Definition startswith (s p : string) : bool := String.prefix p s.

Fixpoint drop (n : nat) (s : string) : string :=
  match n, s with
  | O, _ => s
  | S n', String _ s' => drop n' s'
  | S _, EmptyString => EmptyString
  end.

(** Lowest index at which [p] occurs in [s]. *)
Fixpoint index_of (p s : string) : option nat :=
  if String.prefix p s then Some O
  else match s with
       | EmptyString => None
       | String _ s' => option_map S (index_of p s')
       end.

(** Highest index at which [p] occurs in [s]. *)
Fixpoint rindex_of (p s : string) : option nat :=
  match s with
  | EmptyString => if String.prefix p EmptyString then Some O else None
  | String _ s' =>
      match rindex_of p s' with
      | Some i => Some (S i)
      | None => if String.prefix p s then Some O else None
      end
  end.

Definition index_result (o : option nat) : Z :=
  match o with Some i => Z.of_nat i | None => -1 end.

(** [s.find(p)], [s.find(p, start)] for [0 <= start] and [s.rfind(p)];
    each is [-1] when [p] does not occur. *)
Definition find (s p : string) : Z := index_result (index_of p s).

Definition find_from (s p : string) (start : Z) : Z :=
  if Z.of_nat (String.length s) <? start then -1
  else match index_of p (drop (Z.to_nat start) s) with
       | Some i => start + Z.of_nat i
       | None => -1
       end.

Definition rfind (s p : string) : Z := index_result (rindex_of p s).

(** [p in s] *)
Definition contains (s p : string) : bool :=
  match index_of p s with Some _ => true | None => false end.

(** [s[start:stop]] for [0 <= start <= stop]. *)
Definition slice (s : string) (start stop : Z) : string :=
  String.substring (Z.to_nat start) (Z.to_nat (stop - start)) s.

Definition lower_char (c : ascii) : ascii :=
  let n := nat_of_ascii c in
  if ((65 <=? n) && (n <=? 90))%nat then ascii_of_nat (n + 32) else c.

Definition upper_char (c : ascii) : ascii :=
  let n := nat_of_ascii c in
  if ((97 <=? n) && (n <=? 122))%nat then ascii_of_nat (n - 32) else c.

Fixpoint map_chars (f : ascii -> ascii) (s : string) : string :=
  match s with
  | EmptyString => EmptyString
  | String c s' => String (f c) (map_chars f s')
  end.

(** [s.lower()] and [s.upper()] *)
Definition lower : string -> string := map_chars lower_char.
Definition upper : string -> string := map_chars upper_char.

(** [s.split(sep)] for a one-character separator: the pieces between
    the separators, an empty piece included. *)
Fixpoint split (sep : ascii) (s : string) : list string :=
  match s with
  | EmptyString => [EmptyString]
  | String c s' =>
      if Ascii.eqb c sep then EmptyString :: split sep s'
      else match split sep s' with
           | piece :: rest => String c piece :: rest
           | [] => [String c EmptyString]
           end
  end.

Definition is_digit (c : ascii) : bool :=
  let n := nat_of_ascii c in ((48 <=? n) && (n <=? 57))%nat.

Definition digit_value (c : ascii) : Z := Z.of_nat (nat_of_ascii c) - 48.

(** Digits of a decimal literal after its first digit: a single
    underscore is allowed between two digits. *)
Fixpoint int_digits (acc : Z) (s : string) : option Z :=
  match s with
  | EmptyString => Some acc
  | String c s' =>
      if is_digit c then int_digits (10 * acc + digit_value c) s'
      else if Ascii.eqb c "_" then
        match s' with
        | String d s'' =>
            if is_digit d then int_digits (10 * acc + digit_value d) s''
            else None
        | EmptyString => None
        end
      else None
  end.

Definition int_unsigned (s : string) : option Z :=
  match s with
  | String c s' => if is_digit c then int_digits (digit_value c) s' else None
  | EmptyString => None
  end.

(** [s.isascii()] *)
Fixpoint isascii (s : string) : bool :=
  match s with
  | EmptyString => true
  | String c s' => (nat_of_ascii c <? 128)%nat && isascii s'
  end.

(** The code points of text carried as UTF-8 bytes, [None] on bytes that
    encode no text: [pending] bytes are still owed to the code point whose
    high bits are [acc], and which has to reach [low]. *)
Fixpoint code_points (pending : nat) (low acc : Z) (s : string) : option (list Z) :=
  match s with
  | EmptyString => match pending with O => Some [] | S _ => None end
  | String c s' =>
      let n := Z.of_nat (nat_of_ascii c) in
      match pending with
      | O =>
          if n <? 128 then option_map (cons n) (code_points 0 0 0 s')
          else if (192 <=? n) && (n <? 224) then code_points 1 128 (n - 192) s'
          else if (224 <=? n) && (n <? 240) then code_points 2 2048 (n - 224) s'
          else if (240 <=? n) && (n <? 248) then code_points 3 65536 (n - 240) s'
          else None
      | S k =>
          if (128 <=? n) && (n <? 192) then
            let acc' := 64 * acc + (n - 128) in
            match k with
            | O =>
                if (low <=? acc') && (acc' <? 1114112)
                then option_map (cons acc') (code_points 0 0 0 s')
                else None
            | S _ => code_points k low acc' s'
            end
          else None
      end
  end.

(** The digit zero of every script that has decimal digits (Unicode 14.0,
    the database of CPython 3.11); the ten digits of a script are
    consecutive code points. *)
Definition decimal_zeros : list Z :=
    [48; 1632; 1776; 1984; 2406; 2534; 2662; 2790;
     2918; 3046; 3174; 3302; 3430; 3558; 3664; 3792;
     3872; 4160; 4240; 6112; 6160; 6470; 6608; 6784;
     6800; 6992; 7088; 7232; 7248; 42528; 43216; 43264;
     43472; 43504; 43600; 44016; 65296; 66720; 68912; 69734;
     69872; 69942; 70096; 70384; 70736; 70864; 71248; 71360;
     71472; 71904; 72016; 72784; 73040; 73120; 92768; 92864;
     93008; 120782; 120792; 120802; 120812; 120822; 123200; 123632;
     125264; 130032].

(** [unicodedata.decimal(chr(cp))], [None] when [cp] is no decimal digit. *)
Definition decimal_of_point (cp : Z) : option Z :=
  option_map (fun zero => cp - zero)
    (List.find (fun zero => (zero <=? cp) && (cp <? zero + 10)) decimal_zeros).

(** [chr(cp).isspace()] for a code point outside ASCII. *)
Definition is_space_point (cp : Z) : bool :=
  (cp =? 133) || (cp =? 160) || (cp =? 5760) || (8192 <=? cp) && (cp <=? 8202) ||
  (cp =? 8232) || (cp =? 8233) || (cp =? 8239) || (cp =? 8287) || (cp =? 12288).

(** What [int] makes of a character of text that is not all ASCII, before
    it reads the literal: a character below 127 is kept, a space of any
    script becomes the ASCII space and a decimal digit of any script the
    ASCII digit of its value; any other character ends the conversion in
    a [ValueError]. *)
Definition ascii_of_point (cp : Z) : option ascii :=
  if cp <? 127 then Some (ascii_of_nat (Z.to_nat cp))
  else if is_space_point cp then Some " "%char
  else option_map (fun d => ascii_of_nat (Z.to_nat (48 + d))) (decimal_of_point cp).

Fixpoint ascii_of_points (points : list Z) : option string :=
  match points with
  | [] => Some EmptyString
  | cp :: rest =>
      match ascii_of_point cp, ascii_of_points rest with
      | Some c, Some t => Some (String c t)
      | _, _ => None
      end
  end.

(** The blanks [int] skips around a literal: TAB..CR and the space.  The
    separators FS..US, which [str.strip] removes, are not among them. *)
Definition is_blank (c : ascii) : bool :=
  let n := nat_of_ascii c in
  ((9 <=? n) && (n <=? 13) || (n =? 32))%nat.

Fixpoint skip_blanks (s : string) : string :=
  match s with
  | EmptyString => EmptyString
  | String c s' => if is_blank c then skip_blanks s' else s
  end.

Fixpoint drop_blanks (s : string) : string :=
  match s with
  | EmptyString => EmptyString
  | String c s' =>
      match drop_blanks s' with
      | EmptyString => if is_blank c then EmptyString else String c EmptyString
      | r => String c r
      end
  end.

Fixpoint count_digits (s : string) : nat :=
  match s with
  | EmptyString => O
  | String c s' => ((if is_digit c then 1 else 0) + count_digits s')%nat
  end.

(** The longest literal [int] converts by default
    ([sys.get_int_max_str_digits()]). *)
Definition max_str_digits : nat := 4300.

(** A literal in base ten: blanks around, an optional sign, then digits, at
    most [max_str_digits] of them. *)
Definition int_literal (s : string) : option Z :=
  if (count_digits s <=? max_str_digits)%nat then
    match drop_blanks (skip_blanks s) with
    | String "+" s' => int_unsigned s'
    | String "-" s' => option_map Z.opp (int_unsigned s')
    | s' => int_unsigned s'
    end
  else None.

(** [int(s)]; [None] stands for its [ValueError].  ASCII text is read as it
    is; in other text the spaces and the decimal digits of every script
    are first turned into ASCII ones. *)
Definition int (s : string) : option Z :=
  if isascii s then int_literal s
  else
    match code_points 0 0 0 s with
    | Some points =>
        match ascii_of_points points with
        | Some literal => int_literal literal
        | None => None
        end
    | None => None
    end.

End PyStr.

(** ** Python values *)

(** The values [json.loads] produces, which are also the values of the
    result dictionaries.  A number written with a fraction or an exponent
    is a [float], kept as the decimal [mantissa * 10 ^ exponent] of its
    literal; an object keeps its members in the order written. *)
Inductive json : Type :=
  | JNull
  | JBool (b : bool)
  | JInt (n : Z)
  | JFloat (mantissa exponent : Z)
  | JNaN
  | JInf (negative : bool)
  | JStr (s : string)
  | JArr (items : list json)
  | JObj (members : list (string * json)).

(** A Python [dict] with string keys. *)
Abbreviation dict := (gmap string json).

(** The exception classes the sources distinguish.  [JSONDecodeError] is a
    subclass of [ValueError]; [SurfaceError] is any other exception of the
    page-control or vision-query surface (a Playwright [Error] or
    [TimeoutError], an API error); [RecursionError] is what [json.loads]
    raises on text nested deeper than the interpreter allows.  The message
    of an exception is not modelled. *)
Inductive exn : Type :=
  | ValueError
  | JSONDecodeError
  | IndexError
  | KeyError
  | TypeError
  | ZeroDivisionError
  | OverflowError
  | RecursionError
  | SurfaceError.

Inductive outcome (A : Type) : Type :=
  | Returns (a : A)
  | Raises (e : exn).
Arguments Returns {A} a.
Arguments Raises {A} e.

Module Py.

(** A float literal that binary64 rounds to zero: zero itself, or a
    magnitude of at most [2 ^ -1075]. *)
Definition float_is_zero (mantissa exponent : Z) : bool :=
  (mantissa =? 0) ||
  ((exponent <? 0) && (Z.abs mantissa * 2 ^ 1075 <=? 10 ^ (- exponent))).

(** [bool(v)] *)
Definition truthy (v : json) : bool :=
  match v with
  | JNull => false
  | JBool b => b
  | JInt n => negb (n =? 0)
  | JFloat m e => negb (float_is_zero m e)
  | JNaN | JInf _ => true
  | JStr s => negb (String.eqb s EmptyString)
  | JArr items => match items with [] => false | _ => true end
  | JObj members => match members with [] => false | _ => true end
  end.

(** The value a parsed object holds for [key]: the last member written
    with that key. *)
Fixpoint lookup_member (key : string) (members : list (string * json)) : option json :=
  match members with
  | [] => None
  | (k, v) :: rest =>
      match lookup_member key rest with
      | Some v' => Some v'
      | None => if String.eqb k key then Some v else None
      end
  end.

(** [v[key]] for a string key. *)
Definition getitem (v : json) (key : string) : outcome json :=
  match v with
  | JObj members =>
      match lookup_member key members with
      | Some x => Returns x
      | None => Raises KeyError
      end
  | _ => Raises TypeError
  end.

(** [d.get(key, default)] on a dictionary [d]. *)
Definition get (v : json) (key : string) (default : json) : json :=
  match v with
  | JObj members =>
      match lookup_member key members with
      | Some x => x
      | None => default
      end
  | _ => default
  end.

(** [key in v] for a string [key]: a key of a dictionary, an item of a
    list, a substring of a string. *)
Definition contains (v : json) (key : string) : outcome bool :=
  match v with
  | JObj members =>
      Returns (match lookup_member key members with Some _ => true | None => false end)
  | JArr items =>
      Returns (existsb (fun x => match x with JStr s => String.eqb s key | _ => false end) items)
  | JStr s => Returns (PyStr.contains s key)
  | _ => Raises TypeError
  end.

(** [for x in v]: the items of a list, the keys of a dictionary in the
    order first written, the characters of a string. *)
Fixpoint chars (s : string) : list json :=
  match s with
  | EmptyString => []
  | String c s' => JStr (String c EmptyString) :: chars s'
  end.

Fixpoint keys (seen : list string) (members : list (string * json)) : list json :=
  match members with
  | [] => []
  | (k, _) :: rest =>
      if existsb (String.eqb k) seen then keys seen rest
      else JStr k :: keys (k :: seen) rest
  end.

Definition iter (v : json) : outcome (list json) :=
  match v with
  | JArr items => Returns items
  | JObj members => Returns (keys [] members)
  | JStr s => Returns (chars s)
  | _ => Raises TypeError
  end.

(** [len(v)] *)
Definition len (v : json) : outcome Z :=
  match iter v with
  | Returns items => Returns (Z.of_nat (length items))
  | Raises e => Raises e
  end.

(** [v[i]] for an index [0 <= i]. *)
Definition getindex (v : json) (i : nat) : outcome json :=
  match v with
  | JArr items =>
      match nth_error items i with Some x => Returns x | None => Raises IndexError end
  | JStr s =>
      match nth_error (chars s) i with Some x => Returns x | None => Raises IndexError end
  | JObj _ => Raises KeyError
  | _ => Raises TypeError
  end.

(** [isinstance(x, (int, float)) and x >= 0]; [bool] is a subclass of [int]. *)
Definition nonnegative_number (x : json) : bool :=
  match x with
  | JBool _ => true
  | JInt n => 0 <=? n
  | JFloat m e => (0 <=? m) || float_is_zero m e
  | JInf negative => negb negative
  | _ => false
  end.

(** Formatting with [:.1%]: defined on numbers; an [int] too large for a
    [float] overflows. *)
Definition format_percent (v : json) : outcome unit :=
  match v with
  | JBool _ | JFloat _ _ | JNaN | JInf _ => Returns tt
  | JInt n => if Z.abs n <? 2 ^ 1024 - 2 ^ 970 then Returns tt else Raises OverflowError
  | JStr _ => Raises ValueError
  | _ => Raises TypeError
  end.

(** [str(e)] of an exception, rendered as its class. *)
Definition str_of_exn (e : exn) : string :=
  match e with
  | ValueError => "ValueError"
  | JSONDecodeError => "JSONDecodeError"
  | IndexError => "IndexError"
  | KeyError => "KeyError"
  | TypeError => "TypeError"
  | ZeroDivisionError => "ZeroDivisionError"
  | OverflowError => "OverflowError"
  | RecursionError => "RecursionError"
  | SurfaceError => "Error"
  end.

End Py.

(** The dictionary of a JSON object: of two members with one key the later
    one is kept. *)
Definition dict_of_members (members : list (string * json)) : dict :=
  fold_left (fun d kv => <[kv.1 := kv.2]> d) members ∅.

(** ** [json.loads]

    A model of the standard library's decoder on text: the grammar of
    JSON with the decoder's extensions [NaN], [Infinity] and [-Infinity]. *)

Module Json.

(** The whitespace of JSON: space, TAB, LF, CR. *)
Definition is_ws (c : ascii) : bool :=
  let n := nat_of_ascii c in
  ((n =? 32) || (n =? 9) || (n =? 10) || (n =? 13))%nat.

Fixpoint skip_ws (s : string) : string :=
  match s with
  | String c s' => if is_ws c then skip_ws s' else s
  | EmptyString => s
  end.

Definition is_digit (c : ascii) : bool :=
  let n := nat_of_ascii c in ((48 <=? n) && (n <=? 57))%nat.

(** The longest run of digits at the head of [s]: its value, its length,
    and what follows. *)
Fixpoint digits (acc : Z) (len : nat) (s : string) : Z * nat * string :=
  match s with
  | String c s' =>
      if is_digit c
      then digits (10 * acc + (Z.of_nat (nat_of_ascii c) - 48)) (S len) s'
      else (acc, len, s)
  | EmptyString => (acc, len, s)
  end.

(** An optional fraction, a point followed by at least one digit: the
    mantissa and exponent after it, and whether one was read. *)
Definition fraction (int_part : Z) (s : string) : Z * Z * bool * string :=
  match s with
  | String "." s' =>
      match digits int_part 0 s' with
      | (_, O, _) => (int_part, 0, false, s)
      | (m, len, rest) => (m, - Z.of_nat len, true, rest)
      end
  | _ => (int_part, 0, false, s)
  end.

(** An optional exponent: [e] or [E], an optional sign, at least one digit. *)
Definition exponent (s : string) : option (Z * string) :=
  match s with
  | String c s' =>
      if (Ascii.eqb c "e" || Ascii.eqb c "E")%bool then
        let '(negative, s'') :=
          match s' with
          | String "-" t => (true, t)
          | String "+" t => (false, t)
          | _ => (false, s')
          end in
        match digits 0 0 s'' with
        | (_, O, _) => None
        | (e, _, rest) => Some (if negative : bool then - e else e, rest)
        end
      else None
  | EmptyString => None
  end.

(** The longest integer literal the decoder converts: the bound of [int],
    [sys.get_int_max_str_digits()]. *)
Definition max_int_digits : nat := 4300.

(** A number after its optional minus sign: a zero or a run of digits that
    does not start with a zero, then an optional fraction and exponent.
    An integer of more than [max_int_digits] digits raises the
    [ValueError] of [int]. *)
Definition number (negative : bool) (s : string) : outcome (json * string) :=
  let sign (z : Z) := if negative then - z else z in
  let int_part :=
    match s with
    | String "0" s' => Some (0, 1%nat, s')
    | String c _ => if is_digit c then Some (digits 0 0 s) else None
    | EmptyString => None
    end in
  match int_part with
  | None => Raises JSONDecodeError
  | Some (n, len, rest) =>
      let '(m, e, has_fraction, rest1) := fraction n rest in
      match exponent rest1 with
      | Some (e', rest2) => Returns (JFloat (sign m) (e + e'), rest2)
      | None =>
          if has_fraction : bool then Returns (JFloat (sign m) e, rest1)
          else if (len <=? max_int_digits)%nat then Returns (JInt (sign n), rest1)
          else Raises ValueError
      end
  end.

Definition hex_value (c : ascii) : option N :=
  let n := N_of_ascii c in
  if ((48 <=? n) && (n <=? 57))%N then Some (n - 48)%N
  else if ((97 <=? n) && (n <=? 102))%N then Some (n - 87)%N
  else if ((65 <=? n) && (n <=? 70))%N then Some (n - 55)%N
  else None.

(** Four hexadecimal digits. *)
Definition hex4 (s : string) : option (N * string) :=
  match s with
  | String a (String b (String c (String d rest))) =>
      match hex_value a, hex_value b, hex_value c, hex_value d with
      | Some x, Some y, Some z, Some w => Some ((((x * 16 + y) * 16 + z) * 16 + w)%N, rest)
      | _, _, _, _ => None
      end
  | _ => None
  end.

Definition byte (n : N) : ascii := ascii_of_N n.

(** The UTF-8 bytes of a code point. *)
Definition utf8 (cp : N) : string :=
  (if cp <? 128 then String (byte cp) EmptyString
   else if cp <? 2048 then
     String (byte (192 + cp / 64)) (String (byte (128 + cp mod 64)) EmptyString)
   else if cp <? 65536 then
     String (byte (224 + cp / 4096))
       (String (byte (128 + (cp / 64) mod 64))
          (String (byte (128 + cp mod 64)) EmptyString))
   else
     String (byte (240 + cp / 262144))
       (String (byte (128 + (cp / 4096) mod 64))
          (String (byte (128 + (cp / 64) mod 64))
             (String (byte (128 + cp mod 64)) EmptyString))))%N.

(** The text after [\u]: a code point, with a high surrogate joined to the
    low surrogate escape that follows it. *)
Definition unicode_escape (s : string) : option (string * string) :=
  match hex4 s with
  | None => None
  | Some (hi, rest) =>
      if ((55296 <=? hi) && (hi <=? 56319))%N then
        match rest with
        | String "\" (String "u" rest') =>
            match hex4 rest' with
            | Some (lo, rest'') =>
                if ((56320 <=? lo) && (lo <=? 57343))%N
                then Some (utf8 (65536 + (hi - 55296) * 1024 + (lo - 56320))%N, rest'')
                else Some (utf8 hi, rest)
            | None => Some (utf8 hi, rest)
            end
        | _ => Some (utf8 hi, rest)
        end
      else Some (utf8 hi, rest)
  end.

(** A string after its opening quote: its text and what follows the
    closing quote.  A raw control character is refused. *)
Fixpoint string_body (fuel : nat) (s : string) : option (string * string) :=
  match fuel with
  | O => None
  | S fuel' =>
      match s with
      | EmptyString => None
      | String c s' =>
          if Ascii.eqb c (ascii_of_nat 34) then Some (EmptyString, s')
          else if Ascii.eqb c "\" then
            match s' with
            | String e s'' =>
                let simple (x : nat) :=
                  option_map (fun r => (String (ascii_of_nat x) (fst r), snd r))
                    (string_body fuel' s'') in
                if Ascii.eqb e (ascii_of_nat 34) then simple 34%nat
                else if Ascii.eqb e "\" then simple 92%nat
                else if Ascii.eqb e "/" then simple 47%nat
                else if Ascii.eqb e "b" then simple 8%nat
                else if Ascii.eqb e "f" then simple 12%nat
                else if Ascii.eqb e "n" then simple 10%nat
                else if Ascii.eqb e "r" then simple 13%nat
                else if Ascii.eqb e "t" then simple 9%nat
                else if Ascii.eqb e "u" then
                  match unicode_escape s'' with
                  | Some (bytes, rest) =>
                      option_map (fun r => ((bytes ++ fst r)%string, snd r))
                        (string_body fuel' rest)
                  | None => None
                  end
                else None
            | EmptyString => None
            end
          else if (nat_of_ascii c <? 32)%nat then None
          else option_map (fun r => (String c (fst r), snd r)) (string_body fuel' s')
      end
  end.

Definition literal (word : string) (v : json) (s : string) : outcome (json * string) :=
  if String.prefix word s then Returns (v, PeanoNat.Nat.iter (String.length word) (fun t => match t with String _ t' => t' | EmptyString => t end) s)
  else Raises JSONDecodeError.

(** One value at the head of [s], and what follows it.  [depth] is the
    nesting of arrays and objects the interpreter still allows: opening
    one more raises [RecursionError].  [fuel] bounds the values and
    separators read, as the length of the text does. *)
Fixpoint value (fuel depth : nat) (s : string) : outcome (json * string) :=
  match fuel with
  | O => Raises JSONDecodeError
  | S fuel' =>
      match s with
      | EmptyString => Raises JSONDecodeError
      | String c s' =>
          if Ascii.eqb c (ascii_of_nat 34) then
            match string_body (S (String.length s')) s' with
            | Some r => Returns (JStr (fst r), snd r)
            | None => Raises JSONDecodeError
            end
          else if Ascii.eqb c "{" then
            match depth with
            | O => Raises RecursionError
            | S depth' =>
                match skip_ws s' with
                | String "}" rest => Returns (JObj [], rest)
                | s1 => members fuel' depth' s1 []
                end
            end
          else if Ascii.eqb c "[" then
            match depth with
            | O => Raises RecursionError
            | S depth' =>
                match skip_ws s' with
                | String "]" rest => Returns (JArr [], rest)
                | s1 => elements fuel' depth' s1 []
                end
            end
          else if Ascii.eqb c "n" then literal "null" JNull s
          else if Ascii.eqb c "t" then literal "true" (JBool true) s
          else if Ascii.eqb c "f" then literal "false" (JBool false) s
          else if Ascii.eqb c "-" then
            match number true s' with
            | Raises JSONDecodeError => literal "-Infinity" (JInf true) s
            | r => r
            end
          else if Ascii.eqb c "N" then literal "NaN" JNaN s
          else if Ascii.eqb c "I" then literal "Infinity" (JInf false) s
          else number false s
      end
  end

(** The values of an array after its opening bracket: [acc] holds those
    read, last first. *)
with elements (fuel depth : nat) (s : string) (acc : list json) : outcome (json * string) :=
  match fuel with
  | O => Raises JSONDecodeError
  | S fuel' =>
      match value fuel' depth s with
      | Raises e => Raises e
      | Returns (v, rest) =>
          match skip_ws rest with
          | String "," rest' => elements fuel' depth (skip_ws rest') (v :: acc)
          | String "]" rest' => Returns (JArr (rev (v :: acc)), rest')
          | _ => Raises JSONDecodeError
          end
      end
  end

(** The members of an object after its opening brace. *)
with members (fuel depth : nat) (s : string) (acc : list (string * json))
    : outcome (json * string) :=
  match fuel with
  | O => Raises JSONDecodeError
  | S fuel' =>
      match s with
      | String c s' =>
          if Ascii.eqb c (ascii_of_nat 34) then
            match string_body (S (String.length s')) s' with
            | None => Raises JSONDecodeError
            | Some (key, rest) =>
                match skip_ws rest with
                | String ":" rest1 =>
                    match value fuel' depth (skip_ws rest1) with
                    | Raises e => Raises e
                    | Returns (v, rest2) =>
                        match skip_ws rest2 with
                        | String "," rest3 =>
                            members fuel' depth (skip_ws rest3) ((key, v) :: acc)
                        | String "}" rest3 => Returns (JObj (rev ((key, v) :: acc)), rest3)
                        | _ => Raises JSONDecodeError
                        end
                    end
                | _ => Raises JSONDecodeError
                end
            end
          else Raises JSONDecodeError
      | EmptyString => Raises JSONDecodeError
      end
  end.

(** [json.loads(s)]: the value of the document [s], one value between
    optional whitespace.  It raises [JSONDecodeError] on text that is no
    document, [RecursionError] on one that opens more than
    [recursion_limit] arrays and objects inside one another, and
    [ValueError] on an integer too long for [int].  [recursion_limit] is
    the nesting that [sys.getrecursionlimit()] and the call stack leave to
    the decoder where it is called. *)
Definition loads (recursion_limit : nat) (s : string) : outcome json :=
  match value (2 * String.length s + 2) recursion_limit (skip_ws s) with
  | Returns (v, rest) =>
      match skip_ws rest with
      | EmptyString => Returns v
      | _ => Raises JSONDecodeError
      end
  | Raises e => Raises e
  end.

End Json.

(** ** Coordinate resolver *)

(** The block [# Calculate click position] of [_find_job_navigation],
    [_check_hidden_menus], [_find_job_links_on_page] (job_page_discovery.py)
    and [_click_element] (simple_job_discovery.py): a box whose third and
    fourth values both exceed 100 is read as two corners, any other box as
    origin and size.  [None] stands for a box that is not of length 4, which
    the callers skip. *)
Definition resolve_click_point (bbox : list Z) : option (Z * Z) :=
  match bbox with
  | [b0; b1; b2; b3] =>
      if (b2 >? 100) && (b3 >? 100)
      then Some ((b0 + b2) / 2, (b1 + b3) / 2)
      else Some (b0 + b2 / 2, b1 + b3 / 2)
  | _ => None
  end.

(** [element['bbox_absolute']] of [_extract_viewport_bboxes]
    (extract_bboxes.py): the list built from [bbox[0]], [bbox[1]],
    [bbox[2]], [bbox[3]] and the scroll position.  [None] stands for the
    [IndexError] of a box shorter than 4. *)
Definition bbox_absolute (bbox : list Z) (scroll_position : Z) : option (list Z) :=
  match bbox !! 0%nat, bbox !! 1%nat, bbox !! 2%nat, bbox !! 3%nat with
  | Some b0, Some b1, Some b2, Some b3 =>
      Some [b0; b1 + scroll_position; b2; b3 + scroll_position]
  | _, _, _, _ => None
  end.

(** ** Environment calls and the effect monad *)

Definition is_ValueError (e : exn) : bool :=
  match e with ValueError | JSONDecodeError => true | _ => false end.

(** [except json.JSONDecodeError] *)
Definition is_JSONDecodeError (e : exn) : bool :=
  match e with JSONDecodeError => true | _ => false end.

Definition is_IndexError (e : exn) : bool :=
  match e with IndexError => true | _ => false end.

(** [except Exception] and the bare [except] *)
Definition any_exception (e : exn) : bool := true.

(** What [elementFromPoint] reports about the element found. *)
Record element_info := ElementInfo {
  tagName : string;
  className : string;
  text : string;
  id : string;
  isClickable : bool
}.

(** The instruction sent with a screenshot; its text does not matter to the
    control flow, only which one it is. *)
Inductive prompt : Type :=
  (* vision_pagination.py: find a forward pagination control; the text
     names the viewport's width and height *)
  | PaginationPrompt (width height : Z)
  (* job_page_discovery.py, _find_job_links_on_page *)
  | JobLinksPrompt
  (* viewport_analyzer.py, _create_analysis_prompt *)
  | AnalysisPrompt (element_types : list string) (include_description : bool).

(** Calls on the page-control surface and on the vision-query surface,
    indexed by the type of their answer.  The last four are the coroutines
    of [JobPageDiscovery] that [discover_job_pages] awaits: what they
    return depends on the page and on the model, and the traversal takes
    them as part of its environment. *)
Inductive call : Type -> Type :=
  (* page.viewport_size: (width, height), if set *)
  | ViewportSize : call (option (Z * Z))
  (* page.url *)
  | PageUrl : call string
  (* page.goto(url, wait_until="domcontentloaded", timeout=...) *)
  | Goto (url : string) (timeout : Z) : call unit
  (* page.wait_for_timeout(ms) *)
  | WaitForTimeout (ms : Z) : call unit
  (* page.evaluate("window.scrollTo(x, y)") *)
  | ScrollTo (x y : Z) : call unit
  (* page.evaluate("document.body.scrollHeight") *)
  | ScrollHeight : call Z
  (* page.evaluate("window.pageYOffset") *)
  | PageYOffset : call Z
  (* page.screenshot(full_page=False) *)
  | Screenshot : call string
  (* writing a screenshot to a file, its directory made first: the path *)
  | SaveScreenshot (image : string) : call string
  (* client.chat.completions.create(...): the first choice's message
     content, [None] when there is no choice *)
  | ChatCompletion (p : prompt) (image : string) (max_tokens : Z) : call (option string)
  (* page.evaluate of document.elementFromPoint(x, y), described *)
  | ElementFromPoint (x y : Z) : call (option element_info)
  (* page.evaluate of document.elementFromPoint(x, y) followed by
     element.click(): the element clicked, [None] when there is none *)
  | ClickElementFromPoint (x y : Z) : call (option element_info)
  (* page.evaluate of the href of the link at (x, y), if any *)
  | HrefFromPoint (x y : Z) : call (option string)
  (* the value of the form control at (x, y) *)
  | ValueFromPoint (x y : Z) : call string
  (* page.mouse.click(x, y) *)
  | MouseClick (x y : Z) : call unit
  (* page.keyboard.press(key) *)
  | KeyboardPress (key : string) : call unit
  (* page.keyboard.type(text) *)
  | KeyboardType (text : string) : call unit
  (* page.select_option(<the xpath of the sources>, value) *)
  | SelectOption (value : string) : call unit
  (* page.click('text=...') *)
  | ClickText (value : string) : call unit
  (* wait_for_page_settle(page, timeout=...) of the pagination module *)
  | WaitForPageSettle (timeout : Z) : call unit
  (* page.wait_for_load_state(state, timeout=...) *)
  | WaitForLoadState (state : string) (timeout : Z) : call unit
  (* datetime.now().isoformat() *)
  | Now : call string
  (* self._find_job_navigation(page): the URLs found, and the elements it
     appended to self.all_discovered_elements *)
  | FindJobNavigation : call (list string * list json)
  (* self._verify_job_listing_page(page) *)
  | VerifyJobListingPage : call json
  (* self._find_related_job_pages(page) *)
  | FindRelatedJobPages : call (list string)
  (* self._find_job_links_on_page(page) *)
  | FindJobLinksOnPage : call (list string).

(** One answered call. *)
Record entry : Type := Entry {
  entry_type : Type;
  entry_call : call entry_type;
  entry_reply : outcome entry_type
}.
Arguments Entry {entry_type} entry_call entry_reply.

(** The state of a run: the world, the calls answered so far, and the
    mutable variables of the running function. *)
Record state (W H : Type) : Type := State {
  world : W;
  trace : list entry;
  heap : H
}.
Arguments State {W H} world trace heap.
Arguments world {W H} s.
Arguments trace {W H} s.
Arguments heap {W H} s.

(** A computation returns, raises, or is left undetermined by the model
    ([None]): a loop ran out of fuel, or a coordinate was a float. *)
Definition M (W H A : Type) : Type := state W H -> option (outcome A * state W H).

Section Effects.

Context {W H : Type}.
Variable respond : forall A, call A -> W -> outcome A * W.

Definition ret {A} (a : A) : M W H A := fun s => Some (Returns a, s).

Definition raise {A} (e : exn) : M W H A := fun s => Some (Raises e, s).

Definition out_of_fuel {A} : M W H A := fun _ => None.

Definition float_coordinate {A} : M W H A := fun _ => None.

Definition lift {A} (r : outcome A) : M W H A := fun s => Some (r, s).

Definition bind {A B} (m : M W H A) (k : A -> M W H B) : M W H B :=
  fun s =>
    match m s with
    | Some (Returns a, s') => k a s'
    | Some (Raises e, s') => Some (Raises e, s')
    | None => None
    end.

(** [try: m except <the classes handles selects>: h] *)
Definition try_except {A} (m : M W H A) (handles : exn -> bool) (h : exn -> M W H A) : M W H A :=
  fun s =>
    match m s with
    | Some (Raises e, s') => if handles e then h e s' else Some (Raises e, s')
    | r => r
    end.

(** Issue a call: the world answers and the answer is logged. *)
Definition perform {A} (c : call A) : M W H A :=
  fun s =>
    let '(r, w') := respond A c (world s) in
    Some (r, State w' (trace s ++ [Entry c r]) (heap s)).

Definition get_heap : M W H H := fun s => Some (Returns (heap s), s).

Definition modify_heap (f : H -> H) : M W H unit :=
  fun s => Some (Returns tt, State (world s) (trace s) (f (heap s))).

End Effects.

Declare Scope eff_scope.
Delimit Scope eff_scope with eff.
Notation "x <- m ;; k" := (bind m (fun x => k))
  (at level 100, m at next level, right associativity) : eff_scope.
Notation "m ;; k" := (bind m (fun _ => k))
  (at level 100, right associativity) : eff_scope.
Local Open Scope eff_scope.

(** ** Pagination exhauster (vision_pagination.py) *)

(** [max_clicks = 20  # Safety limit to prevent infinite loops] *)
Definition max_clicks : Z := 20.

(** [page.viewport_size or {"width": 1280, "height": 800}] *)
Definition viewport_or_default (v : option (Z * Z)) : Z * Z :=
  match v with Some size => size | None => (1280, 800) end.

(** [int(viewport_size['height'] * 0.75)]: the product is exact and [int]
    truncates towards zero. *)
Definition scroll_step_of (height : Z) : Z := Z.quot (3 * height) 4.

(** [0 <= click_x < viewport_size['width'] and
     0 <= click_y < viewport_size['height']] *)
Definition in_viewport (viewport_size : Z * Z) (x y : Z) : bool :=
  (0 <=? x) && (x <? fst viewport_size) && (0 <=? y) && (y <? snd viewport_size).

Definition mode_none : dict := {[ "mode" := JStr "none" ]}.

Definition mode_vision_click (total_clicks : Z) : dict :=
  <[ "total_clicks" := JInt total_clicks ]> {[ "mode" := JStr "vision_click" ]}.

Section Pagination.

Context {W H : Type}.

(** The builtin [int] on a [str]; [None] stands for its [ValueError]. *)
Variable py_int : string -> option Z.

Variable respond : forall A, call A -> W -> outcome A * W.

Local Abbreviation M := (M W H).
Local Abbreviation perform := (perform (H:=H) respond).

(** The [try] block that opens a round; its [except] leaves the outer
    loop.  Returns [(page_height, scroll_step, max_iterations)]. *)
Definition round_setup (viewport_size : Z * Z) : M (Z * Z * Z) :=
  perform (ScrollTo 0 0) ;;
  perform (WaitForTimeout 500) ;;
  page_height <- perform ScrollHeight ;;
  let scroll_step := scroll_step_of (snd viewport_size) in
  if scroll_step =? 0 then raise ZeroDivisionError
  else ret (page_height, scroll_step, Z.min 15 (page_height / scroll_step + 2)).

(** Waiting for the page to settle after a click; no exception leaves it. *)
Definition settle_after_click : M unit :=
  try_except
    (perform (WaitForPageSettle 8000) ;; perform (WaitForTimeout 2000))
    any_exception
    (fun _ =>
       try_except
         (perform (WaitForLoadState "domcontentloaded" 10000) ;;
          perform (WaitForTimeout 3000))
         any_exception
         (fun _ => ret tt)).

(** The [try] block that parses [CLICK,x,y] and clicks, with its
    [except (ValueError, IndexError)].  Returns [true] when an element was
    clicked, where the source increments [total_clicks], sets
    [found_pagination] and breaks. *)
Definition click_reported_target (viewport_size : Z * Z) (vision_result : string) : M bool :=
  try_except
    (match PyStr.split "," (PyStr.strip vision_result) with
     | [p0; p1; p2] =>
         if String.eqb (PyStr.upper p0) "CLICK" then
           match py_int p1 with
           | None => raise ValueError
           | Some click_x =>
               match py_int p2 with
               | None => raise ValueError
               | Some click_y =>
                   if in_viewport viewport_size click_x click_y then
                     perform (ElementFromPoint click_x click_y) ;;
                     click_result <- perform (ClickElementFromPoint click_x click_y) ;;
                     match click_result with
                     | Some _ => settle_after_click ;; ret true
                     | None => ret false
                     end
                   else ret false
               end
           end
         else ret false
     | _ => ret false
     end)
    (fun e => is_ValueError e || is_IndexError e)
    (fun _ => ret false).

(** The [for iteration in range(max_iterations)] loop of one round, on the
    iterations that remain.  Returns [(total_clicks, found_pagination)]. *)
Fixpoint scan_page (viewport_size : Z * Z) (page_height scroll_step : Z)
    (iterations : nat) (total_clicks : Z) : M (Z * bool) :=
  match iterations with
  | O => ret (total_clicks, false)
  | S iterations' =>
      shot <- try_except
                (current_scroll <- perform PageYOffset ;;
                 screenshot_bytes <- perform Screenshot ;;
                 ret (Some (current_scroll, screenshot_bytes)))
                any_exception
                (fun _ => ret None) ;;
      match shot with
      | None => scan_page viewport_size page_height scroll_step iterations' total_clicks
      | Some (current_scroll, screenshot_bytes) =>
          try_except
            (perform PageUrl ;; perform (SaveScreenshot screenshot_bytes) ;; ret tt)
            any_exception
            (fun _ => ret tt) ;;
          response <- perform (ChatCompletion
                                 (PaginationPrompt (fst viewport_size) (snd viewport_size))
                                 screenshot_bytes 100) ;;
          let vision_result :=
            match response with Some content => PyStr.strip content | None => EmptyString end in
          clicked <- (if negb (PyStr.contains (PyStr.lower vision_result) "none")
                      then click_reported_target viewport_size vision_result
                      else ret false) ;;
          if clicked : bool then ret (total_clicks + 1, true)
          else
            scroll_on <- try_except
                           (if current_scroll + scroll_step >=? page_height then ret false
                            else
                              perform (ScrollTo 0 (current_scroll + scroll_step)) ;;
                              perform (WaitForTimeout 1000) ;;
                              ret true)
                           any_exception
                           (fun _ => ret false) ;;
            if scroll_on : bool
            then scan_page viewport_size page_height scroll_step iterations' total_clicks
            else ret (total_clicks, false)
      end
  end.

(** [while total_clicks < max_clicks: ...]; returns [total_clicks] at the
    loop's exit. *)
Fixpoint pagination_rounds (fuel : nat) (viewport_size : Z * Z) (total_clicks : Z) : M Z :=
  if total_clicks <? max_clicks then
    match fuel with
    | O => out_of_fuel
    | S fuel' =>
        setup <- try_except
                   (r <- round_setup viewport_size ;; ret (Some r))
                   any_exception
                   (fun _ => ret None) ;;
        match setup with
        | None => ret total_clicks
        | Some (page_height, scroll_step, max_iterations) =>
            r <- scan_page viewport_size page_height scroll_step
                   (Z.to_nat max_iterations) total_clicks ;;
            if snd r : bool
            then pagination_rounds fuel' viewport_size (fst r)
            else ret (fst r)
        end
    end
  else ret total_clicks.

(** [vision_detect_pagination(page)]; [fuel] bounds the rounds. *)
Definition vision_detect_pagination (LLM_API_AVAILABLE : bool) (fuel : nat) : M dict :=
  if negb LLM_API_AVAILABLE then ret mode_none
  else
    try_except
      (size <- perform ViewportSize ;;
       let viewport_size := viewport_or_default size in
       total_clicks <- pagination_rounds fuel viewport_size 0 ;;
       if total_clicks >? 0 then ret (mode_vision_click total_clicks)
       else ret mode_none)
      any_exception
      (fun _ => ret mode_none).

End Pagination.

(** ** Navigation traversal engine (job_page_discovery.py) *)

Definition MAX_PAGES_TO_EXPLORE : Z := 50.
Definition MAX_DEPTH : Z := 3.

(** An entry of [self.job_pages]. *)
Record job_page := JobPage {
  url : string;
  confidence : json;
  job_count : json;
  page_type : json;
  depth : Z
}.

(** The mutable variables of [discover_job_pages]: the attributes of
    [self] it touches and its local list [pages_to_explore]. *)
Record discovery := Discovery {
  visited_urls : gset string;
  job_pages : list job_page;
  all_discovered_elements : list json;
  pages_to_explore : list (string * Z)
}.

(** [JobPageDiscovery.__init__] *)
Definition new_discovery : discovery := Discovery ∅ [] [] [].

(** The dictionary [discover_job_pages] returns. *)
Record discovery_result := DiscoveryResult {
  result_job_pages : list job_page;
  total_pages_explored : Z;
  total_job_pages_found : Z;
  discovered_elements : list json;
  total_elements_discovered : Z
}.

(** [pages_to_explore.pop(0)] *)
Definition pop_front (d : discovery) : discovery :=
  Discovery (visited_urls d) (job_pages d) (all_discovered_elements d)
    (tail (pages_to_explore d)).

(** [self.visited_urls.add(current_url)] *)
Definition mark_visited (current_url : string) (d : discovery) : discovery :=
  Discovery ({[ current_url ]} ∪ visited_urls d) (job_pages d)
    (all_discovered_elements d) (pages_to_explore d).

(** [self.job_pages.append(...)] *)
Definition append_job_page (p : job_page) (d : discovery) : discovery :=
  Discovery (visited_urls d) (job_pages d ++ [p]) (all_discovered_elements d)
    (pages_to_explore d).

(** The elements [_find_job_navigation] appended to
    [self.all_discovered_elements]. *)
Definition append_elements (elements : list json) (d : discovery) : discovery :=
  Discovery (visited_urls d) (job_pages d) (all_discovered_elements d ++ elements)
    (pages_to_explore d).

(** [for link in links: if link not in self.visited_urls:
     pages_to_explore.append((link, depth + 1))] *)
Definition enqueue_links (links : list string) (depth : Z) (d : discovery) : discovery :=
  Discovery (visited_urls d) (job_pages d) (all_discovered_elements d)
    (pages_to_explore d ++
       map (fun link => (link, depth + 1))
         (filter (fun link => link ∉ visited_urls d) links)).

(** [pages_to_explore = [(link, 0) for link in job_nav_links]] *)
Definition start_frontier (job_nav_links : list string) (d : discovery) : discovery :=
  Discovery (visited_urls d) (job_pages d) (all_discovered_elements d)
    (map (fun link => (link, 0)) job_nav_links).

Definition result_of (d : discovery) : discovery_result :=
  DiscoveryResult (job_pages d)
    (Z.of_nat (size (visited_urls d)))
    (Z.of_nat (length (job_pages d)))
    (all_discovered_elements d)
    (Z.of_nat (length (all_discovered_elements d))).

Section Traversal.

Context {W : Type}.
Variable respond : forall A, call A -> W -> outcome A * W.

Local Abbreviation M := (M W discovery).
Local Abbreviation perform := (perform (H:=discovery) respond).

(** The body of the [try] block of one loop iteration. *)
Definition explore_page (verbose : bool) (current_url : string) (depth : Z) : M unit :=
  perform (Goto current_url 60000) ;;
  perform (WaitForTimeout 3000) ;;
  is_job_page <- perform VerifyJobListingPage ;;
  flag <- lift (Py.getitem is_job_page "is_job_page") ;;
  if Py.truthy flag then
    confidence <- lift (Py.getitem is_job_page "confidence") ;;
    modify_heap (append_job_page
              (JobPage current_url confidence
                 (Py.get is_job_page "job_count" (JInt 0))
                 (Py.get is_job_page "page_type" (JStr "unknown"))
                 depth)) ;;
    (if verbose then lift (Py.format_percent confidence) else ret tt) ;;
    related_links <- perform FindRelatedJobPages ;;
    modify_heap (enqueue_links related_links depth)
  else
    nav <- perform FindJobNavigation ;;
    modify_heap (append_elements (snd nav)) ;;
    (match fst nav with
     | [] => ret tt
     | nav_links => modify_heap (enqueue_links nav_links depth)
     end) ;;
    job_links <- perform FindJobLinksOnPage ;;
    modify_heap (enqueue_links job_links depth).

(** The body of the loop after [pages_to_explore.pop(0)]: [continue] on a
    URL already visited or too deep; otherwise mark it visited and explore
    the page, an exception of which ends the iteration. *)
Definition visit (verbose : bool) (current_url : string) (depth : Z) : M unit :=
  d <- get_heap ;;
  if bool_decide (current_url ∈ visited_urls d) || (depth >? MAX_DEPTH)
  then ret tt
  else
    modify_heap (mark_visited current_url) ;;
    try_except
      (explore_page verbose current_url depth)
      any_exception
      (fun _ => ret tt).

(** [while pages_to_explore and len(self.visited_urls) < MAX_PAGES_TO_EXPLORE] *)
Fixpoint explore (fuel : nat) (verbose : bool) : M unit :=
  d <- get_heap ;;
  match pages_to_explore d with
  | [] => ret tt
  | (current_url, depth) :: _ =>
      if Z.of_nat (size (visited_urls d)) <? MAX_PAGES_TO_EXPLORE then
        match fuel with
        | O => out_of_fuel
        | S fuel' =>
            modify_heap pop_front ;;
            visit verbose current_url depth ;;
            explore fuel' verbose
        end
      else ret tt
  end.

(** [discover_job_pages(page, start_url)]; [fuel] bounds the iterations of
    the loop. *)
Definition discover_job_pages (verbose : bool) (start_url : string) (fuel : nat)
    : M discovery_result :=
  perform (Goto start_url 60000) ;;
  perform (WaitForTimeout 3000) ;;
  nav <- perform FindJobNavigation ;;
  modify_heap (append_elements (snd nav)) ;;
  modify_heap (start_frontier (fst nav)) ;;
  explore fuel verbose ;;
  d <- get_heap ;;
  ret (result_of d).

End Traversal.

(** ** Vision query client: response post-processing *)

(** The block [# Extract JSON] of [_find_job_navigation],
    [_check_hidden_menus], [_find_related_job_pages] (job_page_discovery.py),
    [_extract_viewport_bboxes] (extract_bboxes.py) and [_find_job_element]
    (simple_job_discovery.py): the text between the first fence found
    anywhere and the next one. *)
Definition extract_json_block (result : string) : string :=
  if PyStr.contains result "```json" then
    let start := PyStr.find result "```json" + 7 in
    let stop := PyStr.find_from result "```" start in
    if stop >? start then PyStr.strip (PyStr.slice result start stop) else result
  else if PyStr.contains result "```" then
    let start := PyStr.find result "```" + 3 in
    let stop := PyStr.find_from result "```" start in
    if stop >? start then PyStr.strip (PyStr.slice result start stop) else result
  else result.

(** The block [# Extract JSON from markdown code blocks if present] of
    [_parse_vision_response] (viewport_analyzer.py) and
    [_find_job_links_on_page] (job_page_discovery.py): the text between a
    fence that opens the response and the last fence. *)
Definition extract_fenced (response : string) : string :=
  if PyStr.startswith response "```json" then
    let start := PyStr.find response "```json" + 7 in
    let stop := PyStr.rfind response "```" in
    if stop >? start then PyStr.strip (PyStr.slice response start stop) else response
  else if PyStr.startswith response "```" then
    let start := PyStr.find response "```" + 3 in
    let stop := PyStr.rfind response "```" in
    if stop >? start then PyStr.strip (PyStr.slice response start stop) else response
  else response.

Definition required_fields : list string := ["type"; "label"; "bbox"; "semantic_role"].

Definition valid_types : list string := ["button"; "input"; "link"; "clickable"].

(** [for field in required_fields: if field not in element: raise ValueError] *)
Fixpoint check_required (fields : list string) (element : json) : outcome unit :=
  match fields with
  | [] => Returns tt
  | field :: rest =>
      match Py.contains element field with
      | Raises e => Raises e
      | Returns false => Raises ValueError
      | Returns true => check_required rest element
      end
  end.

(** [_validate_element(element, index)] *)
Definition _validate_element (element : json) : outcome unit :=
  match check_required required_fields element with
  | Raises e => Raises e
  | Returns _ =>
      match Py.getitem element "type" with
      | Raises e => Raises e
      | Returns type =>
          if match type with
             | JStr s => existsb (String.eqb s) valid_types
             | _ => false
             end
          then
            match Py.getitem element "bbox" with
            | Raises e => Raises e
            | Returns (JArr [b0; b1; b2; b3]) =>
                if forallb Py.nonnegative_number [b0; b1; b2; b3]
                then Returns tt
                else Raises ValueError
            | Returns _ => Raises ValueError
            end
          else Raises ValueError
      end
  end.

(** [for i, element in enumerate(parsed["elements"]):
     self._validate_element(element, i)] *)
Fixpoint validate_elements (elements : list json) : outcome unit :=
  match elements with
  | [] => Returns tt
  | element :: rest =>
      match _validate_element element with
      | Raises e => Raises e
      | Returns _ => validate_elements rest
      end
  end.

Section VisionResponse.

(** [json.loads]: it returns a value or raises, [JSONDecodeError] on text
    that is not a document and possibly other exceptions ([RecursionError]
    on deep nesting). *)
Variable json_loads : string -> outcome json.

(** [_parse_vision_response(response)]: its [except json.JSONDecodeError]
    turns that error into a [ValueError] and lets any other through. *)
Definition _parse_vision_response (response : string) : outcome json :=
  match json_loads (extract_fenced response) with
  | Raises e => if is_JSONDecodeError e then Raises ValueError else Raises e
  | Returns parsed =>
      match parsed with
      | JObj members =>
          match Py.lookup_member "elements" members with
          | None => Raises ValueError
          | Some (JArr elements) =>
              match validate_elements elements with
              | Raises e => Raises e
              | Returns _ => Returns parsed
              end
          | Some _ => Raises ValueError
          end
      | _ => Raises ValueError
      end
  end.

(** What the [# Extract JSON] block and [json.loads] make of a response in
    [_find_job_navigation] and its siblings. *)
Definition loads_json_block (result : string) : outcome json :=
  json_loads (extract_json_block (PyStr.strip result)).

Context {W H : Type}.
Variable respond : forall A, call A -> W -> outcome A * W.

(** [urllib.parse.urljoin] *)
Variable urljoin : string -> string -> string.

Local Abbreviation M := (M W H).
Local Abbreviation perform := (perform (H:=H) respond).

(** [response.choices[0].message.content.strip()] *)
Definition first_choice (response : option string) : M string :=
  match response with
  | Some content => ret (PyStr.strip content)
  | None => raise IndexError
  end.

(** A coordinate of a box: an [int] ([bool] included); a float is left
    to [float_coordinate]. *)
Definition coordinate (v : json) : M Z :=
  match v with
  | JInt n => ret n
  | JBool b => ret (if b then 1 else 0)
  | JFloat _ _ | JNaN | JInf _ => float_coordinate
  | _ => raise TypeError
  end.

(** The body of [for element in elements] in [_find_job_links_on_page]:
    [links] with the link under the element's click point appended. *)
Definition link_of_element (element : json) (links : list string) : M (list string) :=
  bbox <- lift (Py.getitem element "bbox") ;;
  n <- lift (Py.len bbox) ;;
  if n =? 4 then
    v0 <- lift (Py.getindex bbox 0) ;;
    v1 <- lift (Py.getindex bbox 1) ;;
    v2 <- lift (Py.getindex bbox 2) ;;
    v3 <- lift (Py.getindex bbox 3) ;;
    b2 <- coordinate v2 ;;
    click <- (if b2 >? 100 then
                b3 <- coordinate v3 ;;
                if b3 >? 100 then
                  b0 <- coordinate v0 ;;
                  b1 <- coordinate v1 ;;
                  ret ((b0 + b2) / 2, (b1 + b3) / 2)
                else
                  b0 <- coordinate v0 ;;
                  b1 <- coordinate v1 ;;
                  ret (b0 + b2 / 2, b1 + b3 / 2)
              else
                b0 <- coordinate v0 ;;
                b3 <- coordinate v3 ;;
                b1 <- coordinate v1 ;;
                ret (b0 + b2 / 2, b1 + b3 / 2)) ;;
    href <- perform (HrefFromPoint (fst click) (snd click)) ;;
    match href with
    | Some target =>
        if String.eqb target EmptyString then ret links
        else
          page_url <- perform PageUrl ;;
          ret (links ++ [urljoin page_url target])
    | None => ret links
    end
  else ret links.

Fixpoint links_of_elements (elements : list json) (links : list string) : M (list string) :=
  match elements with
  | [] => ret links
  | element :: rest =>
      links' <- link_of_element element links ;;
      links_of_elements rest links'
  end.

(** [_find_job_links_on_page(page)] *)
Definition _find_job_links_on_page : M (list string) :=
  try_except
    (screenshot_bytes <- perform Screenshot ;;
     response <- perform (ChatCompletion JobLinksPrompt screenshot_bytes 500) ;;
     result <- first_choice response ;;
     match json_loads (extract_fenced result) with
     | Raises e => if is_JSONDecodeError e then ret [] else raise e
     | Returns parsed =>
         elements <- lift (Py.iter parsed) ;;
         links_of_elements elements []
     end)
    any_exception
    (fun _ => ret []).

(** [self._save_screenshot(url, screenshot_bytes)]: the path, or [None]. *)
Definition _save_screenshot (screenshot_bytes : string) : M json :=
  try_except
    (path <- perform (SaveScreenshot screenshot_bytes) ;; ret (JStr path))
    any_exception
    (fun _ => ret JNull).

Definition json_of_option (o : option string) : json :=
  match o with Some s => JStr s | None => JNull end.

(** The [except Exception as e] of [analyze_viewport_screenshot]. *)
Definition analysis_failure (page_url : option string) (e : exn) : M dict :=
  timestamp <- perform Now ;;
  ret (<[ "success" := JBool false ]>
       (<[ "error" := JStr (Py.str_of_exn e) ]>
        (<[ "page_url" := json_of_option page_url ]>
         {[ "timestamp" := JStr timestamp ]}))).

(** [analyze_viewport_screenshot(page, page_url, include_description,
    element_types)]: the metadata, overlaid with the members of the parsed
    response. *)
Definition analyze_viewport_screenshot (page_url : option string)
    (include_description : bool) (element_types : option (list string)) : M dict :=
  let element_types :=
    match element_types with
    | Some types => types
    | None => ["button"; "input"; "link"; "clickable"]
    end in
  try_except
    (page_url' <- match page_url with
                  | Some (String c rest) => ret (String c rest)
                  | _ => perform PageUrl
                  end ;;
     try_except
       (screenshot_bytes <- perform Screenshot ;;
        screenshot_path <- _save_screenshot screenshot_bytes ;;
        size <- perform ViewportSize ;;
        let viewport_size := viewport_or_default size in
        response <- perform (ChatCompletion
                               (AnalysisPrompt element_types include_description)
                               screenshot_bytes 2000) ;;
        response <- first_choice response ;;
        analysis_result <- lift (_parse_vision_response response) ;;
        timestamp <- perform Now ;;
        ret (dict_of_members
               ([("success", JBool true);
                 ("screenshot_path", screenshot_path);
                 ("page_url", JStr page_url');
                 ("viewport_size",
                   JObj [("width", JInt (fst viewport_size));
                         ("height", JInt (snd viewport_size))]);
                 ("timestamp", JStr timestamp)]
                ++ match analysis_result with JObj members => members | _ => [] end)))
       any_exception
       (analysis_failure (Some page_url')))
    any_exception
    (analysis_failure page_url).

End VisionResponse.

(** ** Action executor (viewport_analyzer.py) *)

(** The parameters of [perform_action]; [None] is Python's [None]. *)
Record action_args := ActionArgs {
  arg_bbox : option (list Z);
  arg_text : option string;
  arg_x : option Z;
  arg_y : option Z;
  arg_option_value : option string
}.

Definition json_of_bbox (bbox : list Z) : json := JArr (map JInt bbox).

Section Actions.

Context {W H : Type}.
Variable respond : forall A, call A -> W -> outcome A * W.

Local Abbreviation M := (M W H).
Local Abbreviation perform := (perform (H:=H) respond).

(** [if not bbox or len(bbox) != 4: raise ValueError(...)], then the
    click coordinates [bbox[0] + bbox[2] // 2, bbox[1] + bbox[3] // 2]. *)
Definition checked_center (bbox : option (list Z)) : M (list Z * Z * Z) :=
  match bbox with
  | Some [b0; b1; b2; b3] => ret ([b0; b1; b2; b3], b0 + b2 / 2, b1 + b3 / 2)
  | _ => raise ValueError
  end.

(** [_perform_click(page, bbox)] *)
Definition _perform_click (bbox : option (list Z)) : M dict :=
  c <- checked_center bbox ;;
  let '(bbox, click_x, click_y) := c in
  perform (MouseClick click_x click_y) ;;
  try_except
    (perform (WaitForLoadState "networkidle" 5000))
    any_exception
    (fun _ => perform (WaitForTimeout 2000)) ;;
  timestamp <- perform Now ;;
  ret (<[ "success" := JBool true ]>
       (<[ "action_type" := JStr "click" ]>
        (<[ "coordinates" := JArr [JInt click_x; JInt click_y] ]>
         (<[ "bbox" := json_of_bbox bbox ]>
          {[ "timestamp" := JStr timestamp ]})))).

(** [_perform_input(page, bbox, text)] *)
Definition _perform_input (bbox : option (list Z)) (text : option string) : M dict :=
  c <- checked_center bbox ;;
  let '(bbox, click_x, click_y) := c in
  match text with
  | Some (String ch rest) =>
      let text := String ch rest in
      perform (MouseClick click_x click_y) ;;
      perform (WaitForTimeout 1000) ;;
      perform (KeyboardPress "Control+a") ;;
      perform (WaitForTimeout 200) ;;
      perform (KeyboardType text) ;;
      perform (WaitForTimeout 500) ;;
      timestamp <- perform Now ;;
      ret (<[ "success" := JBool true ]>
           (<[ "action_type" := JStr "input" ]>
            (<[ "coordinates" := JArr [JInt click_x; JInt click_y] ]>
             (<[ "bbox" := json_of_bbox bbox ]>
              (<[ "text" := JStr text ]>
               {[ "timestamp" := JStr timestamp ]})))))
  | _ => raise ValueError
  end.

(** [_perform_select(page, bbox, option_value)] *)
Definition _perform_select (bbox : option (list Z)) (option_value : option string) : M dict :=
  c <- checked_center bbox ;;
  let '(bbox, click_x, click_y) := c in
  match option_value with
  | Some (String ch rest) =>
      let option_value := String ch rest in
      perform (MouseClick click_x click_y) ;;
      perform (WaitForTimeout 500) ;;
      try_except
        (perform (SelectOption option_value))
        any_exception
        (fun _ =>
           try_except
             (perform (ClickText option_value))
             any_exception
             (fun _ =>
                perform (KeyboardType option_value) ;;
                perform (KeyboardPress "Enter"))) ;;
      timestamp <- perform Now ;;
      ret (<[ "success" := JBool true ]>
           (<[ "action_type" := JStr "select" ]>
            (<[ "coordinates" := JArr [JInt click_x; JInt click_y] ]>
             (<[ "bbox" := json_of_bbox bbox ]>
              (<[ "option_value" := JStr option_value ]>
               {[ "timestamp" := JStr timestamp ]})))))
  | _ => raise ValueError
  end.

(** [_perform_scroll(page, x, y)] *)
Definition _perform_scroll (x y : option Z) : M dict :=
  match x, y with
  | Some x, Some y =>
      perform (ScrollTo x y) ;;
      perform (WaitForTimeout 1000) ;;
      timestamp <- perform Now ;;
      ret (<[ "success" := JBool true ]>
           (<[ "action_type" := JStr "scroll" ]>
            (<[ "coordinates" := JArr [JInt x; JInt y] ]>
             {[ "timestamp" := JStr timestamp ]})))
  | _, _ => raise ValueError
  end.

(** [perform_action(page, action_type, bbox, text, x, y, option_value)] *)
Definition perform_action (action_type : string) (args : action_args) : M dict :=
  try_except
    (if String.eqb action_type "click" then _perform_click (arg_bbox args)
     else if String.eqb action_type "input" then
       _perform_input (arg_bbox args) (arg_text args)
     else if String.eqb action_type "select" then
       _perform_select (arg_bbox args) (arg_option_value args)
     else if String.eqb action_type "scroll" then
       _perform_scroll (arg_x args) (arg_y args)
     else
       timestamp <- perform Now ;;
       ret (<[ "success" := JBool false ]>
            (<[ "error" := JStr ("Unknown action type: " ++ action_type) ]>
             {[ "timestamp" := JStr timestamp ]})))
    any_exception
    (fun e =>
       timestamp <- perform Now ;;
       ret (<[ "success" := JBool false ]>
            (<[ "error" := JStr (Py.str_of_exn e) ]>
             (<[ "action_type" := JStr action_type ]>
              {[ "timestamp" := JStr timestamp ]})))).

(** [perform_input_action(page, bbox, text)] *)
Definition perform_input_action (bbox : list Z) (text : string) : M dict :=
  perform_action "input" (ActionArgs (Some bbox) (Some text) None None None).

End Actions.

(** ** A scripted environment

    A small concrete page and model, for evaluating the functions above on
    explicit inputs. *)

Record script := Script {
  (* page.viewport_size *)
  script_viewport : option (Z * Z);
  (* document.body.scrollHeight *)
  script_height : Z;
  (* the content of the n-th chat completion, counted from 0 *)
  script_vision : nat -> string;
  (* whether an element lies under a viewport point *)
  script_element : Z -> Z -> bool;
  (* whether typing changes the focused field *)
  script_editable : bool;
  (* what the classifier says of the page at a URL *)
  script_classifier : string -> json;
  (* the links the discovery coroutines report on the page at a URL *)
  script_links : string -> list string
}.

Record browser := Browser {
  queries : nat;
  scroll_y : Z;
  field_value : string;
  current_url : string
}.

Definition scripted (p : script) (A : Type) (c : call A) (b : browser) : outcome A * browser :=
  match c in call A return outcome A * browser with
  | ViewportSize => (Returns (script_viewport p), b)
  | PageUrl => (Returns (current_url b), b)
  | Goto u _ => (Returns tt, Browser (queries b) 0 (field_value b) u)
  | WaitForTimeout _ => (Returns tt, b)
  | ScrollTo _ y => (Returns tt, Browser (queries b) y (field_value b) (current_url b))
  | ScrollHeight => (Returns (script_height p), b)
  | PageYOffset => (Returns (scroll_y b), b)
  | Screenshot => (Returns "png"%string, b)
  | SaveScreenshot _ => (Returns "screenshots/page.png"%string, b)
  | ChatCompletion _ _ _ =>
      (Returns (Some (script_vision p (queries b))),
       Browser (S (queries b)) (scroll_y b) (field_value b) (current_url b))
  | ElementFromPoint x y =>
      (Returns (if script_element p x y
                then Some (ElementInfo "BUTTON" "" "Next" "" true) else None), b)
  | ClickElementFromPoint x y =>
      (Returns (if script_element p x y
                then Some (ElementInfo "BUTTON" "" "Next" "" true) else None), b)
  | HrefFromPoint _ _ => (Returns None, b)
  | ValueFromPoint _ _ => (Returns (field_value b), b)
  | MouseClick _ _ => (Returns tt, b)
  | KeyboardPress _ => (Returns tt, b)
  | KeyboardType t =>
      (Returns tt,
       if script_editable p
       then Browser (queries b) (scroll_y b) t (current_url b) else b)
  | SelectOption _ => (Raises SurfaceError, b)
  | ClickText _ => (Raises SurfaceError, b)
  | WaitForPageSettle _ => (Returns tt, b)
  | WaitForLoadState _ _ => (Returns tt, b)
  | Now => (Returns "2025-01-01T00:00:00"%string, b)
  | FindJobNavigation => (Returns (script_links p (current_url b), []), b)
  | VerifyJobListingPage => (Returns (script_classifier p (current_url b)), b)
  | FindRelatedJobPages => (Returns (script_links p (current_url b)), b)
  | FindJobLinksOnPage => (Returns [], b)
  end.

Definition blank_browser : browser := Browser 0 0 "" "about:blank".

(** The decoder of the scripted runs: [json.loads] where the interpreter
    leaves room for 900 levels of nesting. *)
Definition scripted_loads : string -> outcome json := Json.loads 900.

Definition start {Hp : Type} (h : Hp) : state browser Hp := State blank_browser [] h.

(** A page on which every query reports a target at (100, 200). *)
Definition always_click : script :=
  Script None 3000 (fun _ => "CLICK,100,200"%string) (fun _ _ => true) true
    (fun _ => JNull) (fun _ => []).

(** A page on which every query reports no forward pagination. *)
Definition always_none : script :=
  Script None 3000 (fun _ => "NONE"%string) (fun _ _ => true) true
    (fun _ => JNull) (fun _ => []).

(** A page whose model reports a point outside the viewport, then a point
    with no element under it, then a point with one, then nothing. *)
Definition mixed_reports : script :=
  Script (Some (1280, 800)) 3000
    (fun n => match n with
              | O => "CLICK,1280,10"
              | 1%nat => "CLICK,5,5"
              | 2%nat => "click, 640 ,400"
              | _ => "NONE"
              end%string)
    (fun x y => 100 <? x) true (fun _ => JNull) (fun _ => []).

(** A page whose only field ignores typing. *)
Definition read_only_field : script :=
  Script None 800 (fun _ => "NONE"%string) (fun _ _ => true) false
    (fun _ => JNull) (fun _ => []).

(** A model that answers every query with text that is not JSON. *)
Definition garbled_model : script :=
  Script None 800 (fun _ => "not json"%string) (fun _ _ => true) true
    (fun _ => JNull) (fun _ => []).

(** A site of three pages linked in a cycle, none of them a job page. *)
Definition cyclic_site : script :=
  Script None 800 (fun _ => "[]"%string) (fun _ _ => false) true
    (fun _ => JObj [("is_job_page", JBool false); ("confidence", JFloat 9 (-1))])
    (fun u => if String.eqb u "https://a.example/" then ["https://a.example/b"; "https://a.example/c"]
              else if String.eqb u "https://a.example/b" then ["https://a.example/c"; "https://a.example/b"]
              else ["https://a.example/b"])%string.

(** A site on which nothing job-related is ever found. *)
Definition barren_site : script :=
  Script None 800 (fun _ => "[]"%string) (fun _ _ => false) true
    (fun _ => JObj [("is_job_page", JBool false); ("confidence", JFloat 0 0)])
    (fun _ => []).

(** A page one pixel high on which every query reports the target (0, 0). *)
Definition flat_viewport : script :=
  Script (Some (1280, 1)) 3000 (fun _ => "CLICK,0,0"%string) (fun _ _ => true) true
    (fun _ => JNull) (fun _ => []).

(** The page [always_click], except that the probe of the element under a
    point ([document.elementFromPoint], evaluated before the click) raises. *)
Definition probe_fails (A : Type) (c : call A) (b : browser) : outcome A * browser :=
  match c in call A return outcome A * browser with
  | ElementFromPoint _ _ => (Raises SurfaceError, b)
  | c' => scripted always_click _ c' b
  end.

(** The site [barren_site], except that no page of it loads: [page.goto]
    raises. *)
Definition unreachable_site (A : Type) (c : call A) (b : browser) : outcome A * browser :=
  match c in call A return outcome A * browser with
  | Goto _ _ => (Raises SurfaceError, b)
  | c' => scripted barren_site _ c' b
  end.

(** ** Observations on a trace *)

(** A click of the pagination exhauster: its point, and whether an element
    was clicked. *)
Definition click_attempt (e : entry) : option (Z * Z * bool) :=
  match e with
  | Entry c r =>
      match c in call T return outcome T -> option (Z * Z * bool) with
      | ClickElementFromPoint x y =>
          fun r => Some (x, y, match r with Returns (Some _) => true | _ => false end)
      | _ => fun _ => None
      end r
  end.

Definition click_attempts (tr : list entry) : list (Z * Z * bool) :=
  omap click_attempt tr.

(** Every click attempted lies inside the viewport. *)
Definition clicks_inside (viewport_size : Z * Z) (tr : list entry) : Prop :=
  Forall (fun a => in_viewport viewport_size a.1.1 a.1.2 = true) (click_attempts tr).

(** The number of clicks that hit an element. *)
Definition successful_clicks (tr : list entry) : Z :=
  Z.of_nat (length (List.filter snd (click_attempts tr))).

(** The rounds started: each reads the page height once. *)
Definition is_height_read (e : entry) : bool :=
  match e with
  | Entry c _ => match c with ScrollHeight => true | _ => false end
  end.

Definition rounds_started (tr : list entry) : nat :=
  length (List.filter is_height_read tr).

(** The URLs the traversal navigated to. *)
Definition navigation (e : entry) : option string :=
  match e with
  | Entry c _ => match c with Goto u _ => Some u | _ => None end
  end.

Definition navigations (tr : list entry) : list string := omap navigation tr.

(** The URLs the discovery coroutines reported. *)
Definition reported_links (e : entry) : list string :=
  match e with
  | Entry c r =>
      match c in call T return outcome T -> list string with
      | FindJobNavigation => fun r => match r with Returns nav => fst nav | _ => [] end
      | FindRelatedJobPages => fun r => match r with Returns l => l | _ => [] end
      | FindJobLinksOnPage => fun r => match r with Returns l => l | _ => [] end
      | _ => fun _ => []
      end r
  end.

Definition encountered (tr : list entry) : gset string :=
  list_to_set (flat_map reported_links tr).

(** The reads of a form control's value. *)
Definition is_value_read (e : entry) : bool :=
  match e with
  | Entry c _ => match c with ValueFromPoint _ _ => true | _ => false end
  end.

(** ** Assumptions on an environment *)

Section Assumptions.

Context {W : Type}.
Variable py_int : string -> option Z.
Variable respond : forall A, call A -> W -> outcome A * W.

(** The page answers the calls of a pagination scan without raising, and
    reports a height that is not negative. *)
Definition page_answers : Prop :=
  (forall x y w, fst (respond _ (ScrollTo x y) w) = Returns tt) /\
  (forall ms w, fst (respond _ (WaitForTimeout ms) w) = Returns tt) /\
  (forall w, exists h, fst (respond _ ScrollHeight w) = Returns h /\ 0 <= h) /\
  (forall w, exists y, fst (respond _ PageYOffset w) = Returns y) /\
  (forall w, exists image, fst (respond _ Screenshot w) = Returns image) /\
  (forall x y w, exists info, fst (respond _ (ElementFromPoint x y) w) = Returns info) /\
  (forall w, exists v, fst (respond _ ViewportSize w) = Returns v).

(** The viewport the exhauster works with when started in world [w]. *)
Definition viewport_seen (w : W) : Z * Z :=
  viewport_or_default
    (match fst (respond _ ViewportSize w) with
     | Returns v => v
     | Raises _ => None
     end).

(** The text of a reply names a target inside the viewport, in the form
    the exhauster accepts. *)
Definition valid_target (viewport_size : Z * Z) (content : string) : Prop :=
  PyStr.contains (PyStr.lower (PyStr.strip content)) "none" = false /\
  exists p0 p1 p2 x y,
    PyStr.split "," (PyStr.strip (PyStr.strip content)) = [p0; p1; p2] /\
    PyStr.upper p0 = "CLICK"%string /\
    py_int p1 = Some x /\ py_int p2 = Some y /\
    in_viewport viewport_size x y = true.

(** Every vision query reports a valid target. *)
Definition always_reports_target (viewport_size : Z * Z) : Prop :=
  forall p image max_tokens w,
  exists content,
    fst (respond _ (ChatCompletion p image max_tokens) w) = Returns (Some content) /\
    valid_target viewport_size content.

(** Every vision query answers with the same text. *)
Definition always_reports (content : string) : Prop :=
  forall p image max_tokens w,
    fst (respond _ (ChatCompletion p image max_tokens) w) = Returns (Some content).

(** Every click finds an element under its point. *)
Definition every_click_succeeds : Prop :=
  forall x y w, exists info,
    fst (respond _ (ClickElementFromPoint x y) w) = Returns (Some info).

(** The classifier never says that a page is a job page. *)
Definition classifier_always_false : Prop :=
  forall w v, fst (respond _ VerifyJobListingPage w) = Returns v ->
    exists flag, Py.getitem v "is_job_page" = Returns flag /\ Py.truthy flag = false.

(** No discovery coroutine ever reports a link or an element. *)
Definition nothing_discovered : Prop :=
  (forall w, fst (respond _ FindJobNavigation w) = Returns ([], [])) /\
  (forall w, fst (respond _ FindRelatedJobPages w) = Returns []) /\
  (forall w, fst (respond _ FindJobLinksOnPage w) = Returns []).

(** The start page loads, and the search for navigation on it returns. *)
Definition start_page_loads (start_url : string) (w : W) : Prop :=
  exists w1 w2 nav w3,
    respond _ (Goto start_url 60000) w = (Returns tt, w1) /\
    respond _ (WaitForTimeout 3000) w1 = (Returns tt, w2) /\
    respond _ FindJobNavigation w2 = (Returns nav, w3).

(** The clock answers. *)
Definition clock_answers : Prop :=
  forall w, exists timestamp, fst (respond _ Now w) = Returns timestamp.

(** Every vision reply is, after the fence extraction of
    [_parse_vision_response] and [_find_job_links_on_page], text that
    [json_loads] rejects with [JSONDecodeError]. *)
Definition replies_are_not_json (json_loads : string -> outcome json) : Prop :=
  forall p image max_tokens w content,
    fst (respond _ (ChatCompletion p image max_tokens) w) = Returns (Some content) ->
    json_loads (extract_fenced (PyStr.strip content)) = Raises JSONDecodeError.

End Assumptions.

(** A double quote, and a word between double quotes. *)
Definition dq : string := String (ascii_of_nat 34) EmptyString.

Definition quoted (s : string) : string := (dq ++ s ++ dq)%string.

(** A response in a fenced code block: the fence, a language tag that may
    be empty, the payload, the fence. *)
Definition fenced (tag payload : string) : string :=
  ("```" ++ tag ++ payload ++ "```")%string.

(** The JSON array of one element whose label is a fence. *)
Definition fence_label_payload : string :=
  ("[{" ++ quoted "label" ++ ": " ++ quoted "```" ++ ", " ++ quoted "bbox"
   ++ ": [1, 2, 300, 400]}]")%string.

(** A JSON object with no element, itself in a fenced block. *)
Definition nested_fence_payload : string :=
  fenced "json" ("{" ++ quoted "elements" ++ ": []}").

(** The URLs waiting in the frontier. *)
Definition frontier_urls (d : discovery) : gset string :=
  list_to_set (map fst (pages_to_explore d)).
(** * Theorems *)

(** ** Coordinate resolver *)

(** C1. For every box of four values, the click point is the centre of the
    corners, [((x1+x2)/2, (y1+y2)/2)], when the third and the fourth value
    both exceed 100, and the centre of origin and size,
    [(x+w/2, y+h/2)], when the third or the fourth is at most 100.  The
    division is the floor division [//] of the sources on integers. *)
Theorem click_point_by_encoding (b0 b1 b2 b3 : Z) :
  (b2 > 100 /\ b3 > 100 ->
     resolve_click_point [b0; b1; b2; b3] = Some ((b0 + b2) / 2, (b1 + b3) / 2)) /\
  (b2 <= 100 \/ b3 <= 100 ->
     resolve_click_point [b0; b1; b2; b3] = Some (b0 + b2 / 2, b1 + b3 / 2)).
Proof.
  unfold resolve_click_point. split.
  - intros [H2 H3].
    assert (E2 : (b2 >? 100) = true) by (apply Z.gtb_lt; lia).
    assert (E3 : (b3 >? 100) = true) by (apply Z.gtb_lt; lia).
    now rewrite E2, E3.
  - intros Hsmall.
    destruct (b2 >? 100) eqn:E2; [destruct (b3 >? 100) eqn:E3|]; simpl; try reflexivity.
    apply Z.gtb_lt in E2, E3. lia.
Qed.

Lemma click_point_by_encoding_witness :
  resolve_click_point [10; 20; 300; 401] = Some ((10 + 300) / 2, (20 + 401) / 2) /\
  resolve_click_point [10; 20; 81; 300] = Some (10 + 81 / 2, 20 + 300 / 2).
Proof.
  split.
  - apply (proj1 (click_point_by_encoding 10 20 300 401)). lia.
  - apply (proj2 (click_point_by_encoding 10 20 81 300)). lia.
Defined.

(** The click point is the exact centre rounded down, coordinate by
    coordinate. *)
Lemma click_point_rounds_down (b0 b1 b2 b3 x y : Z) :
  resolve_click_point [b0; b1; b2; b3] = Some (x, y) ->
  if (b2 >? 100) && (b3 >? 100)
  then 2 * x <= b0 + b2 < 2 * x + 2 /\ 2 * y <= b1 + b3 < 2 * y + 2
  else 2 * (x - b0) <= b2 < 2 * (x - b0) + 2 /\ 2 * (y - b1) <= b3 < 2 * (y - b1) + 2.
Proof.
  unfold resolve_click_point.
  destruct ((b2 >? 100) && (b3 >? 100)); intros E; injection E as <- <-.
  - pose proof (Z.div_mod (b0 + b2) 2). pose proof (Z.mod_pos_bound (b0 + b2) 2).
    pose proof (Z.div_mod (b1 + b3) 2). pose proof (Z.mod_pos_bound (b1 + b3) 2). lia.
  - pose proof (Z.div_mod b2 2). pose proof (Z.mod_pos_bound b2 2).
    pose proof (Z.div_mod b3 2). pose proof (Z.mod_pos_bound b3 2). lia.
Qed.

(** A box that is not of length four has no click point. *)
Lemma click_point_needs_four (bbox : list Z) :
  length bbox <> 4%nat -> resolve_click_point bbox = None.
Proof.
  destruct bbox as [|a [|b [|c [|d [|e l]]]]]; simpl; intros H; try reflexivity.
  now contradiction H.
Qed.

(** C8. For every box of four values and every scroll offset, the
    page-absolute box adds the offset to the second and the fourth value
    and keeps the first and the third. *)
Theorem bbox_absolute_shifts_y_only (b0 b1 b2 b3 scroll_position : Z) :
  bbox_absolute [b0; b1; b2; b3] scroll_position =
  Some [b0; b1 + scroll_position; b2; b3 + scroll_position].
Proof. reflexivity. Qed.

(** The same, read coordinate by coordinate on a box of any length. *)
Lemma bbox_absolute_coordinates (bbox absolute : list Z) (scroll_position : Z) :
  bbox_absolute bbox scroll_position = Some absolute ->
  absolute !! 0%nat = bbox !! 0%nat /\
  absolute !! 2%nat = bbox !! 2%nat /\
  absolute !! 1%nat = (fun y => y + scroll_position) <$> bbox !! 1%nat /\
  absolute !! 3%nat = (fun y => y + scroll_position) <$> bbox !! 3%nat /\
  length absolute = 4%nat.
Proof.
  unfold bbox_absolute.
  destruct (bbox !! 0%nat) eqn:E0; [|discriminate].
  destruct (bbox !! 1%nat) eqn:E1; [|discriminate].
  destruct (bbox !! 2%nat) eqn:E2; [|discriminate].
  destruct (bbox !! 3%nat) eqn:E3; [|discriminate].
  intros E; injection E as <-. simpl. repeat split; reflexivity.
Qed.

(** A box shorter than four raises. *)
Lemma bbox_absolute_short (bbox : list Z) (scroll_position : Z) :
  (length bbox < 4)%nat -> bbox_absolute bbox scroll_position = None.
Proof.
  destruct bbox as [|a [|b [|c [|d l]]]]; simpl; intros H; try reflexivity. lia.
Qed.

(** ** Rules for the effect monad *)

Section Rules.

Context {W H : Type}.
Variable respond : forall A, call A -> W -> outcome A * W.

(** [run m Q s] holds when [m], started in [s], ends in an outcome and a
    state that satisfy [Q]; a run the model leaves undetermined satisfies
    it only when [partial] holds. *)
Definition run (partial : Prop) {A} (m : M W H A)
    (Q : outcome A -> state W H -> Prop) (s : state W H) : Prop :=
  match m s with
  | Some (r, s') => Q r s'
  | None => partial
  end.

Lemma run_ret partial {A} (a : A) Q s :
  Q (Returns a) s -> run partial (ret a) Q s.
Proof. exact (fun q => q). Qed.

Lemma run_raise partial {A} (e : exn) (Q : outcome A -> _) s :
  Q (Raises e) s -> run partial (raise e) Q s.
Proof. exact (fun q => q). Qed.

Lemma run_lift partial {A} (r : outcome A) Q s :
  Q r s -> run partial (lift r) Q s.
Proof. exact (fun q => q). Qed.

Lemma run_get_heap partial (Q : outcome H -> _) s :
  Q (Returns (heap s)) s -> run partial get_heap Q s.
Proof. exact (fun q => q). Qed.

Lemma run_modify_heap partial (f : H -> H) Q s :
  Q (Returns tt) (State (world s) (trace s) (f (heap s))) -> run partial (modify_heap f) Q s.
Proof. exact (fun q => q). Qed.

Lemma run_bind partial {A B} (m : M W H A) (k : A -> M W H B) Q s :
  run partial m
    (fun r s' =>
       match r with
       | Returns a => run partial (k a) Q s'
       | Raises e => Q (Raises e) s'
       end) s ->
  run partial (bind m k) Q s.
Proof.
  unfold run, bind. destruct (m s) as [[[a|e] s']|]; auto.
Qed.

Lemma run_try_except partial {A} (m : M W H A) (handles : exn -> bool)
    (h : exn -> M W H A) (Q : outcome A -> state W H -> Prop) s :
  run partial m
    (fun r s' =>
       match r with
       | Returns a => Q (Returns a) s'
       | Raises e => if handles e then run partial (h e) Q s' else Q (Raises e) s'
       end) s ->
  run partial (try_except m handles h) Q s.
Proof.
  unfold run, try_except. destruct (m s) as [[[a|e] s']|]; auto.
  destruct (handles e); auto.
Qed.

Lemma run_perform partial {A} (c : call A) Q s :
  (forall r w', respond A c (world s) = (r, w') ->
                Q r (State w' (trace s ++ [Entry c r]) (heap s))) ->
  run partial (perform respond c) Q s.
Proof.
  unfold run, perform. intros HQ.
  destruct (respond A c (world s)) as [r w'] eqn:E. now apply HQ.
Qed.

Lemma run_consequence partial {A} (m : M W H A) (Q Q' : outcome A -> state W H -> Prop) s :
  (forall r s', Q r s' -> Q' r s') -> run partial m Q s -> run partial m Q' s.
Proof.
  unfold run. intros HQ. destruct (m s) as [[r s']|]; auto.
Qed.

Lemma run_total_partial {A} (m : M W H A) Q s :
  run False m Q s -> run True m Q s.
Proof. unfold run. destruct (m s) as [[r s']|]; auto. Qed.

Lemma run_total_result {A} (m : M W H A) Q s :
  run False m Q s <-> exists r s', m s = Some (r, s') /\ Q r s'.
Proof.
  unfold run. split.
  - destruct (m s) as [[r s']|]; [eauto | tauto].
  - intros (r & s' & -> & HQ). exact HQ.
Qed.

Lemma run_partial_result {A} (m : M W H A) Q s :
  run True m Q s <-> forall r s', m s = Some (r, s') -> Q r s'.
Proof.
  unfold run. split.
  - intros HQ r s' E. now rewrite E in HQ.
  - intros HQ. destruct (m s) as [[r s']|]; auto.
Qed.

End Rules.

(** ** Pagination exhauster *)

Ltac run_step :=
  lazymatch goal with
  | |- run _ (bind _ _) _ _ => apply run_bind
  | |- run _ (try_except _ _ _) _ _ => apply run_try_except
  | |- run _ (perform _ _) _ _ => apply run_perform; intros ? ? ?
  | |- run _ (ret _) _ _ => apply run_ret
  | |- run _ (raise _) _ _ => apply run_raise
  | |- run _ (lift _) _ _ => apply run_lift
  | |- run _ get_heap _ _ => apply run_get_heap
  | |- run _ (modify_heap _) _ _ => apply run_modify_heap
  end.

Lemma click_attempts_app (tr1 tr2 : list entry) :
  click_attempts (tr1 ++ tr2) = click_attempts tr1 ++ click_attempts tr2.
Proof. apply omap_app. Qed.

Lemma rounds_started_app (tr1 tr2 : list entry) :
  rounds_started (tr1 ++ tr2) = (rounds_started tr1 + rounds_started tr2)%nat.
Proof. unfold rounds_started. now rewrite List.filter_app, length_app. Qed.

Lemma successful_clicks_app (tr1 tr2 : list entry) :
  successful_clicks (tr1 ++ tr2) = successful_clicks tr1 + successful_clicks tr2.
Proof.
  unfold successful_clicks. rewrite click_attempts_app, List.filter_app, length_app. lia.
Qed.

Lemma clicks_inside_app viewport_size (tr1 tr2 : list entry) :
  clicks_inside viewport_size (tr1 ++ tr2) <->
  clicks_inside viewport_size tr1 /\ clicks_inside viewport_size tr2.
Proof. unfold clicks_inside. rewrite click_attempts_app. apply Forall_app. Qed.

(** What a run adds to the trace: no click and no round. *)
Definition quiet (extra : list entry) : Prop :=
  click_attempts extra = [] /\ rounds_started extra = 0%nat.

Lemma quiet_nil : quiet [].
Proof. split; reflexivity. Qed.

Lemma quiet_app (e1 e2 : list entry) : quiet e1 -> quiet e2 -> quiet (e1 ++ e2).
Proof.
  intros [H1 H2] [H3 H4]. split.
  - now rewrite click_attempts_app, H1, H3.
  - now rewrite rounds_started_app, H2, H4.
Qed.

Lemma quiet_successful (extra : list entry) : quiet extra -> successful_clicks extra = 0.
Proof. intros [E _]. unfold successful_clicks. now rewrite E. Qed.

Lemma quiet_inside viewport_size (extra : list entry) :
  quiet extra -> clicks_inside viewport_size extra.
Proof. intros [E _]. unfold clicks_inside. rewrite E. constructor. Qed.

Create HintDb quiet.
#[local] Hint Resolve quiet_nil quiet_app : quiet.

(** The shape of every specification below: the run appends [extra] to
    the trace, and [P] relates the outcome to what was appended. *)
Definition appends {W H A} (s : state W H) (P : outcome A -> list entry -> Prop)
    (r : outcome A) (s' : state W H) : Prop :=
  exists extra, trace s' = trace s ++ extra /\ P r extra.

Lemma appends_here {W H A} (s : state W H) (P : outcome A -> list entry -> Prop) r s' :
  trace s' = trace s -> P r [] -> appends s P r s'.
Proof. intros E HP. exists []. now rewrite app_nil_r. Qed.

Lemma appends_after {W H A} (s s1 : state W H) (e1 : list entry)
    (P P' : outcome A -> list entry -> Prop) r s' :
  trace s1 = trace s ++ e1 ->
  (forall extra, P r extra -> P' r (e1 ++ extra)) ->
  appends s1 P r s' -> appends s P' r s'.
Proof.
  intros E HP (extra & E' & HPr). exists (e1 ++ extra).
  split; [now rewrite E', E, app_assoc | now apply HP].
Qed.

Section PaginationFacts.

Context {W H : Type}.
Variable py_int : string -> option Z.
Variable respond : forall A, call A -> W -> outcome A * W.

Lemma settle_is_quiet partial (s : state W H) :
  run partial (settle_after_click respond)
    (appends s (fun r extra => r = Returns tt /\ quiet extra)) s.
Proof.
  unfold settle_after_click.
  repeat (run_step; try match goal with r : outcome unit |- _ => destruct r as [[]|?] end);
    cbn [any_exception trace];
    repeat (run_step; try match goal with r : outcome unit |- _ => destruct r as [[]|?] end);
    cbn [any_exception trace];
    (eexists; split; [rewrite <- ?app_assoc; reflexivity | split; [reflexivity | split; reflexivity]]).
Qed.

(** What one handled report adds: at most one click, inside the viewport,
    and a click that hit an element exactly when [true] is returned. *)
Definition report_adds (viewport_size : Z * Z) (r : outcome bool) (extra : list entry) : Prop :=
  clicks_inside viewport_size extra /\
  rounds_started extra = 0%nat /\
  successful_clicks extra = match r with Returns true => 1 | _ => 0 end /\
  (length (click_attempts extra) <= 1)%nat.

Lemma report_adds_quiet viewport_size (r : outcome bool) (extra : list entry) :
  quiet extra -> r <> Returns true -> report_adds viewport_size r extra.
Proof.
  intros Hq Hr. pose proof (quiet_successful _ Hq) as Hs.
  pose proof (quiet_inside viewport_size _ Hq) as Hi. destruct Hq as [Ha Hn].
  repeat split; auto.
  - rewrite Hs. destruct r as [[]|]; congruence.
  - rewrite Ha. simpl. lia.
Qed.

Lemma click_reported_target_adds partial viewport_size vision_result (s : state W H) :
  run partial (click_reported_target py_int respond viewport_size vision_result)
    (appends s (report_adds viewport_size)) s.
Proof.
  unfold click_reported_target. apply run_try_except.
  destruct (PyStr.split "," (PyStr.strip vision_result)) as [|p0 [|p1 [|p2 [|p3 l]]]];
    try (run_step; apply appends_here; [reflexivity | now apply report_adds_quiet; [apply quiet_nil|]]).
  destruct (String.eqb (PyStr.upper p0) "CLICK");
    [| run_step; apply appends_here; [reflexivity | now apply report_adds_quiet; [apply quiet_nil|]]].
  destruct (py_int p1) as [click_x|];
    [| run_step; cbn [is_ValueError is_IndexError orb]; run_step; apply appends_here;
       [reflexivity | now apply report_adds_quiet; [apply quiet_nil|]]].
  destruct (py_int p2) as [click_y|];
    [| run_step; cbn [is_ValueError is_IndexError orb]; run_step; apply appends_here;
       [reflexivity | now apply report_adds_quiet; [apply quiet_nil|]]].
  destruct (in_viewport viewport_size click_x click_y) eqn:Hin;
    [| run_step; apply appends_here; [reflexivity | now apply report_adds_quiet; [apply quiet_nil|]]].
  run_step. run_step.
  assert (Hq1 : forall r0 : outcome (option element_info),
             quiet [Entry (ElementFromPoint click_x click_y) r0])
    by (intros; split; reflexivity).
  destruct r as [info|e].
  2:{ destruct (is_ValueError e || is_IndexError e); [run_step|];
      (eexists; split; [cbn [trace]; reflexivity | now apply report_adds_quiet]). }
  run_step. run_step.
  set (e1 := Entry (ElementFromPoint click_x click_y) (Returns info)).
  assert (Hin' : forall r0, clicks_inside viewport_size
                   [e1; Entry (ClickElementFromPoint click_x click_y) r0]).
  { intros r0. unfold clicks_inside. cbn. constructor; [exact Hin | constructor]. }
  destruct r as [[clicked|]|e].
  - run_step. eapply run_consequence; [| apply settle_is_quiet].
    intros r s' (extra & E & -> & Hq). cbn [trace] in E.
    run_step.
    exists ([e1; Entry (ClickElementFromPoint click_x click_y) (Returns (Some clicked))] ++ extra).
    split; [rewrite E, <- !app_assoc; reflexivity|].
    pose proof (quiet_successful _ Hq) as Hs. pose proof (quiet_inside viewport_size _ Hq) as Hi.
    destruct Hq as [Ha Hn].
    repeat split.
    + apply clicks_inside_app. split; [apply Hin' | exact Hi].
    + rewrite rounds_started_app, Hn. reflexivity.
    + rewrite successful_clicks_app, Hs. reflexivity.
    + rewrite click_attempts_app, Ha. cbn. lia.
  - run_step.
    exists [e1; Entry (ClickElementFromPoint click_x click_y) (Returns None)].
    split; [cbn [trace]; rewrite <- !app_assoc; reflexivity|].
    repeat split; [apply Hin' | cbn; lia].
  - assert (Hadds : forall r0 : outcome bool, r0 <> Returns true ->
               report_adds viewport_size r0
                 [e1; Entry (ClickElementFromPoint click_x click_y) (Raises e)]).
    { intros r0 Hr0. repeat split; [apply Hin' | | cbn; lia].
      destruct r0 as [[]|]; [congruence | reflexivity | reflexivity]. }
    destruct (is_ValueError e || is_IndexError e); [run_step|];
      (eexists; split; [cbn [trace]; rewrite <- !app_assoc; reflexivity | now apply Hadds]).
Qed.

(** Entries that add no round and no click that hit an element, every
    click attempted being inside the viewport. *)
Definition harmless (viewport_size : Z * Z) (extra : list entry) : Prop :=
  clicks_inside viewport_size extra /\ rounds_started extra = 0%nat /\
  successful_clicks extra = 0.

Lemma quiet_harmless viewport_size extra : quiet extra -> harmless viewport_size extra.
Proof.
  intros Hq. repeat split; [now apply quiet_inside | apply Hq | now apply quiet_successful].
Qed.

Lemma report_harmless viewport_size (r : outcome bool) extra :
  report_adds viewport_size r extra -> r <> Returns true -> harmless viewport_size extra.
Proof.
  intros (Hi & Hn & Hs & _) Hr. repeat split; auto.
  rewrite Hs. destruct r as [[]|]; congruence.
Qed.

(** What a scan of the page adds: clicks inside the viewport, no round,
    and a counter that grew by the clicks that hit an element. *)
Definition scan_adds (viewport_size : Z * Z) (total_clicks : Z)
    (r : outcome (Z * bool)) (extra : list entry) : Prop :=
  clicks_inside viewport_size extra /\
  rounds_started extra = 0%nat /\
  match r with
  | Returns (total, found) =>
      total = total_clicks + successful_clicks extra /\
      total = total_clicks + (if found then 1 else 0)
  | Raises _ => successful_clicks extra = 0
  end.

Lemma scan_adds_after viewport_size total_clicks r (e1 extra : list entry) :
  harmless viewport_size e1 ->
  scan_adds viewport_size total_clicks r extra ->
  scan_adds viewport_size total_clicks r (e1 ++ extra).
Proof.
  intros (Hi & Hn & Hs) (Hi' & Hn' & Hr). repeat split.
  - apply clicks_inside_app. now split.
  - rewrite rounds_started_app, Hn, Hn'. reflexivity.
  - rewrite successful_clicks_app, Hs. destruct r as [[total found]|e]; [|lia].
    destruct Hr as [-> Hf]. split; [lia | exact Hf].
Qed.

Lemma harmless_nil viewport_size : harmless viewport_size [].
Proof. apply quiet_harmless, quiet_nil. Qed.

Lemma scan_adds_stop viewport_size total_clicks extra :
  harmless viewport_size extra ->
  scan_adds viewport_size total_clicks (Returns (total_clicks, false)) extra.
Proof. intros (Hi & Hn & Hs). repeat split; auto; rewrite ?Hs; lia. Qed.

Lemma scan_adds_raise viewport_size total_clicks e extra :
  harmless viewport_size extra ->
  scan_adds viewport_size total_clicks (Raises e) extra.
Proof. intros (Hi & Hn & Hs). repeat split; auto. Qed.

Ltac after E Hh :=
  eapply run_consequence;
  [ let HQ := fresh in
    intros ? ? HQ; eapply appends_after;
    [ exact E | intros ?; apply scan_adds_after; exact Hh | exact HQ ]
  | ].

Ltac quiet_block :=
  repeat (run_step;
          try match goal with
              | r : outcome _ |- _ => destruct r
              end;
          cbn [any_exception trace]);
  try (eexists; split;
       [ cbn [trace]; rewrite <- ?app_assoc; reflexivity
       | split; [split; reflexivity | eauto] ]).

Lemma read_viewport_is_quiet partial (s : state W H) :
  run partial
    (try_except
       (current_scroll <- perform respond PageYOffset ;;
        screenshot_bytes <- perform respond Screenshot ;;
        ret (Some (current_scroll, screenshot_bytes)))
       any_exception (fun _ => ret None))
    (appends s (fun r extra => quiet extra /\ exists v, r = Returns v)) s.
Proof. quiet_block. Qed.

Lemma save_debug_is_quiet partial image (s : state W H) :
  run partial
    (try_except
       (perform respond PageUrl ;; perform respond (SaveScreenshot image) ;; ret tt)
       any_exception (fun _ => ret tt))
    (appends s (fun r extra => quiet extra /\ exists v, r = Returns v)) s.
Proof. quiet_block. Qed.

Lemma scroll_on_is_quiet partial current_scroll scroll_step page_height (s : state W H) :
  run partial
    (try_except
       (if current_scroll + scroll_step >=? page_height then ret false
        else
          perform respond (ScrollTo 0 (current_scroll + scroll_step)) ;;
          perform respond (WaitForTimeout 1000) ;;
          ret true)
       any_exception (fun _ => ret false))
    (appends s (fun r extra => quiet extra /\ exists v, r = Returns v)) s.
Proof.
  destruct (current_scroll + scroll_step >=? page_height).
  - run_step. run_step. apply appends_here; [reflexivity | split; [apply quiet_nil | eauto]].
  - quiet_block.
Qed.

Lemma scan_page_adds partial viewport_size page_height scroll_step iterations :
  forall total_clicks (s : state W H),
  run partial (scan_page py_int respond viewport_size page_height scroll_step iterations total_clicks)
    (appends s (scan_adds viewport_size total_clicks)) s.
Proof.
  induction iterations as [|n IH]; intros total_clicks s; cbn [scan_page].
  - run_step. apply appends_here; [reflexivity|].
    apply scan_adds_stop, harmless_nil.
  - run_step. eapply run_consequence; [| apply read_viewport_is_quiet].
    intros r s1 (e1 & E1 & Hq1 & [[current_scroll image]|] & ->).
    2:{ after E1 (quiet_harmless viewport_size _ Hq1). apply IH. }
    after E1 (quiet_harmless viewport_size _ Hq1).
    run_step. eapply run_consequence; [| apply save_debug_is_quiet].
    intros r s2 (e2 & E2 & Hq2 & [] & ->).
    after E2 (quiet_harmless viewport_size _ Hq2).
    run_step. run_step.
    assert (Hq3 : quiet [Entry (ChatCompletion
                           (PaginationPrompt viewport_size.1 viewport_size.2) image 100) r])
      by (split; reflexivity).
    destruct r as [response|e].
    2:{ eexists; split; [reflexivity|].
        apply scan_adds_raise, quiet_harmless, Hq3. }
    match goal with
    | |- run _ _ _ ?s3 =>
        assert (E3 : trace s3 = trace s2 ++ [Entry (ChatCompletion
                       (PaginationPrompt viewport_size.1 viewport_size.2) image 100)
                       (Returns response)]) by reflexivity
    end.
    after E3 (quiet_harmless viewport_size _ Hq3).
    run_step.
    match goal with
    | |- run _ ?m _ ?s3 =>
        assert (Hrep : run partial m (appends s3 (report_adds viewport_size)) s3)
    end.
    { destruct (negb _).
      - apply click_reported_target_adds.
      - run_step. apply appends_here; [reflexivity|].
        now apply report_adds_quiet; [apply quiet_nil|]. }
    eapply run_consequence; [| exact Hrep].
    intros r s4 (e4 & E4 & Hr4). destruct r as [[|]|e].
    + run_step. exists e4. split; [exact E4|].
      destruct Hr4 as (Hi & Hn & Hs & _). repeat split; auto; rewrite Hs; lia.
    + after E4 (report_harmless viewport_size _ _ Hr4 ltac:(discriminate)).
      run_step. eapply run_consequence; [| apply scroll_on_is_quiet].
      intros r s5 (e5 & E5 & Hq5 & [|] & ->).
      * after E5 (quiet_harmless viewport_size _ Hq5). apply IH.
      * run_step. exists e5. split; [exact E5|].
        apply scan_adds_stop, quiet_harmless, Hq5.
    + exists e4. split; [exact E4|].
      apply scan_adds_raise. eapply report_harmless; [exact Hr4 | discriminate].
Qed.

(** What the rounds add: clicks inside the viewport, and a counter that
    grew by the clicks that hit an element. *)
Definition rounds_add (viewport_size : Z * Z) (total_clicks : Z)
    (r : outcome Z) (extra : list entry) : Prop :=
  clicks_inside viewport_size extra /\
  match r with
  | Returns total => total = total_clicks + successful_clicks extra
  | Raises _ => True
  end.

Lemma rounds_add_after viewport_size total_clicks mid r (e1 extra : list entry) :
  clicks_inside viewport_size e1 ->
  mid = total_clicks + successful_clicks e1 ->
  rounds_add viewport_size mid r extra ->
  rounds_add viewport_size total_clicks r (e1 ++ extra).
Proof.
  intros Hi -> (Hi' & Hr). split.
  - apply clicks_inside_app. now split.
  - destruct r; [|exact I]. rewrite successful_clicks_app. lia.
Qed.

Lemma round_setup_clicks_nothing partial viewport_size (s : state W H) :
  run partial
    (try_except (r <- round_setup respond viewport_size ;; ret (Some r))
       any_exception (fun _ => ret None))
    (appends s (fun r extra => click_attempts extra = [] /\ exists v, r = Returns v)) s.
Proof.
  unfold round_setup.
  repeat (run_step;
          try match goal with
              | r : outcome _ |- _ => destruct r
              end;
          cbn [any_exception trace]);
  try destruct (scroll_step_of _ =? 0);
  repeat (run_step; cbn [any_exception trace]);
  (eexists; split;
   [ cbn [trace]; rewrite <- ?app_assoc; reflexivity | split; [reflexivity | eauto] ]).
Qed.

Lemma clickless_inside viewport_size extra :
  click_attempts extra = [] -> clicks_inside viewport_size extra.
Proof. intros E. unfold clicks_inside. rewrite E. constructor. Qed.

Lemma clickless_successful extra :
  click_attempts extra = [] -> successful_clicks extra = 0.
Proof. intros E. unfold successful_clicks. now rewrite E. Qed.

(** With fuel for the rounds that remain below the ceiling, the loop
    ends, and what it added to the trace obeys [rounds_add]. *)
Lemma pagination_rounds_add viewport_size fuel :
  forall total_clicks (s : state W H),
  (Z.to_nat (max_clicks - total_clicks) <= fuel)%nat ->
  run False (pagination_rounds py_int respond fuel viewport_size total_clicks)
    (appends s (rounds_add viewport_size total_clicks)) s.
Proof.
  induction fuel as [|fuel IH]; intros total_clicks s Hfuel;
    cbn [pagination_rounds]; destruct (total_clicks <? max_clicks) eqn:Hlt;
    cbv iota;
    try (run_step; apply appends_here; [reflexivity|];
         split; [apply clickless_inside; reflexivity
                | rewrite clickless_successful by reflexivity; lia]).
  - apply Z.ltb_lt in Hlt. lia.
  - apply Z.ltb_lt in Hlt.
    run_step. eapply run_consequence; [| apply round_setup_clicks_nothing].
    intros r s1 (e1 & E1 & Hc1 & [[[page_height scroll_step] max_iterations]|] & ->).
    2:{ run_step. exists e1. split; [exact E1|].
        split; [now apply clickless_inside | rewrite clickless_successful by exact Hc1; lia]. }
    run_step. eapply run_consequence; [| apply (scan_page_adds False)].
    intros r s2 (e2 & E2 & Hi2 & _ & Hr2).
    destruct r as [[total found]|e]; cbn [fst snd].
    2:{ exists (e1 ++ e2). split; [rewrite E2, E1, app_assoc; reflexivity|].
        split; [|exact I]. apply clicks_inside_app. split; [now apply clickless_inside | exact Hi2]. }
    destruct Hr2 as [Ht Hf].
    assert (Hi12 : clicks_inside viewport_size (e1 ++ e2))
      by (apply clicks_inside_app; split; [now apply clickless_inside | exact Hi2]).
    assert (Ht12 : total = total_clicks + successful_clicks (e1 ++ e2))
      by (rewrite successful_clicks_app, clickless_successful by exact Hc1; lia).
    assert (E12 : trace s2 = trace s ++ (e1 ++ e2))
      by (rewrite E2, E1, app_assoc; reflexivity).
    destruct found.
    + eapply run_consequence; [| apply (IH total s2); lia].
      intros r s3 Hr3. eapply appends_after; [exact E12 | | exact Hr3].
      intros extra. now apply rounds_add_after.
    + run_step. exists (e1 ++ e2). split; [exact E12|]. split; [exact Hi12 | exact Ht12].
Qed.

(** C10. The exhauster never clicks outside the viewport: with fuel for
    the rounds below the ceiling it ends, every click it attempted lies
    at a point with [0 <= x < width] and [0 <= y < height], and the
    [total_clicks] it reports is the number of clicks that hit an element;
    a report whose point is outside these bounds issues no call at all and
    counts as no click. *)
Theorem clicks_stay_inside_viewport (w : W) (h : H) (fuel : nat) :
  (Z.to_nat max_clicks <= fuel)%nat ->
  (exists r s',
     vision_detect_pagination py_int respond true fuel (State w [] h) = Some (r, s') /\
     clicks_inside (viewport_seen respond w) (trace s') /\
     forall d n, r = Returns d -> d !! "total_clicks" = Some (JInt n) ->
                 n = successful_clicks (trace s')) /\
  (forall viewport_size vision_result p0 p1 p2 x y (s : state W H),
     PyStr.split "," (PyStr.strip vision_result) = [p0; p1; p2] ->
     py_int p1 = Some x -> py_int p2 = Some y ->
     in_viewport viewport_size x y = false ->
     click_reported_target py_int respond viewport_size vision_result s = Some (Returns false, s)).
Proof.
  intros Hfuel. split.
  - apply run_total_result. unfold vision_detect_pagination. cbn [negb].
    apply run_try_except. run_step. run_step. cbn [trace world heap] in *.
    assert (Hv : viewport_seen respond w =
                 viewport_or_default (match r with Returns v => v | Raises _ => None end)).
    { unfold viewport_seen. now rewrite H0. }
    destruct r as [v|e]; cbn [any_exception].
    2:{ run_step. cbn [trace]. split; [apply clickless_inside; reflexivity|].
        intros d n [= <-]. discriminate. }
    rewrite Hv. set (viewport_size := viewport_or_default v).
    run_step. eapply run_consequence;
      [| apply (pagination_rounds_add viewport_size fuel 0); exact Hfuel].
    intros r s1 (extra & E & Hi & Hr). cbn [trace] in E.
    assert (Hin : clicks_inside viewport_size (trace s1)).
    { rewrite E. apply clicks_inside_app. split; [apply clickless_inside; reflexivity | exact Hi]. }
    assert (Hs : successful_clicks (trace s1) = successful_clicks extra).
    { rewrite E, successful_clicks_app. reflexivity. }
    destruct r as [total|e].
    + destruct (total >? 0); run_step; (split; [exact Hin|]); intros d n [= <-].
      * unfold mode_vision_click. rewrite lookup_insert_eq. intros [= <-]. lia.
      * discriminate.
    + run_step. split; [exact Hin|]. intros d n [= <-]. discriminate.
  - intros viewport_size vision_result p0 p1 p2 x y s Hsplit Hx Hy Hout.
    unfold click_reported_target, try_except. rewrite Hsplit.
    destruct (String.eqb (PyStr.upper p0) "CLICK"); [|reflexivity].
    now rewrite Hx, Hy, Hout.
Qed.

End PaginationFacts.

Section PaginationRuns.

Context {W H : Type}.
Variable py_int : string -> option Z.
Variable respond : forall A, call A -> W -> outcome A * W.

(** Use an assumption on what the environment answers to a call. *)
Ltac answered Hyp E r :=
  let Hr := fresh in
  pose proof Hyp as Hr; rewrite E in Hr; cbn [fst] in Hr; subst r.

(** Issue a call whose answer the assumption [Hyp] fixes. *)
Ltac call_answered Hyp :=
  lazymatch goal with
  | |- run _ (perform _ _) _ ?s =>
      let r := fresh "r" in
      let w' := fresh "w'" in
      let E := fresh "E" in
      apply run_perform; intros r w' E;
      let Hr := fresh "Hr" in
      pose proof (Hyp (world s)) as Hr; rewrite E in Hr; cbn [fst] in Hr
  end.

Lemma scan_page_none viewport_size page_height scroll_step iterations :
  always_reports respond "NONE" ->
  forall total_clicks (s : state W H),
  run False (scan_page py_int respond viewport_size page_height scroll_step iterations total_clicks)
    (appends s (fun r extra => r = Returns (total_clicks, false) /\ quiet extra)) s.
Proof.
  intros Hnone. induction iterations as [|n IH]; intros total_clicks s; cbn [scan_page].
  - run_step. apply appends_here; [reflexivity | split; [reflexivity | apply quiet_nil]].
  - run_step. eapply run_consequence; [| apply read_viewport_is_quiet].
    intros r s1 (e1 & E1 & Hq1 & [[current_scroll image]|] & ->).
    2:{ eapply run_consequence; [| apply IH].
        intros r s2 Hr. eapply appends_after; [exact E1 | | exact Hr].
        intros extra [-> Hq]. split; [reflexivity | now apply quiet_app]. }
    run_step. eapply run_consequence; [| apply save_debug_is_quiet].
    intros r s2 (e2 & E2 & Hq2 & [] & ->).
    run_step. run_step.
    answered (Hnone (PaginationPrompt viewport_size.1 viewport_size.2) image 100 (world s2)) H0 r.
    assert (Hq3 : quiet [Entry (ChatCompletion
                           (PaginationPrompt viewport_size.1 viewport_size.2) image 100)
                           (Returns (Some "NONE"%string))])
      by (split; reflexivity).
    change (PyStr.contains (PyStr.lower (PyStr.strip "NONE")) "none") with true.
    cbn [negb]. run_step. run_step. run_step.
    eapply run_consequence; [| apply scroll_on_is_quiet].
    intros r s4 (e4 & E4 & Hq4 & [|] & ->); cbn [trace] in E4.
    + eapply run_consequence; [| apply IH].
      intros r s5 (e5 & E5 & -> & Hq5). eexists.
      split; [rewrite E5, E4, E2, E1, <- !app_assoc; reflexivity|].
      split; [reflexivity | auto 10 with quiet].
    + run_step. eexists.
      split; [rewrite E4, E2, E1, <- !app_assoc; reflexivity|].
      split; [reflexivity | auto 10 with quiet].
Qed.

(** On a page that answers, the setup of a round reads the height once
    and fails only on a scroll step of zero. *)
Lemma round_setup_answers viewport_size (s : state W H) :
  page_answers respond ->
  run False
    (try_except (r <- round_setup respond viewport_size ;; ret (Some r))
       any_exception (fun _ => ret None))
    (appends s (fun r extra =>
       click_attempts extra = [] /\ rounds_started extra = 1%nat /\
       if scroll_step_of (snd viewport_size) =? 0 then r = Returns None
       else exists page_height,
              0 <= page_height /\
              r = Returns (Some (page_height, scroll_step_of (snd viewport_size),
                                 Z.min 15 (page_height / scroll_step_of (snd viewport_size) + 2)))))
    s.
Proof.
  intros (Hscroll & Hwait & Hheight & _).
  unfold round_setup. run_step. run_step. run_step.
  call_answered (Hscroll 0 0). subst r.
  run_step. call_answered (Hwait 500). subst r.
  run_step. call_answered Hheight. destruct Hr as (page_height & -> & Hpos).
  destruct (scroll_step_of (snd viewport_size) =? 0) eqn:Hstep;
    repeat (run_step; cbn [any_exception]);
    (eexists; split; [cbn [trace]; rewrite <- !app_assoc; reflexivity|]);
    (split; [reflexivity | split; [reflexivity|]]).
  - reflexivity.
  - eauto.
Qed.


(** What a round that clicked adds: one click, which hit an element. *)
Definition one_click (extra : list entry) : Prop :=
  successful_clicks extra = 1 /\ length (click_attempts extra) = 1%nat.

Lemma scan_page_clicks viewport_size page_height scroll_step iterations :
  page_answers respond ->
  always_reports_target py_int respond viewport_size ->
  every_click_succeeds respond ->
  forall total_clicks (s : state W H),
  run False
    (scan_page py_int respond viewport_size page_height scroll_step (S iterations) total_clicks)
    (appends s (fun r extra =>
       r = Returns (total_clicks + 1, true) /\ rounds_started extra = 0%nat /\
       one_click extra)) s.
Proof.
  intros (Hscroll & Hwait & Hheight & Hoffset & Hshot & Helem & _) Htarget Hclick
         total_clicks s.
  cbn [scan_page]. run_step. run_step. run_step.
  call_answered Hoffset. destruct Hr as (current_scroll & ->).
  run_step. call_answered Hshot. destruct Hr as (image & ->).
  run_step. run_step. eapply run_consequence; [| apply save_debug_is_quiet].
  intros r s2 (e2 & E2 & Hq2 & [] & ->). cbn [trace] in E2.
  run_step.
  call_answered (Htarget (PaginationPrompt viewport_size.1 viewport_size.2) image 100).
  destruct Hr as (content & -> & Hnot & p0 & p1 & p2 & x & y & Hsplit & Hup & Hx & Hy & Hin).
  rewrite Hnot. cbn [negb].
  run_step. unfold click_reported_target. rewrite Hsplit, Hup, Hx, Hy, Hin.
  change (String.eqb "CLICK" "CLICK") with true. cbv iota.
  run_step. run_step. call_answered (Helem x y). destruct Hr as (info & ->).
  run_step. call_answered (Hclick x y). destruct Hr as (clicked & ->).
  run_step. eapply run_consequence; [| apply settle_is_quiet].
  intros r s5 (e5 & E5 & -> & Hq5). cbn [trace] in E5.
  run_step. run_step.
  eexists. split; [rewrite E5, E2, <- !app_assoc; reflexivity|].
  split; [reflexivity|].
  pose proof (quiet_successful _ Hq2) as Hs2. pose proof (quiet_successful _ Hq5) as Hs5.
  destruct Hq2 as [Hc2 Hn2], Hq5 as [Hc5 Hn5].
  split; [|split].
  - rewrite !rounds_started_app, Hn2, Hn5. reflexivity.
  - rewrite !successful_clicks_app, Hs2, Hs5. reflexivity.
  - rewrite !click_attempts_app, Hc2, Hc5. reflexivity.
Qed.

Lemma scroll_step_positive (height : Z) : 2 <= height -> 0 < scroll_step_of height.
Proof.
  intros Hh. unfold scroll_step_of.
  assert (Z.quot 6 4 <= Z.quot (3 * height) 4) by (apply Z.quot_le_mono; lia).
  change (Z.quot 6 4) with 1 in *. lia.
Qed.

Lemma rounds_reach_ceiling viewport_size fuel :
  page_answers respond ->
  always_reports_target py_int respond viewport_size ->
  every_click_succeeds respond ->
  2 <= snd viewport_size ->
  forall total_clicks (s : state W H),
  0 <= total_clicks <= max_clicks ->
  (Z.to_nat (max_clicks - total_clicks) <= fuel)%nat ->
  run False (pagination_rounds py_int respond fuel viewport_size total_clicks)
    (appends s (fun r extra =>
       r = Returns max_clicks /\
       successful_clicks extra = max_clicks - total_clicks /\
       length (click_attempts extra) = Z.to_nat (max_clicks - total_clicks) /\
       rounds_started extra = Z.to_nat (max_clicks - total_clicks))) s.
Proof.
  intros Hpage Htarget Hclick Hheight.
  pose proof (scroll_step_positive _ Hheight) as Hstep.
  induction fuel as [|fuel IH]; intros total_clicks s Hrange Hfuel;
    cbn [pagination_rounds]; destruct (total_clicks <? max_clicks) eqn:Hlt; cbv iota;
    try (apply Z.ltb_ge in Hlt; assert (total_clicks = max_clicks) as -> by lia;
         run_step; apply appends_here; [reflexivity | repeat split; reflexivity]).
  - apply Z.ltb_lt in Hlt. lia.
  - apply Z.ltb_lt in Hlt.
    run_step. eapply run_consequence; [| apply round_setup_answers; exact Hpage].
    intros r s1 (e1 & E1 & Hc1 & Hn1 & Hr1).
    destruct (scroll_step_of (snd viewport_size) =? 0) eqn:Hz;
      [apply Z.eqb_eq in Hz; lia|].
    destruct Hr1 as (page_height & Hpos & ->).
    run_step.
    assert (Hiter : exists n, Z.to_nat (Z.min 15
                       (page_height / scroll_step_of (snd viewport_size) + 2)) = S n).
    { assert (0 <= page_height / scroll_step_of (snd viewport_size))
        by (apply Z.div_pos; lia).
      exists (Nat.pred (Z.to_nat (Z.min 15
                (page_height / scroll_step_of (snd viewport_size) + 2)))). lia. }
    destruct Hiter as [n ->].
    eapply run_consequence;
      [| apply scan_page_clicks; [exact Hpage | exact Htarget | exact Hclick]].
    intros r s2 (e2 & E2 & -> & Hn2 & Hs2 & Hl2). cbn [fst snd].
    eapply run_consequence; [| apply (IH (total_clicks + 1) s2); lia].
    intros r s3 (e3 & E3 & -> & Hs3 & Hl3 & Hn3).
    exists (e1 ++ e2 ++ e3). split; [rewrite E3, E2, E1, <- !app_assoc; reflexivity|].
    split; [reflexivity|]. repeat split.
    + rewrite !successful_clicks_app, (clickless_successful e1 Hc1), Hs2, Hs3. lia.
    + rewrite !click_attempts_app, !length_app, Hc1, Hl2, Hl3. cbn [length]. lia.
    + rewrite !rounds_started_app, Hn1, Hn2, Hn3. lia.
Qed.

(** C2 (amended).  On a page that answers the calls of a scan without
    raising, reports a height that is not negative and has a viewport at
    least two pixels high, if every vision query reports a valid
    forward-pagination target and every click hits an element, the
    exhauster ends after exactly 20 clicks, the ceiling, and returns
    [mode = vision_click] with [total_clicks = 20].  A valid target is a
    reply without the word [none], made of three parts between commas:
    [CLICK] in any letter case and two texts that [int] converts to the
    coordinates of a point of the viewport.  [int] is any behaviour of the
    builtin. *)
Theorem pagination_stops_at_click_ceiling (s : state W H) (fuel : nat) :
  page_answers respond ->
  always_reports_target py_int respond (viewport_seen respond (world s)) ->
  every_click_succeeds respond ->
  2 <= snd (viewport_seen respond (world s)) ->
  (Z.to_nat max_clicks <= fuel)%nat ->
  exists d s' extra,
    vision_detect_pagination py_int respond true fuel s = Some (Returns d, s') /\
    d !! "mode" = Some (JStr "vision_click") /\
    d !! "total_clicks" = Some (JInt 20) /\
    trace s' = trace s ++ extra /\
    length (click_attempts extra) = 20%nat /\
    successful_clicks extra = 20.
Proof.
  intros Hpage Htarget Hclick Hheight Hfuel.
  cut (run False (vision_detect_pagination py_int respond true fuel)
         (appends s (fun r extra => r = Returns (mode_vision_click 20) /\
                                    length (click_attempts extra) = 20%nat /\
                                    successful_clicks extra = 20)) s).
  { intros Hrun. apply run_total_result in Hrun.
    destruct Hrun as (r & s' & E & extra & Et & -> & Hl & Hs).
    exists (mode_vision_click 20), s', extra. repeat split; auto. }
  unfold vision_detect_pagination. cbn [negb].
  apply run_try_except. run_step.
  call_answered (proj2 (proj2 (proj2 (proj2 (proj2 (proj2 Hpage)))))).
  destruct Hr as (v & ->).
  assert (Hv : viewport_seen respond (world s) = viewport_or_default v)
    by (unfold viewport_seen; now rewrite E).
  rewrite Hv in Htarget, Hheight.
  run_step. eapply run_consequence;
    [| apply (rounds_reach_ceiling (viewport_or_default v) fuel Hpage Htarget Hclick Hheight 0);
       [unfold max_clicks; lia | exact Hfuel]].
  intros r s1 (e1 & E1 & -> & Hs1 & Hl1 & _). cbn [trace] in E1.
  change (max_clicks >? 0) with true. cbv iota. run_step.
  eexists. split; [rewrite E1, <- !app_assoc; reflexivity|].
  split; [reflexivity|]. split.
  - rewrite click_attempts_app, length_app, Hl1. reflexivity.
  - rewrite successful_clicks_app, Hs1. reflexivity.
Qed.

End PaginationRuns.

(** ** Navigation traversal engine *)

Lemma encountered_app (tr1 tr2 : list entry) :
  encountered (tr1 ++ tr2) = encountered tr1 ∪ encountered tr2.
Proof.
  unfold encountered. rewrite flat_map_app. apply leibniz_equiv, list_to_set_app.
Qed.

Lemma encountered_one (e : entry) : encountered [e] = list_to_set (reported_links e).
Proof. unfold encountered. cbn. now rewrite app_nil_r. Qed.

Lemma encountered_nil : encountered [] = ∅.
Proof. reflexivity. Qed.

Lemma frontier_urls_enqueue (links : list string) (depth : Z) (d : discovery) :
  frontier_urls (enqueue_links links depth d) ⊆ frontier_urls d ∪ list_to_set links.
Proof.
  unfold frontier_urls, enqueue_links. cbn [pages_to_explore].
  rewrite map_app, list_to_set_app. apply union_mono_l.
  intros x Hx. apply elem_of_list_to_set in Hx. apply elem_of_list_to_set.
  apply list_elem_of_fmap in Hx as ([u k] & -> & Hin).
  apply list_elem_of_fmap in Hin as (l & [= -> _] & Hl).
  now apply list_elem_of_filter in Hl as [_ Hl].
Qed.

Lemma frontier_urls_pop (d : discovery) : frontier_urls (pop_front d) ⊆ frontier_urls d.
Proof.
  unfold frontier_urls, pop_front. cbn [pages_to_explore].
  destruct (pages_to_explore d) as [|[u k] rest]; cbn; set_solver.
Qed.

Lemma frontier_urls_start (links : list string) (d : discovery) :
  frontier_urls (start_frontier links d) = list_to_set links.
Proof.
  unfold frontier_urls, start_frontier. cbn [pages_to_explore].
  rewrite List.map_map. cbn [fst]. now rewrite List.map_id.
Qed.

Section TraversalFacts.

Context {W : Type}.
Variable respond : forall A, call A -> W -> outcome A * W.

(** What a stretch of the traversal does to the state: the trace and the
    visited set only grow, every URL that is visited or waiting was so
    before or was reported in between, and without a page classified as a
    job page no job page is recorded. *)
Definition explored (s s' : state W discovery) : Prop :=
  exists extra,
    trace s' = trace s ++ extra /\
    visited_urls (heap s) ⊆ visited_urls (heap s') /\
    visited_urls (heap s') ∪ frontier_urls (heap s') ⊆
      visited_urls (heap s) ∪ frontier_urls (heap s) ∪ encountered extra /\
    (classifier_always_false respond -> job_pages (heap s') = job_pages (heap s)).

Lemma explored_refl s : explored s s.
Proof.
  exists []. rewrite app_nil_r, encountered_nil. repeat split; auto; set_solver.
Qed.

Lemma explored_trans s1 s2 s3 : explored s1 s2 -> explored s2 s3 -> explored s1 s3.
Proof.
  intros (e1 & E1 & Hv1 & Hf1 & Hj1) (e2 & E2 & Hv2 & Hf2 & Hj2).
  exists (e1 ++ e2). rewrite encountered_app. repeat split.
  - now rewrite E2, E1, app_assoc.
  - now transitivity (visited_urls (heap s2)).
  - clear -Hf1 Hf2. set_solver.
  - intros Hc. now rewrite Hj2, Hj1.
Qed.

Ltac classifier_contradiction :=
  match goal with
  | Hc : classifier_always_false _,
    E : respond _ VerifyJobListingPage ?w = (Returns ?v, _),
    Hg : Py.getitem ?v "is_job_page" = Returns ?flag,
    Ht : Py.truthy ?flag = true |- _ =>
      let Hx := fresh in
      destruct (Hc w v) as (? & Hx & ?); [now rewrite E|];
      rewrite Hg in Hx; injection Hx as <-; congruence
  end.

Ltac path_end :=
  cbn [world trace heap];
  split; [reflexivity|]; split; [reflexivity|];
  eexists; split; [cbn [trace]; rewrite <- ?app_assoc; reflexivity|];
  cbn [heap];
  split; [reflexivity|];
  split;
  [ rewrite ?encountered_app, ?encountered_one; cbn [reported_links];
    repeat match goal with
           | Hn : fst ?a = _ |- context [fst ?a] => rewrite Hn
           end;
    repeat match goal with
           | |- context [frontier_urls (enqueue_links ?l ?k ?d)] =>
               let Hx := fresh in
               let g := fresh "g" in
               pose proof (frontier_urls_enqueue l k d) as Hx;
               set (g := frontier_urls (enqueue_links l k d)) in *; clearbody g
           | Hy : context [frontier_urls (enqueue_links ?l ?k ?d)] |- _ =>
               let Hx := fresh in
               let g := fresh "g" in
               pose proof (frontier_urls_enqueue l k d) as Hx;
               set (g := frontier_urls (enqueue_links l k d)) in *; clearbody g
           end;
    cbn [visited_urls enqueue_links append_elements append_job_page frontier_urls
         pages_to_explore] in *;
    set_solver
  | intros ?;
    cbn [job_pages enqueue_links append_elements append_job_page];
    first [reflexivity | classifier_contradiction] ].

Lemma explore_page_explored verbose current_url depth (s : state W discovery) :
  run False
    (try_except (explore_page respond verbose current_url depth)
       any_exception (fun _ => ret tt))
    (fun r s' => r = Returns tt /\
                 visited_urls (heap s') = visited_urls (heap s) /\
                 explored s s') s.
Proof.
  unfold explore_page. apply run_try_except.
  run_step. run_step. destruct r; [|cbn [any_exception]; run_step; path_end].
  run_step. run_step. destruct r; [|cbn [any_exception]; run_step; path_end].
  run_step. run_step. destruct r as [v|]; [|cbn [any_exception]; run_step; path_end].
  run_step. run_step.
  destruct (Py.getitem v "is_job_page") as [flag|] eqn:Hg;
    [|cbn [any_exception]; run_step; path_end].
  destruct (Py.truthy flag) eqn:Ht.
  - run_step. run_step.
    destruct (Py.getitem v "confidence") as [confidence|] eqn:Hconf;
      [|cbn [any_exception]; run_step; path_end].
    run_step. run_step. run_step.
    assert (Hfmt : forall (Q : outcome unit -> state W discovery -> Prop) s0,
              (Q (Returns tt) s0) ->
              (forall e, Q (Raises e) s0) ->
              run False (if verbose then lift (Py.format_percent confidence) else ret tt) Q s0).
    { intros Q s0 Hok Hbad. destruct verbose; [|exact Hok].
      apply run_lift. destruct (Py.format_percent confidence) as [[]|]; auto. }
    apply Hfmt; [|intros e; cbn [any_exception]; run_step; path_end].
    run_step. run_step.
    destruct r as [related_links|]; [|cbn [any_exception]; run_step; path_end].
    run_step. path_end.
  - run_step. run_step. destruct r as [nav|]; [|cbn [any_exception]; run_step; path_end].
    run_step. run_step. run_step.
    destruct (fst nav) as [|link nav_links] eqn:Hnav.
    + run_step. run_step. run_step.
      destruct r as [job_links|]; [|cbn [any_exception]; run_step; path_end].
      run_step. path_end.
    + run_step. run_step. run_step.
      destruct r as [job_links|]; [|cbn [any_exception]; run_step; path_end].
      run_step. path_end.
Qed.

(** One iteration after the pop: the URL dequeued is the only one that can
    join the visited set, and a URL already visited or too deep changes
    nothing. *)
Definition visited_one (current_url : string) (depth : Z) (s s' : state W discovery) : Prop :=
  exists extra,
    trace s' = trace s ++ extra /\
    visited_urls (heap s) ⊆ visited_urls (heap s') /\
    visited_urls (heap s') ∪ frontier_urls (heap s') ⊆
      {[ current_url ]} ∪ visited_urls (heap s) ∪ frontier_urls (heap s)
      ∪ encountered extra /\
    (classifier_always_false respond -> job_pages (heap s') = job_pages (heap s)) /\
    ((s' = s /\ (current_url ∈ visited_urls (heap s) \/ depth > MAX_DEPTH)) \/
     (current_url ∉ visited_urls (heap s) /\ depth <= MAX_DEPTH /\
      visited_urls (heap s') = {[ current_url ]} ∪ visited_urls (heap s))).

Lemma visit_visited_one verbose current_url depth (s : state W discovery) :
  run False (visit respond verbose current_url depth)
    (fun r s' => r = Returns tt /\ visited_one current_url depth s s') s.
Proof.
  unfold visit. run_step. run_step.
  destruct (bool_decide (current_url ∈ visited_urls (heap s))) eqn:Hin; cbn [orb].
  - run_step. split; [reflexivity|]. exists [].
    rewrite app_nil_r, encountered_nil. apply bool_decide_eq_true in Hin.
    repeat split; auto; try set_solver.
  - apply bool_decide_eq_false in Hin.
    destruct (depth >? MAX_DEPTH) eqn:Hdeep.
    + run_step. split; [reflexivity|]. exists [].
      rewrite app_nil_r, encountered_nil. apply Z.gtb_lt in Hdeep.
      repeat split; auto; try set_solver. left. split; [reflexivity|]. right. lia.
    + run_step. run_step.
      eapply run_consequence; [| apply explore_page_explored].
      intros r s' (-> & Hv & extra & E & _ & Hf & Hj).
      cbn [heap trace visited_urls mark_visited] in *.
      split; [reflexivity|]. exists extra. repeat split.
      * exact E.
      * rewrite Hv. set_solver.
      * rewrite Hv in Hf |- *.
        change (frontier_urls (mark_visited current_url (heap s)))
          with (frontier_urls (heap s)) in Hf. set_solver.
      * intros Hc. now rewrite (Hj Hc).
      * right. split; [exact Hin|]. split; [|exact Hv].
        destruct (Z.gtb_spec depth MAX_DEPTH); [discriminate | lia].
Qed.

Lemma explore_unfold fuel verbose (s : state W discovery) current_url depth rest :
  pages_to_explore (heap s) = (current_url, depth) :: rest ->
  Z.of_nat (size (visited_urls (heap s))) < MAX_PAGES_TO_EXPLORE ->
  explore respond (S fuel) verbose s =
  match visit respond verbose current_url depth
          (State (world s) (trace s) (pop_front (heap s))) with
  | Some (Returns _, s') => explore respond fuel verbose s'
  | Some (Raises e, s') => Some (Raises e, s')
  | None => None
  end.
Proof.
  intros Hq Hsize. apply Z.ltb_lt in Hsize.
  cbn [explore]. unfold bind at 1. unfold get_heap at 1. rewrite Hq, Hsize.
  reflexivity.
Qed.

Lemma explore_done fuel verbose (s : state W discovery) :
  pages_to_explore (heap s) = [] \/
  MAX_PAGES_TO_EXPLORE <= Z.of_nat (size (visited_urls (heap s))) ->
  explore respond fuel verbose s = Some (Returns tt, s).
Proof.
  intros Hstop. destruct fuel; cbn [explore]; unfold bind, get_heap;
    destruct (pages_to_explore (heap s)) as [|[u k] rest]; try reflexivity;
    (destruct Hstop as [Hq|Hsize]; [discriminate|]);
    apply Z.ltb_ge in Hsize; now rewrite Hsize.
Qed.

Lemma size_visited_one current_url (visited : gset string) :
  current_url ∉ visited -> size ({[ current_url ]} ∪ visited) = S (size visited).
Proof.
  intros Hin. rewrite size_union by set_solver. now rewrite size_singleton.
Qed.

(** The loop keeps the visited set within the cap, and relates its final
    state to its first as [explored] says. *)
Lemma explore_explored verbose fuel :
  forall s : state W discovery,
  run True (explore respond fuel verbose)
    (fun r s' =>
       r = Returns tt /\ explored s s' /\
       (Z.of_nat (size (visited_urls (heap s))) <= MAX_PAGES_TO_EXPLORE ->
        Z.of_nat (size (visited_urls (heap s'))) <= MAX_PAGES_TO_EXPLORE)) s.
Proof.
  induction fuel as [|fuel IH]; intros s.
  - unfold run. cbn [explore]. unfold bind, get_heap.
    destruct (pages_to_explore (heap s)) as [|[u k] rest].
    + cbn. repeat split; auto. apply explored_refl.
    + destruct (_ <? _); [exact I|]. cbn. repeat split; auto. apply explored_refl.
  - destruct (pages_to_explore (heap s)) as [|[u k] rest] eqn:Hq.
    { unfold run. rewrite explore_done by auto. repeat split; auto. apply explored_refl. }
    destruct (Z.ltb_spec (Z.of_nat (size (visited_urls (heap s)))) MAX_PAGES_TO_EXPLORE)
      as [Hsize|Hsize].
    2:{ unfold run. rewrite explore_done by auto. repeat split; auto. apply explored_refl. }
    unfold run. rewrite (explore_unfold fuel verbose s u k rest Hq Hsize).
    pose proof (visit_visited_one verbose u k
                  (State (world s) (trace s) (pop_front (heap s)))) as Hvisit.
    apply run_total_result in Hvisit.
    destruct Hvisit as (r & s1 & -> & -> & e1 & E1 & Hv1 & Hf1 & Hj1 & Hcase).
    cbn [heap trace visited_urls pop_front] in *.
    change (frontier_urls (pop_front (heap s))) with
      (list_to_set (map fst (tail (pages_to_explore (heap s)))) : gset string) in Hf1.
    rewrite Hq in Hf1. cbn [tail] in Hf1.
    assert (Hfront : frontier_urls (heap s) =
                     {[ u ]} ∪ (list_to_set (map fst rest) : gset string)).
    { unfold frontier_urls. rewrite Hq. reflexivity. }
    assert (Hsize1 : Z.of_nat (size (visited_urls (heap s1))) <= MAX_PAGES_TO_EXPLORE).
    { destruct Hcase as [[-> _]|(Hin & _ & ->)]; cbn [heap visited_urls pop_front]; [lia|].
      rewrite size_visited_one by exact Hin. lia. }
    specialize (IH s1). unfold run in IH.
    destruct (explore respond fuel verbose s1) as [[r s2]|]; [|exact I].
    destruct IH as (-> & (e2 & E2 & Hv2 & Hf2 & Hj2) & Hcap).
    split; [reflexivity|]. split; [|intros _; now apply Hcap].
    exists (e1 ++ e2). rewrite encountered_app. repeat split.
    + now rewrite E2, E1, app_assoc.
    + now transitivity (visited_urls (heap s1)).
    + rewrite Hfront. clear -Hf1 Hf2. set_solver.
    + intros Hc. now rewrite (Hj2 Hc), (Hj1 Hc).
Qed.

(** The loop ends: every iteration either shortens the frontier or, below
    the cap, enlarges the visited set. *)
Lemma explore_terminates verbose (budget : nat) :
  forall (waiting : nat) (s : state W discovery),
  (Z.to_nat (MAX_PAGES_TO_EXPLORE - Z.of_nat (size (visited_urls (heap s)))) <= budget)%nat ->
  (length (pages_to_explore (heap s)) <= waiting)%nat ->
  exists fuel r s', explore respond fuel verbose s = Some (r, s').
Proof.
  induction budget as [|budget IHb]; intros waiting s Hbudget Hwaiting.
  - exists 0%nat, (Returns tt), s. apply explore_done. right. lia.
  - revert s Hbudget Hwaiting. induction waiting as [|waiting IHw]; intros s Hbudget Hwaiting.
    + exists 0%nat, (Returns tt), s. apply explore_done. left.
      destruct (pages_to_explore (heap s)); [reflexivity | cbn in Hwaiting; lia].
    + destruct (pages_to_explore (heap s)) as [|[u k] rest] eqn:Hq.
      { exists 0%nat, (Returns tt), s. apply explore_done. now left. }
      destruct (Z.ltb_spec (Z.of_nat (size (visited_urls (heap s)))) MAX_PAGES_TO_EXPLORE)
        as [Hsize|Hsize].
      2:{ exists 0%nat, (Returns tt), s. apply explore_done. now right. }
      pose proof (visit_visited_one verbose u k
                    (State (world s) (trace s) (pop_front (heap s)))) as Hvisit.
      apply run_total_result in Hvisit.
      destruct Hvisit as (r & s1 & Evisit & -> & e1 & E1 & Hv1 & Hf1 & Hj1 & Hcase).
      assert (Hnext : exists fuel r s', explore respond fuel verbose s1 = Some (r, s')).
      { destruct Hcase as [[-> _]|(Hin & _ & Hv)].
        - apply IHw; cbn [heap visited_urls pages_to_explore pop_front];
            [exact Hbudget | rewrite Hq; cbn in *; lia].
        - apply (IHb (length (pages_to_explore (heap s1)))); [|lia].
          rewrite Hv. cbn [heap visited_urls pop_front] in *.
          rewrite size_visited_one by exact Hin. lia. }
      destruct Hnext as (fuel & r & s' & Hrun).
      exists (S fuel), r, s'.
      now rewrite (explore_unfold fuel verbose s u k rest Hq Hsize), Evisit.
Qed.

End TraversalFacts.

Section TraversalRuns.

Context {W : Type}.
Variable respond : forall A, call A -> W -> outcome A * W.

(** What a whole discovery leaves behind, whatever the fuel: the visited
    URLs were all reported by a discovery coroutine, they are at most the
    cap, and the result is read off the final state. *)
Lemma discover_job_pages_explored verbose start_url fuel (w : W) :
  run True (discover_job_pages respond verbose start_url fuel)
    (fun r s' =>
       visited_urls (heap s') ⊆ encountered (trace s') /\
       Z.of_nat (size (visited_urls (heap s'))) <= MAX_PAGES_TO_EXPLORE /\
       (classifier_always_false respond -> job_pages (heap s') = []) /\
       (forall result, r = Returns result -> result = result_of (heap s')) /\
       (start_page_loads respond start_url w -> exists result, r = Returns result))
    (State w [] new_discovery).
Proof.
  assert (Hzero : Z.of_nat (size (∅ : gset string)) <= MAX_PAGES_TO_EXPLORE)
    by (rewrite size_empty; unfold MAX_PAGES_TO_EXPLORE; lia).
  unfold discover_job_pages.
  run_step. run_step. cbn [world trace heap] in *.
  destruct r as [[]|e].
  2:{ cbn [heap trace visited_urls new_discovery job_pages].
      split; [set_solver|]. split; [exact Hzero|]. split; [reflexivity|].
      split; [intros result [=]|].
      intros (w1 & w2 & nav & w3 & E1 & _). rewrite E1 in H. discriminate. }
  run_step. run_step. cbn [world trace heap] in *.
  destruct r as [[]|e].
  2:{ cbn [heap trace visited_urls new_discovery job_pages].
      split; [set_solver|]. split; [exact Hzero|]. split; [reflexivity|].
      split; [intros result [=]|].
      intros (w1 & w2 & nav & w3 & E1 & E2 & _).
        rewrite E1 in H. injection H as <-. rewrite E2 in H0. discriminate. }
  run_step. run_step. cbn [world trace heap] in *.
  destruct r as [nav|e].
  2:{ cbn [heap trace visited_urls new_discovery job_pages].
      split; [set_solver|]. split; [exact Hzero|]. split; [reflexivity|].
      split; [intros result [=]|].
      intros (w1 & w2 & nav & w3 & E1 & E2 & E3).
        rewrite E1 in H. injection H as <-. rewrite E2 in H0. injection H0 as <-.
        rewrite E3 in H1. discriminate. }
  run_step. run_step. run_step. run_step. run_step.
  cbn [world trace heap].
  eapply run_consequence; [| apply explore_explored].
  intros r s' (-> & (extra & E & Hv & Hf & Hj) & Hcap).
  cbn [heap trace visited_urls start_frontier append_elements new_discovery job_pages]
    in *.
  run_step. run_step. run_step.
  repeat split.
  - rewrite E, !encountered_app, !encountered_one. cbn [reported_links].
    rewrite frontier_urls_start in Hf. clear -Hf. set_solver.
  - apply Hcap. exact Hzero.
  - exact Hj.
  - intros result [= <-]. reflexivity.
  - intros _. eauto.
Qed.

(** The discovery ends. *)
Lemma discover_job_pages_terminates verbose start_url (w : W) :
  exists fuel r s',
    discover_job_pages respond verbose start_url fuel (State w [] new_discovery)
    = Some (r, s').
Proof.
  unfold discover_job_pages, bind, perform. cbn [world trace heap].
  destruct (respond _ (Goto start_url 60000) w) as [[[]|e] w1];
    cbn [world trace heap]; [|exists 0%nat; eexists; eexists; reflexivity].
  destruct (respond _ (WaitForTimeout 3000) w1) as [[[]|e] w2];
    cbn [world trace heap]; [|exists 0%nat; eexists; eexists; reflexivity].
  destruct (respond _ FindJobNavigation w2) as [[nav|e] w3];
    cbn [world trace heap]; [|exists 0%nat; eexists; eexists; reflexivity].
  unfold modify_heap. cbn [world trace heap].
  match goal with
  | |- context [explore _ _ _ ?s] =>
      destruct (explore_terminates respond verbose
                  (Z.to_nat MAX_PAGES_TO_EXPLORE)
                  (length (pages_to_explore (heap s))) s) as (fuel & r & s' & Hrun);
      [cbn [heap visited_urls]; lia | reflexivity |]
  end.
  exists fuel. rewrite Hrun. destruct r; unfold get_heap, ret; eauto.
Qed.

(** C3 (amended).  A discovery whose start page loads (the first
    [page.goto], the wait after it and the search for navigation on the
    start page return), whose classifier never says that a page is a job
    page, and on which no element or link is ever discovered, ends, with
    any fuel, in a result in which [total_job_pages_found] is 0 and
    [total_pages_explored] is at most the cap of 50. *)
Theorem discovery_without_job_pages verbose start_url (w : W) (fuel : nat) :
  classifier_always_false respond ->
  nothing_discovered respond ->
  start_page_loads respond start_url w ->
  exists result s',
    discover_job_pages respond verbose start_url fuel (State w [] new_discovery)
    = Some (Returns result, s') /\
    total_job_pages_found result = 0 /\
    total_pages_explored result <= MAX_PAGES_TO_EXPLORE.
Proof.
  intros Hclassifier (Hnav & _ & _) Hloads.
  assert (Hrun : exists r s',
             discover_job_pages respond verbose start_url fuel (State w [] new_discovery)
             = Some (r, s')).
  { destruct Hloads as (w1 & w2 & nav & w3 & E1 & E2 & E3).
    pose proof (Hnav w2) as Hempty. rewrite E3 in Hempty. cbn [fst] in Hempty.
    injection Hempty as ->.
    unfold discover_job_pages, bind, perform. cbn [world trace heap].
    rewrite E1. cbn [world trace heap]. rewrite E2. cbn [world trace heap].
    rewrite E3. unfold modify_heap. cbn [world trace heap fst snd].
    rewrite explore_done by (left; reflexivity). eauto. }
  destruct Hrun as (r & s' & Hrun).
  pose proof (discover_job_pages_explored verbose start_url fuel w) as Hex.
  unfold run in Hex. rewrite Hrun in Hex.
  destruct Hex as (_ & Hcap & Hjobs & Hresult & Hreturns).
  destruct (Hreturns Hloads) as (result & ->).
  exists result, s'. split; [exact Hrun|].
  rewrite (Hresult result eq_refl). unfold result_of. cbn.
  rewrite (Hjobs Hclassifier). split; [reflexivity | exact Hcap].
Qed.

(** The same cap and the same absence of job pages hold whatever the
    site links to: only the classifier matters. *)
Lemma discovery_within_cap verbose start_url (w : W) :
  exists fuel r s',
    discover_job_pages respond verbose start_url fuel (State w [] new_discovery)
    = Some (r, s') /\
    forall result, r = Returns result ->
      total_pages_explored result <= MAX_PAGES_TO_EXPLORE /\
      (classifier_always_false respond -> total_job_pages_found result = 0).
Proof.
  destruct (discover_job_pages_terminates verbose start_url w) as (fuel & r & s' & Hrun).
  pose proof (discover_job_pages_explored verbose start_url fuel w) as Hex.
  unfold run in Hex. rewrite Hrun in Hex.
  destruct Hex as (_ & Hcap & Hjobs & Hresult & _).
  exists fuel, r, s'. split; [exact Hrun|]. intros result ->.
  rewrite (Hresult result eq_refl). unfold result_of. cbn. split; [exact Hcap|].
  intros Hc. now rewrite (Hjobs Hc).
Qed.

(** C7.  Dequeuing a URL that is already visited is a no-op: the loop goes
    on from the same world, the same trace (no navigation) and the same
    records, with only the dequeued entry gone from the frontier.  So the
    visited set only grows through the loop, and at the end of every
    discovery each visited URL is one that was reported as a link: the
    visited count is at most the number of distinct URLs encountered. *)
Theorem revisit_is_noop (verbose : bool) :
  (forall fuel (s : state W discovery) current_url depth rest,
     pages_to_explore (heap s) = (current_url, depth) :: rest ->
     Z.of_nat (size (visited_urls (heap s))) < MAX_PAGES_TO_EXPLORE ->
     current_url ∈ visited_urls (heap s) ->
     explore respond (S fuel) verbose s =
     explore respond fuel verbose
       (State (world s) (trace s)
          (Discovery (visited_urls (heap s)) (job_pages (heap s))
             (all_discovered_elements (heap s)) rest))) /\
  (forall fuel (s : state W discovery) r s',
     explore respond fuel verbose s = Some (r, s') ->
     visited_urls (heap s) ⊆ visited_urls (heap s')) /\
  (forall fuel start_url (w : W) r s',
     discover_job_pages respond verbose start_url fuel (State w [] new_discovery)
     = Some (r, s') ->
     visited_urls (heap s') ⊆ encountered (trace s') /\
     (size (visited_urls (heap s')) <= size (encountered (trace s')))%nat /\
     forall result, r = Returns result ->
       total_pages_explored result <= Z.of_nat (size (encountered (trace s')))).
Proof.
  split; [|split].
  - intros fuel s current_url depth rest Hq Hsize Hin.
    rewrite (explore_unfold respond fuel verbose s current_url depth rest Hq Hsize).
    unfold visit, bind, get_heap. cbn [heap visited_urls pop_front].
    rewrite bool_decide_eq_true_2 by exact Hin. cbn [orb ret].
    unfold pop_front. now rewrite Hq.
  - intros fuel s r s' Hrun.
    pose proof (explore_explored respond verbose fuel s) as Hex.
    unfold run in Hex. rewrite Hrun in Hex.
    now destruct Hex as (_ & (extra & _ & Hv & _) & _).
  - intros fuel start_url w r s' Hrun.
    pose proof (discover_job_pages_explored verbose start_url fuel w) as Hex.
    unfold run in Hex. rewrite Hrun in Hex.
    destruct Hex as (Hsub & _ & _ & Hresult & _).
    pose proof (subseteq_size _ _ Hsub) as Hle.
    repeat split; auto.
    intros result ->. rewrite (Hresult result eq_refl). unfold result_of. cbn. lia.
Qed.

End TraversalRuns.

(** ** Action executor *)

Section ActionFacts.

Context {W H : Type}.
Variable respond : forall A, call A -> W -> outcome A * W.

Definition never_reads (extra : list entry) : Prop :=
  existsb is_value_read extra = false.

Lemma never_reads_app (e1 e2 : list entry) :
  never_reads e1 -> never_reads e2 -> never_reads (e1 ++ e2).
Proof. unfold never_reads. intros H1 H2. now rewrite existsb_app, H1, H2. Qed.

(** Whatever the page does, [_perform_input] never reads the field back:
    its trace holds no read of a value, and the dictionary it returns says
    [success: True] and has no member that reports a verification. *)
Lemma perform_input_never_verifies partial bbox text (s : state W H) :
  run partial (_perform_input respond bbox text)
    (appends s (fun r extra =>
       never_reads extra /\
       forall d, r = Returns d ->
         d !! "success" = Some (JBool true) /\
         d !! "input_verification" = None /\
         d !! "text" = JStr <$> text)) s.
Proof.
  unfold _perform_input, checked_center.
  destruct bbox as [[|b0 [|b1 [|b2 [|b3 [|b4 l]]]]]|];
    try (run_step; run_step; apply appends_here;
         [reflexivity | split; [reflexivity | intros d [=]]]).
  run_step. run_step.
  destruct text as [[|ch rest]|];
    try (run_step; apply appends_here;
         [reflexivity | split; [reflexivity | intros d [=]]]).
  repeat (run_step;
          try match goal with
              | r : outcome _ |- _ => destruct r
              end;
          cbn [trace]);
    (eexists; split; [cbn [trace]; rewrite <- ?app_assoc; reflexivity|]);
    (split; [reflexivity|]); intros d [= <-]; repeat split; reflexivity.
Qed.

End ActionFacts.

(** C4, evaluated.  On a page whose field ignores typing, the input action
    for the text [abc] returns [success: True] with no verification member
    and without having read the field, while the field does not hold
    [abc]. *)
Theorem input_reports_success_unverified :
  exists d s',
    perform_input_action (scripted read_only_field) [10; 20; 200; 30] "abc" (start tt)
    = Some (Returns d, s') /\
    d !! "success" = Some (JBool true) /\
    d !! "input_verification" = None /\
    existsb is_value_read (trace s') = false /\
    fst (scripted read_only_field _ (ValueFromPoint 110 35) (world s')) = Returns ""%string /\
    d !! "coordinates" = Some (JArr [JInt 110; JInt 35]).
Proof.
  assert (Hobs :
            match perform_input_action (scripted read_only_field) [10; 20; 200; 30]
                    "abc" (start tt) with
            | Some (Returns d, s') =>
                Some (d !! "success", d !! "input_verification",
                      existsb is_value_read (trace s'),
                      fst (scripted read_only_field _ (ValueFromPoint 110 35) (world s')),
                      d !! "coordinates")
            | _ => None
            end
            = Some (Some (JBool true), None, false, Returns ""%string,
                    Some (JArr [JInt 110; JInt 35])))
    by (vm_compute; reflexivity).
  destruct (perform_input_action _ _ _ _) as [[[d|e] s']|]; try discriminate.
  injection Hobs as Hsuccess Hverification Hreads Hvalue Hcoordinates.
  exists d, s'. repeat split; try assumption; try reflexivity.
  cbn [scripted fst]. now rewrite Hvalue.
Qed.

(** ** Vision query client *)

Section VisionFacts.

Context {W H : Type}.
Variable json_loads : string -> outcome json.
Variable respond : forall A, call A -> W -> outcome A * W.
Variable urljoin : string -> string -> string.

(** [_parse_vision_response] raises [ValueError] on text that is not JSON. *)
Lemma parse_vision_response_invalid (response : string) :
  json_loads (extract_fenced response) = Raises JSONDecodeError ->
  _parse_vision_response json_loads response = Raises ValueError.
Proof. unfold _parse_vision_response. now intros ->. Qed.

(** [_find_job_links_on_page] never raises. *)
Lemma find_job_links_never_raises (s : state W H) r s' :
  _find_job_links_on_page json_loads respond urljoin s = Some (r, s') ->
  exists links, r = Returns links.
Proof.
  unfold _find_job_links_on_page, try_except.
  destruct (bind _ _ s) as [[[links|e] s1]|]; cbn [any_exception].
  - intros [= <- _]. eauto.
  - unfold ret. intros [= <- _]. eauto.
  - discriminate.
Qed.

(** On replies that are not JSON, [_find_job_links_on_page] returns the
    empty list. *)
Lemma find_job_links_invalid (s : state W H) :
  replies_are_not_json respond json_loads ->
  run False (_find_job_links_on_page json_loads respond urljoin)
    (fun r _ => r = Returns []) s.
Proof.
  intros Hbad. unfold _find_job_links_on_page. apply run_try_except.
  run_step. run_step. destruct r as [image|e]; [|cbn [any_exception]; now run_step].
  run_step. run_step.
  destruct r as [[content|]|e]; try (cbn [any_exception first_choice]; now repeat run_step).
  run_step. unfold first_choice. run_step.
  rewrite (Hbad JobLinksPrompt image 500 _ content) by (now rewrite H1).
  cbn [is_JSONDecodeError]. now run_step.
Qed.

(** Saving the screenshot never raises. *)
Lemma save_screenshot_returns partial screenshot_bytes
    (Q : outcome json -> state W H -> Prop) (s : state W H) :
  (forall path s', Q (Returns path) s') ->
  run partial (_save_screenshot respond screenshot_bytes) Q s.
Proof.
  intros HQ. unfold _save_screenshot. run_step. run_step. run_step.
  destruct r as [path|e]; cbn [any_exception]; run_step; apply HQ.
Qed.

(** The result of a failed analysis. *)
Definition failure_result (r : outcome dict) : Prop :=
  exists d, r = Returns d /\
            d !! "success" = Some (JBool false) /\
            d !! "elements" = None /\
            is_Some (d !! "error").

Lemma analysis_failure_result url e (s : state W H) :
  clock_answers respond ->
  run False (analysis_failure respond url e) (fun r _ => failure_result r) s.
Proof.
  intros Hclock. unfold analysis_failure. run_step. run_step.
  destruct (Hclock (world s)) as (timestamp & Ht). rewrite H0 in Ht.
  cbn [fst] in Ht. subst r. run_step. eexists. split; [reflexivity|].
  repeat split; try reflexivity. eexists. reflexivity.
Qed.

(** On replies that are not JSON, [analyze_viewport_screenshot] returns a
    failure result that carries no element list. *)
Lemma analyze_invalid page_url include_description element_types (s : state W H) :
  replies_are_not_json respond json_loads ->
  clock_answers respond ->
  run False
    (analyze_viewport_screenshot json_loads respond page_url include_description
       element_types)
    (fun r _ => failure_result r) s.
Proof.
  intros Hbad Hclock.
  pose proof (fun url e s0 => analysis_failure_result url e s0 Hclock) as Hfail.
  assert (Hbody : forall url (s0 : state W H),
    run False
      (try_except
         (screenshot_bytes <- perform respond Screenshot ;;
          screenshot_path <- _save_screenshot respond screenshot_bytes ;;
          size <- perform respond ViewportSize ;;
          response <- perform respond
                        (ChatCompletion
                           (AnalysisPrompt
                              match element_types with
                              | Some types => types
                              | None => ["button"; "input"; "link"; "clickable"]%string
                              end include_description)
                           screenshot_bytes 2000) ;;
          response0 <- first_choice response ;;
          analysis_result <- lift (_parse_vision_response json_loads response0) ;;
          timestamp <- perform respond Now ;;
          ret (dict_of_members
                 ([("success"%string, JBool true);
                   ("screenshot_path"%string, screenshot_path);
                   ("page_url"%string, JStr url);
                   ("viewport_size"%string,
                     JObj [("width"%string, JInt (fst (viewport_or_default size)));
                           ("height"%string, JInt (snd (viewport_or_default size)))]);
                   ("timestamp"%string, JStr timestamp)]
                  ++ match analysis_result with
                     | JObj members => members
                     | _ => []
                     end)))
         any_exception (analysis_failure respond (Some url)))
      (fun r _ => failure_result r) s0).
  { intros url s0. run_step.
    run_step. run_step. destruct r as [image|e]; [|cbn [any_exception]; apply Hfail].
    run_step. apply save_screenshot_returns. intros path s1.
    run_step. run_step.
    destruct r as [size|e]; [|cbn [any_exception]; apply Hfail].
    run_step. run_step.
    destruct r as [[content|]|e]; cbn [first_choice].
    - run_step. run_step. run_step. run_step.
      rewrite parse_vision_response_invalid by (eapply Hbad; now rewrite H2).
      cbn [any_exception]. apply Hfail.
    - run_step. run_step. cbn [any_exception]. apply Hfail.
    - cbn [any_exception]. apply Hfail. }
  unfold analyze_viewport_screenshot. run_step. run_step.
  assert (Hinner : forall url (r : outcome dict) (s' : state W H),
            failure_result r ->
            match r with
            | Returns a => failure_result (Returns a)
            | Raises e =>
                if any_exception e
                then run False (analysis_failure respond url e)
                       (fun r _ => failure_result r) s'
                else failure_result (Raises e)
            end).
  { intros url r s' Hr. destruct r as [d|e]; [exact Hr|].
    destruct Hr as (d & Hd & _). discriminate. }
  destruct page_url as [[|c rest]|].
  - run_step. destruct r as [url|e]; [|cbn [any_exception]; apply Hfail].
    eapply run_consequence; [apply Hinner | apply Hbody].
  - run_step. eapply run_consequence; [apply Hinner | apply Hbody].
  - run_step. destruct r as [url|e]; [|cbn [any_exception]; apply Hfail].
    eapply run_consequence; [apply Hinner | apply Hbody].
Qed.

End VisionFacts.

(** ** Malformed vision replies *)


Lemma garbled_replies_are_not_json :
  replies_are_not_json (scripted garbled_model) scripted_loads.
Proof.
  intros p image max_tokens w content. cbn. intros [= <-]. reflexivity.
Qed.

Lemma scripted_clock_answers (p : script) : clock_answers (scripted p).
Proof. intros w. eexists. reflexivity. Qed.



(** ** Fenced replies *)

#[local] Arguments String.append !_ _ : simpl nomatch.

Lemma string_app_assoc (a b c : string) : ((a ++ b) ++ c = a ++ (b ++ c))%string.
Proof. induction a as [|x a IH]; cbn [append]; [reflexivity | now f_equal]. Qed.

Lemma string_length_app (a b : string) :
  String.length (a ++ b) = (String.length a + String.length b)%nat.
Proof.
  induction a as [|x a IH]; cbn [append String.length plus]; [reflexivity | now f_equal].
Qed.

Lemma substring_whole_prefix (p t : string) :
  String.substring 0 (String.length p) (p ++ t) = p.
Proof.
  induction p as [|x p IH]; cbn [append String.length String.substring].
  - now destruct t.
  - now f_equal.
Qed.

Lemma prefix_of_longer (a b s : string) :
  String.prefix (a ++ b) s = true -> String.prefix a s = true.
Proof.
  revert s. induction a as [|x a IH]; intros s; destruct s as [|y s]; simpl;
    try reflexivity; try discriminate.
  destruct (ascii_dec x y); [apply IH | discriminate].
Qed.

Lemma gtb_true (a b : Z) : b < a -> (a >? b) = true.
Proof. intros Hlt. rewrite Z.gtb_ltb. now apply Z.ltb_lt. Qed.

Lemma prefix_app (a b : string) : String.prefix a (a ++ b) = true.
Proof.
  induction a as [|x a IH]; simpl.
  - now destruct b.
  - destruct (ascii_dec x x) as [_|n]; [exact IH | now destruct n].
Qed.

Lemma index_of_at_prefix (p s : string) :
  String.prefix p s = true -> PyStr.index_of p s = Some O.
Proof. intros Hp. destruct s; cbn [PyStr.index_of]; now rewrite Hp. Qed.

Lemma not_startswith_longer (s a b : string) :
  PyStr.startswith s a = false -> PyStr.startswith s (a ++ b) = false.
Proof.
  unfold PyStr.startswith. intros Ha.
  destruct (String.prefix (a ++ b) s) eqn:E; [|reflexivity].
  apply prefix_of_longer in E. congruence.
Qed.

Lemma index_of_longer (a b s : string) :
  PyStr.index_of a s = None -> PyStr.index_of (a ++ b) s = None.
Proof.
  induction s as [|x s IH].
  - cbn [PyStr.index_of]. destruct (String.prefix a "") eqn:Ea; [discriminate|]. intros _.
    destruct (String.prefix (a ++ b) "") eqn:E; [|reflexivity].
    apply prefix_of_longer in E. congruence.
  - cbn [PyStr.index_of].
    destruct (String.prefix a (String x s)) eqn:Ea; [discriminate|].
    destruct (String.prefix (a ++ b) (String x s)) eqn:E.
    + apply prefix_of_longer in E. congruence.
    + destruct (PyStr.index_of a s); [discriminate|]. intros _.
      now rewrite IH.
Qed.

Lemma not_contains_longer (s a b : string) :
  PyStr.contains s a = false -> PyStr.contains s (a ++ b) = false.
Proof.
  unfold PyStr.contains. intros Ha.
  destruct (PyStr.index_of a s) eqn:E; [discriminate|].
  now rewrite (index_of_longer a b s E).
Qed.

Lemma rstrip_app_fence (s : string) : PyStr.rstrip (s ++ "```") = (s ++ "```")%string.
Proof.
  induction s as [|x s IH]; [reflexivity|].
  cbn [append PyStr.rstrip]. rewrite IH.
  destruct (s ++ "```")%string eqn:E; [|reflexivity].
  destruct s; discriminate.
Qed.

(** A fenced response has no whitespace to strip. *)
Lemma strip_fenced (tag payload : string) :
  PyStr.strip (fenced tag payload) = fenced tag payload.
Proof.
  unfold PyStr.strip, fenced. cbn [append PyStr.lstrip].
  change (PyStr.isspace "`") with false. cbv iota.
  change (String "`" (String "`" (String "`" (tag ++ payload ++ "```"))))
    with ("```" ++ (tag ++ (payload ++ "```")))%string.
  rewrite <- (string_app_assoc tag), <- string_app_assoc.
  apply rstrip_app_fence.
Qed.

Lemma rindex_of_closing_fence (s : string) :
  PyStr.rindex_of "```" (s ++ "```") = Some (String.length s).
Proof.
  induction s as [|x s IH]; [reflexivity|].
  cbn [append PyStr.rindex_of String.length]. now rewrite IH.
Qed.

Lemma rfind_fenced (tag payload : string) :
  PyStr.rfind (fenced tag payload) "```"
  = 3 + Z.of_nat (String.length tag) + Z.of_nat (String.length payload).
Proof.
  unfold PyStr.rfind, fenced.
  rewrite <- (string_app_assoc tag), <- string_app_assoc.
  rewrite rindex_of_closing_fence, !string_length_app. cbn [PyStr.index_result String.length].
  lia.
Qed.

Lemma slice_after_prefix (a p t : string) :
  PyStr.slice (a ++ p ++ t) (Z.of_nat (String.length a))
    (Z.of_nat (String.length a) + Z.of_nat (String.length p)) = p.
Proof.
  unfold PyStr.slice.
  replace (Z.to_nat (Z.of_nat (String.length a) + Z.of_nat (String.length p)
                     - Z.of_nat (String.length a)))
    with (String.length p) by lia.
  rewrite Nat2Z.id.
  induction a as [|x a IH]; cbn [append String.length String.substring].
  - apply substring_whole_prefix.
  - exact IH.
Qed.

Lemma not_startswith_json_fenced (payload : string) :
  PyStr.startswith payload "json" = false ->
  PyStr.startswith (fenced "" payload) "```json" = false.
Proof.
  unfold PyStr.startswith, fenced. cbn [append String.prefix].
  repeat (destruct (ascii_dec "`" "`") as [_|n]; [|now destruct n]).
  destruct payload as [|a [|b [|c [|d payload]]]]; cbn [append String.prefix];
    repeat match goal with
           | |- context [ascii_dec ?x ?y] => destruct (ascii_dec x y); try discriminate
           end; auto.
  now destruct payload.
Qed.

Section FenceFacts.

Variable json_loads : string -> outcome json.
Hypothesis loads_rejects_empty : json_loads "" = Raises JSONDecodeError.
Hypothesis loads_rejects_fence :
  forall s, json_loads (String "`" s) = Raises JSONDecodeError.

(** What [extract_fenced] makes of a fenced response. *)
Lemma loads_extract_fenced (tag payload : string) :
  tag = "json"%string \/ tag = ""%string /\ PyStr.startswith payload "json" = false ->
  json_loads (extract_fenced (fenced tag payload)) = json_loads (PyStr.strip payload).
Proof.
  intros Htag. unfold extract_fenced.
  assert (Hstop := rfind_fenced tag payload).
  destruct Htag as [->|[-> Hjson]].
  - assert (Hp : String.prefix "```json" (fenced "json" payload) = true)
      by apply (prefix_app "```json" (payload ++ "```")).
    unfold PyStr.startswith, PyStr.find.
    rewrite Hp, (index_of_at_prefix _ _ Hp), Hstop. cbn [PyStr.index_result].
    destruct payload as [|c payload].
    + vm_compute. rewrite loads_rejects_empty. apply loads_rejects_fence.
    + rewrite gtb_true by (cbn [String.length]; lia).
      change (Z.of_nat 0 + 7) with (Z.of_nat (String.length "```json")).
      replace (3 + Z.of_nat (String.length "json")
               + Z.of_nat (String.length (String c payload)))
        with (Z.of_nat (String.length "```json")
              + Z.of_nat (String.length (String c payload)))
        by (cbn [String.length]; lia).
      change (fenced "json" (String c payload))
        with ("```json" ++ String c payload ++ "```")%string.
      now rewrite slice_after_prefix.
  - assert (Hp : String.prefix "```" (fenced "" payload) = true)
      by apply (prefix_app "```" (payload ++ "```")).
    rewrite (not_startswith_json_fenced payload Hjson).
    unfold PyStr.startswith, PyStr.find.
    rewrite Hp, (index_of_at_prefix _ _ Hp), Hstop. cbn [PyStr.index_result].
    destruct payload as [|c payload].
    + vm_compute. rewrite loads_rejects_empty. apply loads_rejects_fence.
    + rewrite gtb_true by (cbn [String.length]; lia).
      change (Z.of_nat 0 + 3) with (Z.of_nat (String.length "```")).
      replace (3 + Z.of_nat (String.length "")
               + Z.of_nat (String.length (String c payload)))
        with (Z.of_nat (String.length "```")
              + Z.of_nat (String.length (String c payload)))
        by (cbn [String.length]; lia).
      change (fenced "" (String c payload))
        with ("```" ++ String c payload ++ "```")%string.
      now rewrite slice_after_prefix.
Qed.

Lemma extract_fenced_unfenced (response : string) :
  PyStr.startswith response "```" = false -> extract_fenced response = response.
Proof.
  intros Hfence. unfold extract_fenced.
  pose proof (not_startswith_longer response "```" "json" Hfence) as Htagged.
  change ("```" ++ "json")%string with "```json"%string in Htagged.
  now rewrite Htagged, Hfence.
Qed.

Lemma find_from_fenced (tag payload : string) :
  PyStr.index_of "```" (payload ++ "```") = Some (String.length payload) ->
  PyStr.find_from (fenced tag payload) "```" (3 + Z.of_nat (String.length tag))
  = 3 + Z.of_nat (String.length tag) + Z.of_nat (String.length payload).
Proof.
  intros Hclose. unfold PyStr.find_from.
  rewrite (proj2 (Z.ltb_ge _ _))
    by (unfold fenced; rewrite !string_length_app; cbn [String.length]; lia).
  replace (Z.to_nat (3 + Z.of_nat (String.length tag)))
    with (3 + String.length tag)%nat by lia.
  unfold fenced. cbn [append plus PyStr.drop].
  assert (Hdrop : forall a b, PyStr.drop (String.length a) (a ++ b) = b).
  { induction a as [|x a IH]; intros b; cbn; [now destruct b | apply IH]. }
  now rewrite Hdrop, Hclose.
Qed.

(** What [extract_json_block] makes of a fenced response. *)
Lemma loads_extract_json_block (tag payload : string) :
  tag = "json"%string \/
  tag = ""%string /\ PyStr.contains (fenced "" payload) "```json" = false ->
  PyStr.index_of "```" (payload ++ "```") = Some (String.length payload) ->
  json_loads (extract_json_block (fenced tag payload)) = json_loads (PyStr.strip payload).
Proof.
  intros Htag Hclose. unfold extract_json_block.
  assert (Hstop := find_from_fenced tag payload Hclose).
  destruct Htag as [->|[-> Hjson]].
  - assert (Hp : String.prefix "```json" (fenced "json" payload) = true)
      by apply (prefix_app "```json" (payload ++ "```")).
    unfold PyStr.contains, PyStr.find.
    rewrite (index_of_at_prefix _ _ Hp). cbn [PyStr.index_result].
    change (Z.of_nat 0 + 7) with (3 + Z.of_nat (String.length "json")).
    rewrite Hstop.
    destruct payload as [|c payload].
    + vm_compute. rewrite loads_rejects_empty. apply loads_rejects_fence.
    + rewrite gtb_true by (cbn [String.length]; lia).
      replace (3 + Z.of_nat (String.length "json"))
        with (Z.of_nat (String.length "```json")) by (cbn [String.length]; lia).
      change (fenced "json" (String c payload))
        with ("```json" ++ String c payload ++ "```")%string.
      now rewrite slice_after_prefix.
  - assert (Hp : String.prefix "```" (fenced "" payload) = true)
      by apply (prefix_app "```" (payload ++ "```")).
    rewrite Hjson.
    unfold PyStr.contains, PyStr.find.
    rewrite (index_of_at_prefix _ _ Hp). cbn [PyStr.index_result].
    change (Z.of_nat 0 + 3) with (3 + Z.of_nat (String.length "")).
    rewrite Hstop.
    destruct payload as [|c payload].
    + vm_compute. rewrite loads_rejects_empty. apply loads_rejects_fence.
    + rewrite gtb_true by (cbn [String.length]; lia).
      replace (3 + Z.of_nat (String.length ""))
        with (Z.of_nat (String.length "```")) by (cbn [String.length]; lia).
      change (fenced "" (String c payload))
        with ("```" ++ String c payload ++ "```")%string.
      now rewrite slice_after_prefix.
Qed.

Lemma extract_json_block_unfenced (result : string) :
  PyStr.contains result "```" = false -> extract_json_block result = result.
Proof.
  intros Hfence. unfold extract_json_block.
  pose proof (not_contains_longer result "```" "json" Hfence) as Htagged.
  change ("```" ++ "json")%string with "```json"%string in Htagged.
  now rewrite Htagged, Hfence.
Qed.


End FenceFacts.

Lemma json_loads_rejects_empty (recursion_limit : nat) :
  Json.loads recursion_limit "" = Raises JSONDecodeError.
Proof. reflexivity. Qed.

Lemma json_loads_rejects_fence (recursion_limit : nat) (s : string) :
  Json.loads recursion_limit (String "`" s) = Raises JSONDecodeError.
Proof.
  unfold Json.loads. cbn [Json.skip_ws].
  change (Json.is_ws "`") with false. cbv iota.
  replace (2 * String.length (String "`" s) + 2)%nat
    with (S (2 * String.length (String "`" s) + 1))%nat by lia.
  reflexivity.
Qed.



(** ** The theorems on scripted pages *)

Lemma scripted_page_answers (p : script) :
  0 <= script_height p -> page_answers (scripted p).
Proof.
  intros Hheight. unfold page_answers. cbn [scripted fst].
  repeat split; intros; try reflexivity; eexists; try split; try reflexivity; exact Hheight.
Qed.

Lemma always_none_reports_none : always_reports (scripted always_none) "NONE".
Proof. intros p image max_tokens w. reflexivity. Qed.

Lemma always_click_reports_target :
  always_reports_target PyStr.int (scripted always_click)
    (viewport_seen (scripted always_click) blank_browser).
Proof.
  intros p image max_tokens w. exists "CLICK,100,200"%string.
  split; [reflexivity|]. split; [reflexivity|].
  exists "CLICK"%string, "100"%string, "200"%string, 100, 200.
  repeat split; reflexivity.
Qed.

Lemma always_click_succeeds : every_click_succeeds (scripted always_click).
Proof. intros x y w. eexists. reflexivity. Qed.

Lemma barren_classifier_false : classifier_always_false (scripted barren_site).
Proof.
  intros w v. cbn [scripted fst]. intros [= <-].
  exists (JBool false). split; reflexivity.
Qed.

Lemma barren_nothing_discovered : nothing_discovered (scripted barren_site).
Proof. repeat split. Qed.

Lemma scripted_start_page_loads (p : script) (start_url : string) (w : browser) :
  start_page_loads (scripted p) start_url w.
Proof. unfold start_page_loads. cbn [scripted]. repeat eexists. Qed.

Lemma pagination_stops_at_click_ceiling_witness :
  exists d s' extra,
    vision_detect_pagination PyStr.int (scripted always_click) true 20 (start tt)
    = Some (Returns d, s') /\
    d !! "mode" = Some (JStr "vision_click") /\
    d !! "total_clicks" = Some (JInt 20) /\
    trace s' = trace (start tt) ++ extra /\
    length (click_attempts extra) = 20%nat /\
    successful_clicks extra = 20.
Proof.
  apply (pagination_stops_at_click_ceiling PyStr.int (scripted always_click) (start tt) 20).
  - apply scripted_page_answers. vm_compute. discriminate.
  - exact always_click_reports_target.
  - exact always_click_succeeds.
  - vm_compute. discriminate.
  - vm_compute. lia.
Defined.



Lemma clicks_stay_inside_viewport_witness :
  exists r s',
    vision_detect_pagination PyStr.int (scripted mixed_reports) true 20 (State blank_browser [] tt)
    = Some (r, s') /\
    clicks_inside (viewport_seen (scripted mixed_reports) blank_browser) (trace s') /\
    forall d n, r = Returns d -> d !! "total_clicks" = Some (JInt n) ->
                n = successful_clicks (trace s').
Proof.
  apply (clicks_stay_inside_viewport PyStr.int (scripted mixed_reports) blank_browser tt 20).
  vm_compute. lia.
Defined.

Lemma discovery_without_job_pages_witness :
  exists result s',
    discover_job_pages (scripted barren_site) false "https://a.example/" 5
      (State blank_browser [] new_discovery)
    = Some (Returns result, s') /\
    total_job_pages_found result = 0 /\
    total_pages_explored result <= MAX_PAGES_TO_EXPLORE.
Proof.
  apply (discovery_without_job_pages (scripted barren_site) false "https://a.example/"
           blank_browser 5).
  - exact barren_classifier_false.
  - exact barren_nothing_discovered.
  - apply scripted_start_page_loads.
Defined.

(** C2, the pages that refute the claim as worded.  On each of them every
    vision query reports a target inside the viewport and every click finds
    an element, yet the exhauster returns [{"mode": "none"}] and has
    clicked nothing.  On the page one pixel high the scroll step
    [int(1 * 0.75)] is 0, the division [page_height // scroll_step] raises
    and the round setup breaks out of the loop.  On the page whose probe of
    the element under the reported point raises, the exception leaves the
    scan and the handler of the whole function returns. *)
Lemma pagination_may_end_without_a_click :
  (always_reports_target PyStr.int (scripted flat_viewport)
     (viewport_seen (scripted flat_viewport) blank_browser) /\
   every_click_succeeds (scripted flat_viewport) /\
   exists d s',
     vision_detect_pagination PyStr.int (scripted flat_viewport) true 20 (start tt)
     = Some (Returns d, s') /\
     d !! "mode" = Some (JStr "none") /\
     d !! "total_clicks" = None /\
     click_attempts (trace s') = []) /\
  (always_reports_target PyStr.int probe_fails (viewport_seen probe_fails blank_browser) /\
   every_click_succeeds probe_fails /\
   exists d s',
     vision_detect_pagination PyStr.int probe_fails true 20 (start tt)
     = Some (Returns d, s') /\
     d !! "mode" = Some (JStr "none") /\
     d !! "total_clicks" = None /\
     click_attempts (trace s') = []).
Proof.
  split.
  - split; [|split].
    + intros p image max_tokens w. exists "CLICK,0,0"%string.
      split; [reflexivity|]. split; [reflexivity|].
      exists "CLICK"%string, "0"%string, "0"%string, 0, 0.
      repeat split; reflexivity.
    + intros x y w. eexists. reflexivity.
    + assert (Hobs :
                match vision_detect_pagination PyStr.int (scripted flat_viewport) true 20
                        (start tt) with
                | Some (Returns d, s') =>
                    Some (d !! "mode", d !! "total_clicks", click_attempts (trace s'))
                | _ => None
                end = Some (Some (JStr "none"), None, []))
        by (vm_compute; reflexivity).
      destruct (vision_detect_pagination PyStr.int (scripted flat_viewport) true 20 (start tt))
        as [[[d|e] s']|]; try discriminate Hobs.
      injection Hobs as Hmode Htotal Hclicks.
      exists d, s'. repeat split; try assumption; reflexivity.
  - split; [|split].
    + intros p image max_tokens w. exists "CLICK,100,200"%string.
      split; [reflexivity|]. split; [reflexivity|].
      exists "CLICK"%string, "100"%string, "200"%string, 100, 200.
      repeat split; reflexivity.
    + intros x y w. eexists. reflexivity.
    + assert (Hobs :
                match vision_detect_pagination PyStr.int probe_fails true 20 (start tt) with
                | Some (Returns d, s') =>
                    Some (d !! "mode", d !! "total_clicks", click_attempts (trace s'))
                | _ => None
                end = Some (Some (JStr "none"), None, []))
        by (vm_compute; reflexivity).
      destruct (vision_detect_pagination PyStr.int probe_fails true 20 (start tt))
        as [[[d|e] s']|]; try discriminate Hobs.
      injection Hobs as Hmode Htotal Hclicks.
      exists d, s'. repeat split; try assumption; reflexivity.
Qed.

(** C3, the site that refutes the claim as worded.  Its classifier never
    accepts a page and its coroutines report nothing, but the first
    [page.goto], which no handler guards, raises: the run ends in that
    exception and returns no result. *)
Lemma discovery_raises_when_start_page_fails :
  classifier_always_false unreachable_site /\
  nothing_discovered unreachable_site /\
  forall fuel,
    discover_job_pages unreachable_site false "https://a.example/" fuel
      (State blank_browser [] new_discovery)
    = Some (Raises SurfaceError,
            State blank_browser
              [Entry (Goto "https://a.example/" 60000) (Raises SurfaceError)]
              new_discovery).
Proof.
  split; [|split].
  - intros w v. cbn. intros [= <-]. exists (JBool false). split; reflexivity.
  - repeat split.
  - intros fuel. reflexivity.
Qed.

(** * Further properties of the code *)

(** ** Traversal: what is recorded (job_page_discovery.py) *)

(** What one explored page does to the records: the visited set is left
    alone, at most one job page is appended, for the URL and the depth
    being explored, and every link added to the frontier is one level
    deeper. *)
Definition page_step (current_url : string) (k : Z) (d d' : discovery) : Prop :=
  visited_urls d' = visited_urls d /\
  (job_pages d' = job_pages d \/
   exists c n t, job_pages d' = job_pages d ++ [JobPage current_url c n t k]) /\
  exists added,
    pages_to_explore d' = pages_to_explore d ++ added /\
    Forall (fun p : string * Z => snd p = k + 1) added.

(** What the traversal keeps true of its records: no URL is recorded as a
    job page twice, every job page was visited at a depth between 0 and
    [MAX_DEPTH], and every waiting entry has a depth that is not
    negative. *)
Definition records_sound (d : discovery) : Prop :=
  NoDup (map url (job_pages d)) /\
  Forall (fun p => url p ∈ visited_urls d /\ 0 <= depth p <= MAX_DEPTH) (job_pages d) /\
  Forall (fun p : string * Z => 0 <= snd p) (pages_to_explore d).

Lemma enqueued_depths (links : list string) (k : Z) :
  Forall (fun p : string * Z => snd p = k + 1) (map (fun link => (link, k + 1)) links).
Proof. induction links; constructor; auto. Qed.

Lemma records_sound_pop (d : discovery) : records_sound d -> records_sound (pop_front d).
Proof.
  intros (Hd & Hj & Hf). repeat split; auto. cbn [pop_front pages_to_explore].
  destruct (pages_to_explore d); [constructor | now inversion Hf].
Qed.

Lemma records_sound_step (current_url : string) (k : Z) (d d' : discovery) :
  records_sound d -> current_url ∉ visited_urls d -> 0 <= k <= MAX_DEPTH ->
  page_step current_url k (mark_visited current_url d) d' ->
  records_sound d'.
Proof.
  intros (Hd & Hj & Hf) Hnew Hk (Hv & Hjobs & added & Hq & Hadded).
  cbn [mark_visited visited_urls job_pages pages_to_explore] in *.
  assert (Hold : Forall (fun p => url p ∈ visited_urls d' /\ 0 <= depth p <= MAX_DEPTH)
                   (job_pages d)).
  { eapply Forall_impl; [exact Hj|]. intros p [Hin Hp]. split; [|exact Hp].
    rewrite Hv. set_solver. }
  assert (Hfront : Forall (fun p : string * Z => 0 <= snd p) (pages_to_explore d')).
  { rewrite Hq. apply Forall_app_2; [exact Hf|].
    eapply Forall_impl; [exact Hadded|]. intros p Hp. cbn beta in Hp. lia. }
  unfold records_sound. destruct Hjobs as [->|(c & n & t & ->)].
  - repeat split; assumption.
  - repeat split; [| |exact Hfront].
    + rewrite map_app. cbn [map url]. apply NoDup_app. split; [exact Hd|].
      split; [|apply NoDup_singleton].
      intros u Hu Hu'. apply list_elem_of_singleton in Hu'. subst u.
      apply list_elem_of_fmap in Hu as (p & -> & Hp).
      rewrite Forall_forall in Hj. destruct (Hj p Hp) as [Hin _]. contradiction.
    + apply Forall_app_2; [exact Hold|]. constructor; [|constructor].
      cbn [url depth]. split; [rewrite Hv; set_solver | exact Hk].
Qed.

Section TraversalRecords.

Context {W : Type}.
Variable respond : forall A, call A -> W -> outcome A * W.

Ltac step_end :=
  cbn [world trace heap]; unfold page_step;
  cbn [visited_urls job_pages pages_to_explore enqueue_links append_elements
       append_job_page];
  split; [reflexivity|];
  split;
  [ first [left; reflexivity | right; eexists; eexists; eexists; reflexivity]
  | eexists; split;
    [ rewrite <- ?app_assoc; first [reflexivity | symmetry; apply app_nil_r]
    | repeat apply Forall_app_2; first [apply enqueued_depths | constructor] ] ].

Lemma explore_page_step verbose current_url k (s : state W discovery) :
  run False
    (try_except (explore_page respond verbose current_url k)
       any_exception (fun _ => ret tt))
    (fun r s' => r = Returns tt /\ page_step current_url k (heap s) (heap s')) s.
Proof.
  unfold explore_page. apply run_try_except.
  run_step. run_step.
  destruct r; [|cbn [any_exception]; run_step; split; [reflexivity | step_end]].
  run_step. run_step.
  destruct r; [|cbn [any_exception]; run_step; split; [reflexivity | step_end]].
  run_step. run_step.
  destruct r as [v|]; [|cbn [any_exception]; run_step; split; [reflexivity | step_end]].
  run_step. run_step.
  destruct (Py.getitem v "is_job_page") as [flag|] eqn:Hg;
    [|cbn [any_exception]; run_step; split; [reflexivity | step_end]].
  destruct (Py.truthy flag) eqn:Ht.
  - run_step. run_step.
    destruct (Py.getitem v "confidence") as [confidence|] eqn:Hconf;
      [|cbn [any_exception]; run_step; split; [reflexivity | step_end]].
    run_step. run_step. run_step.
    assert (Hfmt : forall (Q : outcome unit -> state W discovery -> Prop) s0,
              (Q (Returns tt) s0) ->
              (forall e, Q (Raises e) s0) ->
              run False (if verbose then lift (Py.format_percent confidence) else ret tt) Q s0).
    { intros Q s0 Hok Hbad. destruct verbose; [|exact Hok].
      apply run_lift. destruct (Py.format_percent confidence) as [[]|]; auto. }
    apply Hfmt;
      [|intros e; cbn [any_exception]; run_step; split; [reflexivity | step_end]].
    run_step. run_step.
    destruct r as [related_links|];
      [|cbn [any_exception]; run_step; split; [reflexivity | step_end]].
    run_step. split; [reflexivity | step_end].
  - run_step. run_step.
    destruct r as [nav|]; [|cbn [any_exception]; run_step; split; [reflexivity | step_end]].
    run_step. run_step. run_step.
    destruct (fst nav) as [|link nav_links] eqn:Hnav.
    + run_step. run_step. run_step.
      destruct r as [job_links|];
        [|cbn [any_exception]; run_step; split; [reflexivity | step_end]].
      run_step. split; [reflexivity | step_end].
    + run_step. run_step. run_step.
      destruct r as [job_links|];
        [|cbn [any_exception]; run_step; split; [reflexivity | step_end]].
      run_step. split; [reflexivity | step_end].
Qed.

Lemma visit_records_sound verbose current_url k (s : state W discovery) :
  records_sound (heap s) -> 0 <= k ->
  run False (visit respond verbose current_url k)
    (fun r s' => r = Returns tt /\ records_sound (heap s')) s.
Proof.
  intros Hsound Hk. unfold visit. run_step. run_step.
  destruct (bool_decide (current_url ∈ visited_urls (heap s))) eqn:Hin; cbn [orb].
  { run_step. now split. }
  apply bool_decide_eq_false in Hin.
  destruct (k >? MAX_DEPTH) eqn:Hdeep.
  { run_step. now split. }
  run_step. run_step.
  eapply run_consequence; [| apply explore_page_step].
  intros r s' (-> & Hstep). cbn [heap] in Hstep. split; [reflexivity|].
  apply (records_sound_step current_url k (heap s)); auto.
  destruct (Z.gtb_spec k MAX_DEPTH); [discriminate | lia].
Qed.

Lemma explore_records_sound verbose fuel :
  forall s : state W discovery,
  records_sound (heap s) ->
  run True (explore respond fuel verbose)
    (fun r s' => r = Returns tt /\ records_sound (heap s')) s.
Proof.
  induction fuel as [|fuel IH]; intros s Hsound.
  - unfold run. cbn [explore]. unfold bind, get_heap.
    destruct (pages_to_explore (heap s)) as [|[u k] rest].
    + cbn. now split.
    + destruct (_ <? _); [exact I|]. cbn. now split.
  - destruct (pages_to_explore (heap s)) as [|[u k] rest] eqn:Hq.
    { unfold run. rewrite explore_done by auto. now split. }
    destruct (Z.ltb_spec (Z.of_nat (size (visited_urls (heap s)))) MAX_PAGES_TO_EXPLORE)
      as [Hsize|Hsize].
    2:{ unfold run. rewrite explore_done by auto. now split. }
    unfold run. rewrite (explore_unfold respond fuel verbose s u k rest Hq Hsize).
    assert (Hk : 0 <= k).
    { destruct Hsound as (_ & _ & Hf). rewrite Hq in Hf. now inversion Hf. }
    pose proof (visit_records_sound verbose u k
                  (State (world s) (trace s) (pop_front (heap s)))
                  (records_sound_pop _ Hsound) Hk) as Hvisit.
    apply run_total_result in Hvisit.
    destruct Hvisit as (r & s1 & -> & -> & Hsound1).
    apply (IH s1 Hsound1).
Qed.

Lemma discover_job_pages_records_sound verbose start_url fuel (w : W) :
  run True (discover_job_pages respond verbose start_url fuel)
    (fun r s' => records_sound (heap s')) (State w [] new_discovery).
Proof.
  assert (Hnew : records_sound new_discovery) by (repeat split; constructor).
  unfold discover_job_pages.
  run_step. run_step. cbn [world trace heap] in *.
  destruct r as [[]|e]; [|exact Hnew].
  run_step. run_step. cbn [world trace heap] in *.
  destruct r as [[]|e]; [|exact Hnew].
  run_step. run_step. cbn [world trace heap] in *.
  destruct r as [nav|e]; [|exact Hnew].
  run_step. run_step. run_step. run_step. run_step.
  cbn [world trace heap].
  eapply run_consequence; [| apply explore_records_sound].
  - intros r s' (-> & Hsound). run_step. run_step. run_step. exact Hsound.
  - cbn [heap start_frontier append_elements new_discovery]. repeat split.
    + constructor.
    + constructor.
    + cbn [pages_to_explore]. induction (fst nav); constructor; cbn; auto; lia.
Qed.

(** X1.  Whatever the site answers, the result of a discovery records no
    URL as a job page twice, records every job page at a depth between 0
    and [MAX_DEPTH], and counts no more job pages than pages explored,
    which are at most [MAX_PAGES_TO_EXPLORE]; the two counts are the
    lengths of what the result holds. *)
Theorem discovery_records_are_sound verbose start_url fuel (w : W) result s' :
  discover_job_pages respond verbose start_url fuel (State w [] new_discovery)
  = Some (Returns result, s') ->
  NoDup (map url (result_job_pages result)) /\
  Forall (fun p => 0 <= depth p <= MAX_DEPTH) (result_job_pages result) /\
  total_job_pages_found result = Z.of_nat (length (result_job_pages result)) /\
  total_job_pages_found result <= total_pages_explored result /\
  total_pages_explored result <= MAX_PAGES_TO_EXPLORE /\
  total_elements_discovered result = Z.of_nat (length (discovered_elements result)).
Proof.
  intros Hrun.
  pose proof (discover_job_pages_explored respond verbose start_url fuel w) as Hex.
  unfold run in Hex. rewrite Hrun in Hex.
  destruct Hex as (_ & Hcap & _ & Hresult & _).
  specialize (Hresult result eq_refl).
  pose proof (discover_job_pages_records_sound verbose start_url fuel w) as Hsound.
  unfold run in Hsound. rewrite Hrun in Hsound.
  destruct Hsound as (Hd & Hj & _).
  subst result. unfold result_of.
  cbn [result_job_pages total_job_pages_found total_pages_explored
       total_elements_discovered discovered_elements].
  repeat split; auto.
  - eapply Forall_impl; [exact Hj|]. now intros p [_ Hp].
  - assert (Hlen : (length (map url (job_pages (heap s'))) <= size (visited_urls (heap s')))%nat).
    { rewrite <- (size_list_to_set (C:=gset string)) by exact Hd.
      apply subseteq_size. intros u Hu. apply elem_of_list_to_set in Hu.
      apply list_elem_of_fmap in Hu as (p & -> & Hp).
      rewrite Forall_forall in Hj. now destruct (Hj p Hp). }
    rewrite length_map in Hlen. lia.
Qed.

End TraversalRecords.

(** ** Pagination exhauster: what every run returns (vision_pagination.py) *)

Section PaginationResult.

Context {W H : Type}.
Variable py_int : string -> option Z.
Variable respond : forall A, call A -> W -> outcome A * W.

Lemma run_total_and_partial {A} (m : M W H A) (Q Q' : outcome A -> state W H -> Prop) s :
  run False m Q s -> run True m Q' s -> run False m (fun r s' => Q r s' /\ Q' r s') s.
Proof. unfold run. destruct (m s) as [[r s']|]; tauto. Qed.

(** The counter the rounds return never passes the ceiling. *)
Lemma pagination_rounds_bounded viewport_size fuel :
  forall total_clicks (s : state W H),
  total_clicks <= max_clicks ->
  run True (pagination_rounds py_int respond fuel viewport_size total_clicks)
    (fun r _ => forall total, r = Returns total -> total_clicks <= total <= max_clicks) s.
Proof.
  induction fuel as [|fuel IH]; intros total_clicks s Hle;
    cbn [pagination_rounds]; destruct (total_clicks <? max_clicks) eqn:Hlt;
    cbv iota;
    try (run_step; intros total [= <-]; lia).
  - exact I.
  - apply Z.ltb_lt in Hlt.
    run_step. eapply run_consequence; [| apply round_setup_clicks_nothing].
    intros r s1 (e1 & E1 & Hc1 & [[[page_height scroll_step] max_iterations]|] & ->).
    2:{ run_step. intros total [= <-]. lia. }
    run_step. eapply run_consequence; [| apply (scan_page_adds py_int respond True)].
    intros r s2 (e2 & E2 & Hi2 & _ & Hr2).
    destruct r as [[total found]|e]; cbn [fst snd]; [|intros total [=]].
    destruct Hr2 as [_ Hf]. destruct found.
    + eapply run_consequence; [| apply (IH total s2); lia].
      cbn beta. intros r s3 Hr3 total' ->. specialize (Hr3 total' eq_refl). lia.
    + run_step. intros t [= <-]. lia.
Qed.

(** X2.  Whatever the page and the model answer, the exhauster raises
    nothing: with fuel for the rounds below the ceiling it returns either
    [{"mode": "none"}] or [{"mode": "vision_click", "total_clicks": n}]
    with [1 <= n <= 20], where [n] is the number of clicks that hit an
    element.  When the vision API is not available it returns
    [{"mode": "none"}] without a single call to the page. *)
Theorem pagination_result_shape (w : W) (h : H) (fuel : nat) :
  (Z.to_nat max_clicks <= fuel)%nat ->
  (exists d s',
     vision_detect_pagination py_int respond true fuel (State w [] h) = Some (Returns d, s') /\
     (d = mode_none \/
      exists n, d = mode_vision_click n /\ 1 <= n <= max_clicks /\
                n = successful_clicks (trace s'))) /\
  (forall s : state W H,
     vision_detect_pagination py_int respond false fuel s = Some (Returns mode_none, s)).
Proof.
  intros Hfuel. split; [|reflexivity].
  assert (Hrun : run False (vision_detect_pagination py_int respond true fuel)
                   (fun r s' => exists d, r = Returns d /\
                      (d = mode_none \/
                       exists n, d = mode_vision_click n /\ 1 <= n <= max_clicks /\
                                 n = successful_clicks (trace s')))
                   (State w [] h)).
  { unfold vision_detect_pagination. cbn [negb].
    apply run_try_except. run_step. run_step. cbn [trace world heap] in *.
    destruct r as [v|e]; cbn [any_exception].
    2:{ run_step. eexists. split; [reflexivity | now left]. }
    set (viewport_size := viewport_or_default v).
    run_step. eapply run_consequence;
      [| apply run_total_and_partial;
         [ apply (pagination_rounds_add py_int respond viewport_size fuel 0); exact Hfuel
         | apply (pagination_rounds_bounded viewport_size fuel 0); unfold max_clicks; lia ] ].
    cbn beta. intros r s1 [(extra & E & Hi & Hr) Hbound]. cbn [trace] in E.
    assert (Hs : successful_clicks (trace s1) = successful_clicks extra).
    { rewrite E, successful_clicks_app. reflexivity. }
    destruct r as [total|e].
    - specialize (Hbound total eq_refl).
      destruct (total >? 0) eqn:Hpos; run_step; eexists; (split; [reflexivity|]).
      + right. exists total. split; [reflexivity|]. apply Z.gtb_lt in Hpos.
        split; [lia|]. rewrite Hs. lia.
      + now left.
    - cbn [any_exception]. run_step. eexists. split; [reflexivity | now left]. }
  apply run_total_result in Hrun. destruct Hrun as (r & s' & Hrun & d & -> & Hd).
  now exists d, s'.
Qed.

End PaginationResult.

Lemma pagination_result_shape_witness :
  exists d s',
    vision_detect_pagination PyStr.int (scripted mixed_reports) true 20 (State blank_browser [] tt)
    = Some (Returns d, s') /\
    (d = mode_none \/
     exists n, d = mode_vision_click n /\ 1 <= n <= max_clicks /\
               n = successful_clicks (trace s')).
Proof.
  apply (pagination_result_shape PyStr.int (scripted mixed_reports) blank_browser tt 20).
  vm_compute. lia.
Defined.

(** ** Coordinate resolver and page-absolute boxes *)

(** X3.  A box that is not of length four has no click point, and the
    click point of a box of four values lies inside the box: between the
    two corners when they are read as corners and are in order, between the
    origin and the origin plus the size when they are read as origin and a
    size that is not negative. *)
Theorem click_point_inside_box (bbox : list Z) :
  (length bbox <> 4%nat -> resolve_click_point bbox = None) /\
  (forall b0 b1 b2 b3 x y,
     bbox = [b0; b1; b2; b3] ->
     resolve_click_point bbox = Some (x, y) ->
     (b2 > 100 /\ b3 > 100 -> b0 <= b2 -> b1 <= b3 ->
      b0 <= x <= b2 /\ b1 <= y <= b3) /\
     (b2 <= 100 \/ b3 <= 100 -> 0 <= b2 -> 0 <= b3 ->
      b0 <= x <= b0 + b2 /\ b1 <= y <= b1 + b3)).
Proof.
  split; [apply click_point_needs_four|].
  intros b0 b1 b2 b3 x y -> Hpoint.
  pose proof (click_point_rounds_down b0 b1 b2 b3 x y Hpoint) as Hround.
  split.
  - intros [H2 H3] Hx Hy.
    assert (E2 : (b2 >? 100) = true) by (apply Z.gtb_lt; lia).
    assert (E3 : (b3 >? 100) = true) by (apply Z.gtb_lt; lia).
    rewrite E2, E3 in Hround. cbn [andb] in Hround. lia.
  - intros Hsmall H2 H3.
    destruct (b2 >? 100) eqn:E2; [destruct (b3 >? 100) eqn:E3|];
      cbn [andb] in Hround; lia.
Qed.


(** ** Validation of a vision response (viewport_analyzer.py) *)

(** An element as [_validate_element] accepts it: a JSON object with the
    four required members, a type among the four valid ones, and a box of
    four numbers none of which is negative. *)
Definition well_formed_element (element : json) : Prop :=
  exists members type b0 b1 b2 b3,
    element = JObj members /\
    Py.lookup_member "type" members = Some (JStr type) /\
    In type valid_types /\
    is_Some (Py.lookup_member "label" members) /\
    is_Some (Py.lookup_member "semantic_role" members) /\
    Py.lookup_member "bbox" members = Some (JArr [b0; b1; b2; b3]) /\
    Forall (fun b => Py.nonnegative_number b = true) [b0; b1; b2; b3].

Lemma validate_element_sound (element : json) :
  _validate_element element = Returns tt -> well_formed_element element.
Proof.
  unfold _validate_element, required_fields. cbn [check_required].
  destruct element as [| | | | | |s|items|members]; cbn [Py.contains Py.getitem];
    try discriminate.
  - destruct (PyStr.contains s "type"); [|discriminate].
    destruct (PyStr.contains s "label"); [|discriminate].
    destruct (PyStr.contains s "bbox"); [|discriminate].
    destruct (PyStr.contains s "semantic_role"); discriminate.
  - repeat match goal with
           | |- context [existsb ?f ?l] => destruct (existsb f l)
           end; discriminate.
  - destruct (Py.lookup_member "type" members) as [type|] eqn:Htype; [|discriminate].
    destruct (Py.lookup_member "label" members) as [label|] eqn:Hlabel; [|discriminate].
    destruct (Py.lookup_member "bbox" members) as [bbox|] eqn:Hbbox; [|discriminate].
    destruct (Py.lookup_member "semantic_role" members) as [role|] eqn:Hrole;
      [|discriminate].
    destruct type as [| | | | | |t| |]; try discriminate.
    destruct (existsb (String.eqb t) valid_types) eqn:Hvalid; [|discriminate].
    destruct bbox as [| | | | | | |[|b0 [|b1 [|b2 [|b3 [|b4 rest]]]]]|]; try discriminate.
    destruct (forallb Py.nonnegative_number [b0; b1; b2; b3]) eqn:Hbox; [|discriminate].
    intros _. exists members, t, b0, b1, b2, b3.
    repeat split; eauto.
    + apply existsb_exists in Hvalid as (t' & Hin & Heq).
      apply String.eqb_eq in Heq. now subst t'.
    + apply Forall_forall. intros b Hb. rewrite forallb_forall in Hbox.
      apply Hbox. now apply list_elem_of_In.
Qed.

Lemma validate_element_raises (element : json) :
  match _validate_element element with
  | Returns _ => True
  | Raises e => e = ValueError \/ e = KeyError \/ e = TypeError
  end.
Proof.
  unfold _validate_element, required_fields.
  destruct element; cbn [check_required Py.contains Py.getitem]; auto;
    repeat (match goal with
            | |- context [PyStr.contains ?s ?k] => destruct (PyStr.contains s k)
            | |- context [existsb ?f ?l] => destruct (existsb f l)
            | |- context [Py.lookup_member ?k ?m] => destruct (Py.lookup_member k m)
            | |- context [forallb ?f ?l] => destruct (forallb f l)
            | |- context [match ?x with _ => _ end] => is_var x; destruct x
            end; cbn [check_required Py.contains Py.getitem]; auto).
Qed.

Lemma validate_elements_sound (elements : list json) :
  validate_elements elements = Returns tt -> Forall well_formed_element elements.
Proof.
  induction elements as [|element rest IH]; cbn [validate_elements]; [constructor|].
  destruct (_validate_element element) as [[]|e] eqn:Helement; [|discriminate].
  intros Hrest. constructor; [now apply validate_element_sound | now apply IH].
Qed.

(** X5.  Whatever [json.loads] answers or raises, a response that
    [_parse_vision_response] returns is the decoded text itself, a JSON
    object whose [elements] member is a list of well-formed elements: each
    an object with a type among button, input, link and clickable, a label,
    a semantic role and a box of four numbers that are not negative.  Every
    other response raises, and none is returned partly validated: a
    [JSONDecodeError] of the decoder becomes [ValueError], any other
    exception of the decoder ([RecursionError] on deep nesting, say) passes
    through unchanged, and a decoded value that fails the validation raises
    [ValueError], [KeyError] or [TypeError]. *)
Theorem parsed_response_is_valid (json_loads : string -> outcome json)
    (response : string) :
  match _parse_vision_response json_loads response with
  | Returns parsed =>
      json_loads (extract_fenced response) = Returns parsed /\
      exists members elements,
        parsed = JObj members /\
        Py.lookup_member "elements" members = Some (JArr elements) /\
        Forall well_formed_element elements
  | Raises e =>
      match json_loads (extract_fenced response) with
      | Raises e' => e = if is_JSONDecodeError e' then ValueError else e'
      | Returns _ => e = ValueError \/ e = KeyError \/ e = TypeError
      end
  end.
Proof.
  unfold _parse_vision_response.
  destruct (json_loads (extract_fenced response)) as [parsed|e'].
  2:{ destruct (is_JSONDecodeError e'); reflexivity. }
  destruct parsed as [| | | | | | | |members]; try now left.
  destruct (Py.lookup_member "elements" members) as [elements|] eqn:Helements;
    [|now left].
  destruct elements as [| | | | | | |elements|]; try now left.
  destruct (validate_elements elements) as [[]|e] eqn:Hvalid.
  - split; [reflexivity|]. exists members, elements.
    repeat split; auto. now apply validate_elements_sound.
  - clear Helements. induction elements as [|element rest IH];
      cbn [validate_elements] in Hvalid; [discriminate|].
    pose proof (validate_element_raises element) as Hraises.
    destruct (_validate_element element) as [[]|e''] eqn:Helement; [now apply IH|].
    now injection Hvalid as <-.
Qed.

(** ** The discovery ends (job_page_discovery.py) *)

Section TraversalEnds.

Context {W : Type}.
Variable respond : forall A, call A -> W -> outcome A * W.

(** A run of the loop that ended is not changed by more fuel. *)
Lemma explore_more_fuel verbose fuel :
  forall (s : state W discovery) x,
  explore respond fuel verbose s = Some x ->
  explore respond (S fuel) verbose s = Some x.
Proof.
  induction fuel as [|fuel IH]; intros s x Hrun.
  - destruct (pages_to_explore (heap s)) as [|[u k] rest] eqn:Hq.
    { rewrite explore_done in Hrun |- * by auto. exact Hrun. }
    destruct (Z.ltb_spec (Z.of_nat (size (visited_urls (heap s)))) MAX_PAGES_TO_EXPLORE)
      as [Hsize|Hsize].
    2:{ rewrite explore_done in Hrun |- * by auto. exact Hrun. }
    exfalso. revert Hrun. cbn [explore]. unfold bind, get_heap. rewrite Hq.
    apply Z.ltb_lt in Hsize. rewrite Hsize. discriminate.
  - destruct (pages_to_explore (heap s)) as [|[u k] rest] eqn:Hq.
    { rewrite explore_done in Hrun |- * by auto. exact Hrun. }
    destruct (Z.ltb_spec (Z.of_nat (size (visited_urls (heap s)))) MAX_PAGES_TO_EXPLORE)
      as [Hsize|Hsize].
    2:{ rewrite explore_done in Hrun |- * by auto. exact Hrun. }
    rewrite (explore_unfold respond (S fuel) verbose s u k rest Hq Hsize).
    rewrite (explore_unfold respond fuel verbose s u k rest Hq Hsize) in Hrun.
    destruct (visit respond verbose u k _) as [[[[]|e] s1]|]; auto.
Qed.

Lemma bind_mono_k {H A B} (m : M W H A) (k k' : A -> M W H B) s x :
  (forall a s1 y, k a s1 = Some y -> k' a s1 = Some y) ->
  bind m k s = Some x -> bind m k' s = Some x.
Proof.
  intros Hk. unfold bind. destruct (m s) as [[[a|e] s1]|]; auto.
Qed.

Lemma bind_mono_m {H A B} (m m' : M W H A) (k : A -> M W H B) s x :
  (forall y, m s = Some y -> m' s = Some y) ->
  bind m k s = Some x -> bind m' k s = Some x.
Proof.
  intros Hm. unfold bind. destruct (m s) as [y|] eqn:Hrun; [|discriminate].
  now rewrite (Hm y eq_refl).
Qed.

Lemma discover_more_fuel verbose start_url fuel (s : state W discovery) x :
  discover_job_pages respond verbose start_url fuel s = Some x ->
  discover_job_pages respond verbose start_url (S fuel) s = Some x.
Proof.
  unfold discover_job_pages.
  apply bind_mono_k. intros _ s1 y1.
  apply bind_mono_k. intros _ s2 y2.
  apply bind_mono_k. intros nav s3 y3.
  apply bind_mono_k. intros _ s4 y4.
  apply bind_mono_k. intros _ s5 y5.
  apply bind_mono_m. intros y. apply explore_more_fuel.
Qed.


End TraversalEnds.

(** ** Action executor: results and rejected arguments (viewport_analyzer.py) *)

(** The result of an action: a dictionary with a boolean [success] and a
    [timestamp], and an [error] message when [success] is [False]. *)
Definition action_result (d : dict) : Prop :=
  exists success,
    d !! "success" = Some (JBool success) /\
    is_Some (d !! "timestamp") /\
    (success = false -> is_Some (d !! "error")).

(** The trace holds nothing but readings of the clock. *)
Definition only_clock (extra : list entry) : Prop :=
  Forall (fun e => match e with
                   | Entry c _ => match c with Now => True | _ => False end
                   end) extra.

(** The requests [perform_action] cannot carry out: a click, an input or
    a select whose box is missing or is not of four values, an input
    without text, a select without an option, a scroll without both
    coordinates, and an action of any other type, whatever its arguments. *)
Inductive malformed_request (action_type : string) (args : action_args) : Prop :=
  | bad_box :
      In action_type ["click"; "input"; "select"]%string ->
      (forall b0 b1 b2 b3, arg_bbox args <> Some [b0; b1; b2; b3]) ->
      malformed_request action_type args
  | no_text :
      action_type = "input"%string ->
      arg_text args = None \/ arg_text args = Some ""%string ->
      malformed_request action_type args
  | no_option :
      action_type = "select"%string ->
      arg_option_value args = None \/ arg_option_value args = Some ""%string ->
      malformed_request action_type args
  | no_target :
      action_type = "scroll"%string ->
      arg_x args = None \/ arg_y args = None ->
      malformed_request action_type args
  | unknown_action :
      ~ In action_type ["click"; "input"; "select"; "scroll"]%string ->
      malformed_request action_type args.

Section ActionResults.

Context {W H : Type}.
Variable respond : forall A, call A -> W -> outcome A * W.
Hypothesis clock : clock_answers respond.

Ltac clock_read :=
  match goal with
  | E : respond _ Now ?w = (?r, _) |- _ =>
      let timestamp := fresh "timestamp" in
      let Ht := fresh in
      destruct (clock w) as (timestamp & Ht);
      rewrite E in Ht; cbn [fst] in Ht; subst r; clear E
  end.

Ltac action_paths :=
  repeat (run_step;
          try clock_read;
          try match goal with
              | r : outcome _ |- _ => destruct r
              end;
          cbn [any_exception trace world heap]).

Ltac action_end :=
  eexists; split; [reflexivity|];
  eexists; split; [reflexivity|];
  split; [eexists; reflexivity|];
  first [ intros _; eexists; reflexivity | intros Hf; discriminate Hf ].

(** X7.  With a clock that answers, [perform_action] raises nothing: for
    every action type and every argument, whatever the page does, it
    returns a dictionary with a boolean [success] and a [timestamp], and
    with an [error] message when [success] is [False]. *)
Theorem perform_action_is_contained (action_type : string) (args : action_args)
    (s : state W H) :
  exists d s',
    perform_action respond action_type args s = Some (Returns d, s') /\
    action_result d.
Proof.
  assert (Hrun : run False (perform_action respond action_type args)
                   (fun r _ => exists d, r = Returns d /\ action_result d) s).
  { unfold perform_action, _perform_click, _perform_input, _perform_select,
      _perform_scroll, checked_center.
    destruct args as [bbox text x y option_value]. cbn [arg_bbox arg_text arg_x arg_y
                                                      arg_option_value].
    destruct (String.eqb action_type "click");
      [|destruct (String.eqb action_type "input");
        [|destruct (String.eqb action_type "select");
          [|destruct (String.eqb action_type "scroll")]]].
    - destruct bbox as [[|b0 [|b1 [|b2 [|b3 [|b4 l]]]]]|]; action_paths; action_end.
    - destruct bbox as [[|b0 [|b1 [|b2 [|b3 [|b4 l]]]]]|];
        destruct text as [[|ch rest]|]; action_paths; action_end.
    - destruct bbox as [[|b0 [|b1 [|b2 [|b3 [|b4 l]]]]]|];
        destruct option_value as [[|ch rest]|]; action_paths; action_end.
    - destruct x as [x|]; destruct y as [y|]; action_paths; action_end.
    - action_paths; action_end. }
  apply run_total_result in Hrun. destruct Hrun as (r & s' & Hrun & d & -> & Hd).
  now exists d, s'.
Qed.

(** X8.  A request that cannot be carried out is refused before the page
    is touched: a click, an input or a select whose box is missing or is not
    of four values, an input without text, a select without an option, a
    scroll without both coordinates, and an action of an unknown type
    whatever its box.  The result says [success: False], carries an [error]
    and no [coordinates], and the only call made is the reading of the
    clock for the timestamp. *)
Theorem malformed_request_is_refused_untouched (action_type : string)
    (args : action_args) (s : state W H) :
  malformed_request action_type args ->
  exists d s' extra,
    perform_action respond action_type args s = Some (Returns d, s') /\
    d !! "success" = Some (JBool false) /\
    is_Some (d !! "error") /\
    trace s' = trace s ++ extra /\
    only_clock extra /\
    d !! "coordinates" = None.
Proof.
  intros Hbad.
  assert (Hrun : run False (perform_action respond action_type args)
                   (fun r s' => exists d extra, r = Returns d /\
                      d !! "success" = Some (JBool false) /\
                      is_Some (d !! "error") /\
                      trace s' = trace s ++ extra /\
                      only_clock extra /\
                      d !! "coordinates" = None) s).
  { unfold perform_action, _perform_click, _perform_input, _perform_select,
      _perform_scroll, checked_center.
    destruct args as [bbox text x y option_value].
    assert (Hend : forall (d : dict) (timestamp : string),
               d !! "success" = Some (JBool false) ->
               is_Some (d !! "error") ->
               d !! "coordinates" = None ->
               exists d0 extra, Returns d = Returns d0 /\
                 d0 !! "success" = Some (JBool false) /\
                 is_Some (d0 !! "error") /\
                 trace s ++ [Entry Now (Returns timestamp)] = trace s ++ extra /\
                 only_clock extra /\
                 d0 !! "coordinates" = None).
    { intros d timestamp Hs He Hc. exists d, [Entry Now (Returns timestamp)].
      repeat split; auto. constructor; [exact I | constructor]. }
    destruct Hbad as [Htype Hbox | -> Htext | -> Hoption | -> Htarget | Hunknown];
      cbn [arg_bbox arg_text arg_x arg_y arg_option_value] in *.
    - destruct Htype as [<-|[<-|[<-|[]]]]; cbn [String.eqb Ascii.eqb Bool.eqb];
        destruct bbox as [[|b0 [|b1 [|b2 [|b3 [|b4 l]]]]]|];
        try (now contradiction (Hbox b0 b1 b2 b3));
        action_paths; (apply Hend; [reflexivity | eexists; reflexivity | reflexivity]).
    - cbn [String.eqb Ascii.eqb Bool.eqb].
      destruct Htext as [->| ->];
        destruct bbox as [[|b0 [|b1 [|b2 [|b3 [|b4 l]]]]]|];
        action_paths; (apply Hend; [reflexivity | eexists; reflexivity | reflexivity]).
    - cbn [String.eqb Ascii.eqb Bool.eqb].
      destruct Hoption as [->| ->];
        destruct bbox as [[|b0 [|b1 [|b2 [|b3 [|b4 l]]]]]|];
        action_paths; (apply Hend; [reflexivity | eexists; reflexivity | reflexivity]).
    - cbn [String.eqb Ascii.eqb Bool.eqb].
      destruct Htarget as [->| ->]; [|destruct x as [x|]];
        action_paths; (apply Hend; [reflexivity | eexists; reflexivity | reflexivity]).
    - destruct (String.eqb action_type "click") eqn:Hclick;
        [apply String.eqb_eq in Hclick; contradiction Hunknown; subst; cbn; auto|].
      destruct (String.eqb action_type "input") eqn:Hinput;
        [apply String.eqb_eq in Hinput; contradiction Hunknown; subst; cbn; auto|].
      destruct (String.eqb action_type "select") eqn:Hselect;
        [apply String.eqb_eq in Hselect; contradiction Hunknown; subst; cbn; auto|].
      destruct (String.eqb action_type "scroll") eqn:Hscroll;
        [apply String.eqb_eq in Hscroll; contradiction Hunknown; subst; cbn; auto|].
      action_paths; (apply Hend; [reflexivity | eexists; reflexivity | reflexivity]). }
  apply run_total_result in Hrun.
  destruct Hrun as (r & s' & Hrun & d & extra & -> & Hd).
  now exists d, s', extra.
Qed.

End ActionResults.

Lemma malformed_request_is_refused_untouched_witness :
  exists d s' extra,
    perform_action (scripted always_click) "hover"
      (ActionArgs (Some [10; 20; 30; 40]) None None None None) (start tt)
    = Some (Returns d, s') /\
    d !! "success" = Some (JBool false) /\
    is_Some (d !! "error") /\
    trace s' = trace (start tt) ++ extra /\
    only_clock extra /\
    d !! "coordinates" = None.
Proof.
  apply (malformed_request_is_refused_untouched (scripted always_click)
           (scripted_clock_answers always_click) "hover"
           (ActionArgs (Some [10; 20; 30; 40]) None None None None) (start tt)).
  apply unknown_action. cbn [In]. intros [H|[H|[H|[H|[]]]]]; discriminate H.
Defined.

Lemma perform_action_is_contained_witness :
  exists d s',
    perform_action (scripted always_click) "select"
      (ActionArgs (Some [10; 20; 30; 40]) None None None (Some "fr"%string)) (start tt)
    = Some (Returns d, s') /\
    action_result d.
Proof.
  exact (perform_action_is_contained (scripted always_click)
           (scripted_clock_answers always_click) "select"
           (ActionArgs (Some [10; 20; 30; 40]) None None None (Some "fr"%string))
           (start tt)).
Defined.

(** ** The properties above on scripted pages *)

(** A site whose two listing pages are job pages: the start page links
    twice to the first, and each listing page links to the second. *)
Definition job_site : script :=
  Script None 800 (fun _ => "[]"%string) (fun _ _ => false) true
    (fun _ => JObj [("is_job_page", JBool true); ("confidence", JFloat 9 (-1))])
    (fun u => if String.eqb u "https://a.example/"
              then ["https://a.example/jobs"; "https://a.example/jobs"]
              else ["https://a.example/jobs?page=2"])%string.

Lemma discovery_records_are_sound_witness :
  exists result : discovery_result,
    total_job_pages_found result = 2 /\
    NoDup (map url (result_job_pages result)) /\
    Forall (fun p => 0 <= depth p <= MAX_DEPTH) (result_job_pages result) /\
    total_job_pages_found result <= total_pages_explored result.
Proof.
  assert (Hobs :
            match discover_job_pages (scripted job_site) false "https://a.example/" 10
                    (State blank_browser [] new_discovery) with
            | Some (Returns result, _) => Some (total_job_pages_found result)
            | _ => None
            end = Some 2)
    by (vm_compute; reflexivity).
  destruct (discover_job_pages (scripted job_site) false "https://a.example/" 10
              (State blank_browser [] new_discovery))
    as [[[result|e] s']|] eqn:Hrun; try discriminate Hobs.
  injection Hobs as Hfound.
  destruct (discovery_records_are_sound (scripted job_site) false "https://a.example/"
              10 blank_browser result s' Hrun)
    as (Hdistinct & Hdepth & _ & Hcount & _).
  exists result. repeat split; assumption.
Defined.

Section Reports.

Context {W H : Type}.
Variable py_int : string -> option Z.
Variable respond : forall A, call A -> W -> outcome A * W.

(** X9.  Whatever [int] is, an ASCII report that is not of the form
    [CLICK,x,y] with two coordinates that [int] converts clicks nothing:
    whether it has too few or too many parts, another first word, or a
    coordinate that [int] rejects (whose [ValueError] is swallowed), no
    call is made, the state is unchanged and the report counts as no
    click.  The report is ASCII so that [strip] and [upper], which the
    model has on ASCII only, are the ones of the source. *)
Theorem unreadable_report_clicks_nothing (viewport_size : Z * Z)
    (vision_result : string) (s : state W H) :
  PyStr.isascii vision_result = true ->
  (forall p0 p1 p2 x y,
     PyStr.split "," (PyStr.strip vision_result) = [p0; p1; p2] ->
     PyStr.upper p0 = "CLICK"%string ->
     py_int p1 = Some x -> py_int p2 = Some y -> False) ->
  click_reported_target py_int respond viewport_size vision_result s = Some (Returns false, s).
Proof.
  intros _ Hbad. unfold click_reported_target, try_except.
  destruct (PyStr.split "," (PyStr.strip vision_result)) as [|p0 [|p1 [|p2 [|p3 l]]]];
    try reflexivity.
  destruct (String.eqb (PyStr.upper p0) "CLICK") eqn:Hword; [|reflexivity].
  apply String.eqb_eq in Hword.
  destruct (py_int p1) as [x|] eqn:Hx; [|reflexivity].
  destruct (py_int p2) as [y|] eqn:Hy; [|reflexivity].
  exfalso. apply (Hbad p0 p1 p2 x y); auto.
Qed.

End Reports.

Lemma unreadable_report_clicks_nothing_witness :
  click_reported_target PyStr.int (scripted always_click) (1280, 800) "CLICK,12.5,40" (start tt)
  = Some (Returns false, start tt).
Proof.
  apply (unreadable_report_clicks_nothing PyStr.int (scripted always_click) (1280, 800)
           "CLICK,12.5,40" (start tt)).
  - reflexivity.
  - intros p0 p1 p2 x y Hsplit. vm_compute in Hsplit.
    injection Hsplit as <- <- <-. intros _ Hx. vm_compute in Hx. discriminate Hx.
Defined.

(** ** Link finder: where it probes (job_page_discovery.py) *)

(** The points at which a run asked for the link under a point. *)
Definition href_probe (e : entry) : option (Z * Z) :=
  match e with
  | Entry c _ => match c with HrefFromPoint x y => Some (x, y) | _ => None end
  end.

Definition href_probes (tr : list entry) : list (Z * Z) := omap href_probe tr.

(** The element holds the box of integers [box]. *)
Definition has_box (element : json) (box : list Z) : Prop :=
  Py.getitem element "bbox" = Returns (JArr (map JInt box)).

Lemma href_probes_app (tr1 tr2 : list entry) :
  href_probes (tr1 ++ tr2) = href_probes tr1 ++ href_probes tr2.
Proof. apply omap_app. Qed.

Section LinkProbes.

Context {W H : Type}.
Variable respond : forall A, call A -> W -> outcome A * W.
Variable urljoin : string -> string -> string.

Ltac probe_end E2 E3 :=
  eexists; split; [cbn [trace]; rewrite <- ?app_assoc; reflexivity|];
  split;
  [ unfold resolve_click_point; rewrite ?E2, ?E3; reflexivity
  | intros ? [= <-];
    first [ left; reflexivity
          | right; split;
            [ unfold resolve_click_point; rewrite ?E2, ?E3; eexists; reflexivity
            | eexists; reflexivity ] ] ].

Lemma link_of_element_probes element box links (s : state W H) :
  has_box element box ->
  run False (link_of_element respond urljoin element links)
    (fun r s' =>
       exists extra,
         trace s' = trace s ++ extra /\
         href_probes extra = option_list (resolve_click_point box) /\
         forall links', r = Returns links' ->
           links' = links \/
           (is_Some (resolve_click_point box) /\ exists u, links' = links ++ [u])) s.
Proof.
  intros Hbox. unfold link_of_element. run_step. run_step. rewrite Hbox.
  run_step. run_step. cbn [Py.len Py.iter].
  destruct box as [|b0 [|b1 [|b2 [|b3 [|b4 rest]]]]];
    try (cbn [map length]; change (_ =? 4) with false; cbv iota; run_step;
         exists []; rewrite app_nil_r; split; [reflexivity|]; split; [reflexivity|];
         intros ? [= <-]; now left).
  - cbn [map length]. change (_ =? 4) with true. cbv iota.
    repeat (run_step; cbn [Py.getindex nth_error map coordinate]).
    destruct (b2 >? 100) eqn:E2; destruct (b3 >? 100) eqn:E3;
      repeat (run_step; cbn [Py.getindex nth_error map coordinate fst snd];
              rewrite ?E3);
      (destruct r as [[target|]|e];
       [ destruct (String.eqb target EmptyString);
         [ run_step; probe_end E2 E3
         | run_step; run_step; destruct r as [page_url|e];
           [ run_step; probe_end E2 E3 | probe_end E2 E3 ] ]
       | run_step; probe_end E2 E3
       | probe_end E2 E3 ]).
  - destruct (Z.eqb_spec (Z.of_nat (length (map JInt (b0 :: b1 :: b2 :: b3 :: b4 :: rest)))) 4)
      as [Hlen|Hlen]; [cbn [map length] in Hlen; lia|].
    run_step. exists []. rewrite app_nil_r. split; [reflexivity|]. split; [reflexivity|].
    intros ? [= <-]. now left.
Qed.

(** X10.  On elements whose boxes hold integers, the link finder asks for
    the link under exactly the click points of the coordinate resolver,
    one probe for each box of four values in the order of the elements and
    none for a box of another length; each element adds at most one link.
    When a call raises, the probes made so far are the first of these. *)
Theorem link_finder_probes_click_points elements boxes links (s : state W H) :
  Forall2 has_box elements boxes ->
  exists r s' extra,
    links_of_elements respond urljoin elements links s = Some (r, s') /\
    trace s' = trace s ++ extra /\
    href_probes extra `prefix_of` omap resolve_click_point boxes /\
    forall links', r = Returns links' ->
      href_probes extra = omap resolve_click_point boxes /\
      exists found, links' = links ++ found /\
                    (length found <= length (omap resolve_click_point boxes))%nat.
Proof.
  intros Hboxes.
  assert (Hrun : run False (links_of_elements respond urljoin elements links)
            (fun r s' => exists extra,
               trace s' = trace s ++ extra /\
               href_probes extra `prefix_of` omap resolve_click_point boxes /\
               forall links', r = Returns links' ->
                 href_probes extra = omap resolve_click_point boxes /\
                 exists found, links' = links ++ found /\
                   (length found <= length (omap resolve_click_point boxes))%nat) s).
  { revert links s. induction Hboxes as [|element box elements boxes Hbox _ IH];
      intros links s; cbn [links_of_elements].
    - run_step. exists []. rewrite app_nil_r. split; [reflexivity|].
      split; [reflexivity|].
      intros found [= <-]. split; [reflexivity|]. exists [].
      split; [now rewrite app_nil_r | cbn; lia].
    - run_step. eapply run_consequence; [| apply (link_of_element_probes _ box); exact Hbox].
      intros r s1 (e1 & E1 & Hp1 & Hl1).
      assert (Hhead : omap resolve_click_point (box :: boxes)
                      = option_list (resolve_click_point box)
                        ++ omap resolve_click_point boxes).
      { cbn [omap]. unfold omap. cbn. now destruct (resolve_click_point box). }
      destruct r as [links1|e].
      + eapply run_consequence; [| apply IH].
        intros r s2 (e2 & E2 & Hp2 & Hl2). exists (e1 ++ e2).
        split; [now rewrite E2, E1, app_assoc|].
        rewrite href_probes_app, Hp1, Hhead.
        split; [now apply list.prefix_app|].
        intros last ->. destruct (Hl2 last eq_refl) as (-> & found & -> & Hlen).
        split; [reflexivity|].
        destruct (Hl1 links1 eq_refl) as [->|([p Hpoint] & u & ->)].
        * exists found. split; [reflexivity|]. rewrite length_app. lia.
        * exists (u :: found). split; [now rewrite <- app_assoc|].
          rewrite length_app, Hpoint. change (option_list (Some p)) with [p].
          cbn [length]. lia.
      + exists e1. split; [exact E1|]. rewrite Hp1, Hhead.
        split; [apply prefix_app_r; reflexivity | intros last [=]]. }
  apply run_total_result in Hrun. destruct Hrun as (r & s' & Hrun & extra & Hx).
  now exists r, s', extra.
Qed.

End LinkProbes.

(** Two elements, the first with a box of four values read as corners,
    the second with a box of three. *)
Definition sample_boxes : list (list Z) := [[10; 20; 300; 401]; [1; 2; 3]].

Definition sample_elements : list json :=
  map (fun box => JObj [("bbox"%string, JArr (map JInt box))]) sample_boxes.

Lemma link_finder_probes_click_points_witness :
  exists r s' extra,
    links_of_elements (scripted always_click) String.append sample_elements []
      (start tt) = Some (r, s') /\
    trace s' = trace (start tt) ++ extra /\
    href_probes extra `prefix_of` omap resolve_click_point sample_boxes /\
    forall links', r = Returns links' ->
      href_probes extra = omap resolve_click_point sample_boxes /\
      exists found, links' = [] ++ found /\
        (length found <= length (omap resolve_click_point sample_boxes))%nat.
Proof.
  apply (link_finder_probes_click_points (scripted always_click) String.append
           sample_elements sample_boxes [] (start tt)).
  repeat constructor.
Defined.

(** ** Viewport analysis: what the result carries (viewport_analyzer.py) *)

(** In a dictionary built from members, the member written last wins. *)
Lemma dict_of_members_lookup (members : list (string * json)) (key : string) :
  dict_of_members members !! key = Py.lookup_member key members.
Proof.
  unfold dict_of_members.
  assert (Hfold : forall d : dict,
             fold_left (fun d kv => <[kv.1 := kv.2]> d) members d !! key
             = match Py.lookup_member key members with
               | Some v => Some v
               | None => d !! key
               end).
  { induction members as [|[k v] rest IH]; intros d; cbn [fold_left Py.lookup_member];
      [reflexivity|].
    rewrite IH. cbn [fst snd]. destruct (Py.lookup_member key rest); [reflexivity|].
    destruct (String.eqb_spec k key) as [->|Hne].
    - apply lookup_insert_eq.
    - rewrite lookup_insert_ne by exact Hne. reflexivity. }
  rewrite Hfold. rewrite lookup_empty. now destruct (Py.lookup_member key members).
Qed.

Lemma lookup_member_app (key : string) (first last : list (string * json)) :
  Py.lookup_member key (first ++ last)
  = match Py.lookup_member key last with
    | Some v => Some v
    | None => Py.lookup_member key first
    end.
Proof.
  induction first as [|[k v] rest IH]; cbn [app Py.lookup_member].
  - now destruct (Py.lookup_member key last).
  - rewrite IH. now destruct (Py.lookup_member key last).
Qed.

Section AnalysisResult.

Context {W H : Type}.
Variable json_loads : string -> outcome json.
Variable respond : forall A, call A -> W -> outcome A * W.
Hypothesis clock : clock_answers respond.

(** What an analysis returns: a failure without an element list, or a
    result whose element list is valid. *)
Definition analysis_shape (r : outcome dict) : Prop :=
  exists d, r = Returns d /\
    ((d !! "elements" = None /\
      d !! "success" = Some (JBool false) /\
      is_Some (d !! "error")) \/
     (exists elements,
        d !! "elements" = Some (JArr elements) /\
        Forall well_formed_element elements /\
        is_Some (d !! "success") /\
        is_Some (d !! "screenshot_path") /\
        is_Some (d !! "viewport_size"))) /\
    is_Some (d !! "page_url") /\
    is_Some (d !! "timestamp").

Lemma analysis_failure_shape url e (s : state W H)
    (Q : outcome dict -> state W H -> Prop) :
  (forall d s', analysis_shape (Returns d) -> Q (Returns d) s') ->
  run False (analysis_failure respond url e) Q s.
Proof.
  intros HQ. unfold analysis_failure. run_step. run_step.
  destruct (clock (world s)) as (timestamp & Ht). rewrite H0 in Ht.
  cbn [fst] in Ht. subst r. run_step. apply HQ.
  eexists. split; [reflexivity|]. split; [|split; eexists; reflexivity].
  left. split; [reflexivity|]. split; [reflexivity|]. eexists. reflexivity.
Qed.

Lemma parsed_members (response : string) (parsed : json) :
  _parse_vision_response json_loads response = Returns parsed ->
  exists members elements,
    parsed = JObj members /\
    Py.lookup_member "elements" members = Some (JArr elements) /\
    Forall well_formed_element elements.
Proof.
  unfold _parse_vision_response.
  destruct (json_loads (extract_fenced response)) as [loaded|e'];
    [|destruct (is_JSONDecodeError e'); discriminate].
  destruct loaded as [| | | | | | | |members]; try discriminate.
  destruct (Py.lookup_member "elements" members) as [elements|] eqn:Helements;
    [|discriminate].
  destruct elements as [| | | | | | |elements|]; try discriminate.
  destruct (validate_elements elements) as [[]|e] eqn:Hvalid; [|discriminate].
  intros [= <-]. exists members, elements. repeat split; auto.
  now apply validate_elements_sound.
Qed.

Lemma analysis_success_shape response parsed (path : json) (url timestamp : string)
    (width height : Z) :
  _parse_vision_response json_loads response = Returns parsed ->
  analysis_shape
    (Returns (dict_of_members
                ([("success"%string, JBool true);
                  ("screenshot_path"%string, path);
                  ("page_url"%string, JStr url);
                  ("viewport_size"%string,
                    JObj [("width"%string, JInt width); ("height"%string, JInt height)]);
                  ("timestamp"%string, JStr timestamp)]
                 ++ match parsed with JObj members => members | _ => [] end))).
Proof.
  intros Hparse.
  destruct (parsed_members _ _ Hparse) as (members & elements & -> & Helements & Hvalid).
  eexists. split; [reflexivity|].
  rewrite !dict_of_members_lookup, !lookup_member_app, Helements.
  split; [right; exists elements; split; [reflexivity|]; split; [exact Hvalid|]|];
    repeat split;
    match goal with
    | |- is_Some (match ?x with _ => _ end) => destruct x; eexists; reflexivity
    end.
Qed.

Ltac failed :=
  cbn [any_exception]; apply analysis_failure_shape;
  let Hshape := fresh in
  intros ? ? Hshape; first [exact Hshape | cbn [any_exception]; exact Hshape].

Ltac clock_now :=
  match goal with
  | E : respond _ Now ?w = (?r, _) |- _ =>
      let timestamp := fresh "timestamp" in
      let Ht := fresh in
      destruct (clock w) as (timestamp & Ht);
      rewrite E in Ht; cbn [fst] in Ht; subst r
  end.

Ltac analysis_body :=
  run_step; run_step; run_step;
  match goal with r : outcome string |- _ => destruct r end; [|failed];
  run_step; apply save_screenshot_returns; intros ? ?;
  run_step; run_step;
  match goal with r : outcome (option (Z * Z)) |- _ => destruct r end;
  [|failed];
  run_step; run_step;
  match goal with r : outcome (option string) |- _ => destruct r as [[?|]|?] end;
  cbn [first_choice];
  [ run_step; run_step; run_step; run_step;
    match goal with
    | |- context [_parse_vision_response json_loads ?response] =>
        destruct (_parse_vision_response json_loads response) eqn:?
    end;
    [ run_step; run_step; clock_now; run_step;
      eapply analysis_success_shape; eassumption
    | failed ]
  | run_step; run_step; failed
  | failed ].

(** X11.  With a clock that answers, [analyze_viewport_screenshot] raises
    nothing, and what it returns either has no [elements] member, and is
    then a failure with [success: False] and an [error] message, or has an
    [elements] list every element of which is well formed, together with
    the metadata; in both cases it has a [page_url] and a [timestamp].  The
    members of the model's response are written after the metadata, so a
    member of the response wins over a metadata entry with the same key. *)
Theorem analysis_carries_valid_elements page_url include_description element_types
    (s : state W H) :
  (exists d s',
     analyze_viewport_screenshot json_loads respond page_url include_description
       element_types s = Some (Returns d, s') /\
     analysis_shape (Returns d)) /\
  (forall metadata members key value,
     Py.lookup_member key members = Some value ->
     dict_of_members (metadata ++ members) !! key = Some value).
Proof.
  split.
  - assert (Hrun : run False
              (analyze_viewport_screenshot json_loads respond page_url include_description
                 element_types)
              (fun r _ => analysis_shape r) s).
    { unfold analyze_viewport_screenshot. run_step. run_step.
      destruct page_url as [[|c rest]|].
      - run_step. destruct r as [url|e]; [|failed]. analysis_body.
      - run_step. analysis_body.
      - run_step. destruct r as [url|e]; [|failed]. analysis_body. }
    apply run_total_result in Hrun. destruct Hrun as (r & s' & Hrun & d & -> & Hd).
    exists d, s'. split; [exact Hrun|]. exists d. now split.
  - intros metadata members key value Hkey.
    now rewrite dict_of_members_lookup, lookup_member_app, Hkey.
Qed.

End AnalysisResult.

Definition labelled_page : script :=
  Script None 800
    (fun _ => "{" ++ quoted "elements" ++ ": [{" ++ quoted "type" ++ ": "
              ++ quoted "button" ++ ", " ++ quoted "label" ++ ": " ++ quoted "Next"
              ++ ", " ++ quoted "bbox" ++ ": [1, 2, 30, 40], "
              ++ quoted "semantic_role" ++ ": " ++ quoted "next_page" ++ "}]}")%string
    (fun _ _ => true) true (fun _ => JNull) (fun _ => []).

Lemma analysis_carries_valid_elements_witness :
  exists d s',
    analyze_viewport_screenshot scripted_loads (scripted labelled_page) None false None
      (start tt) = Some (Returns d, s') /\
    analysis_shape (Returns d).
Proof.
  exact (proj1 (analysis_carries_valid_elements scripted_loads (scripted labelled_page)
                  (scripted_clock_answers labelled_page) None false None (start tt))).
Defined.

(** ** Pagination exhauster: how many vision queries (vision_pagination.py) *)

Definition is_vision_query (e : entry) : bool :=
  match e with
  | Entry c _ => match c with ChatCompletion _ _ _ => true | _ => false end
  end.

Definition vision_queries (tr : list entry) : nat :=
  length (List.filter is_vision_query tr).

Lemma vision_queries_app (tr1 tr2 : list entry) :
  vision_queries (tr1 ++ tr2) = (vision_queries tr1 + vision_queries tr2)%nat.
Proof. unfold vision_queries. now rewrite List.filter_app, length_app. Qed.

(** The run adds at most [n] vision queries. *)
Definition at_most {A} (n : nat) (_ : outcome A) (extra : list entry) : Prop :=
  (vision_queries extra <= n)%nat.

Section PaginationQueries.

Context {W H : Type}.
Variable py_int : string -> option Z.
Variable respond : forall A, call A -> W -> outcome A * W.

Lemma run_at_most_after partial {A} (m : M W H A) (s s1 : state W H)
    (e1 : list entry) (a b c : nat) :
  trace s1 = trace s ++ e1 ->
  (vision_queries e1 <= a)%nat -> (a + b <= c)%nat ->
  run partial m (appends s1 (at_most b)) s1 ->
  run partial m (appends s (at_most c)) s1.
Proof.
  intros E Ha Hc. apply run_consequence. intros r s' (extra & E' & Hb).
  exists (e1 ++ extra). split; [now rewrite E', E, app_assoc|].
  unfold at_most in *. rewrite vision_queries_app. lia.
Qed.

Ltac silent_block :=
  repeat (run_step;
          try match goal with
              | r : outcome _ |- _ => destruct r
              end;
          cbn [any_exception trace]);
  try (eexists; split;
       [ cbn [trace]; rewrite <- ?app_assoc; reflexivity
       | split; [reflexivity | eauto] ]).

Lemma read_viewport_is_silent partial (s : state W H) :
  run partial
    (try_except
       (current_scroll <- perform respond PageYOffset ;;
        screenshot_bytes <- perform respond Screenshot ;;
        ret (Some (current_scroll, screenshot_bytes)))
       any_exception (fun _ => ret None))
    (appends s (fun r extra => vision_queries extra = 0%nat /\ exists v, r = Returns v)) s.
Proof. silent_block. Qed.

Lemma save_debug_is_silent partial image (s : state W H) :
  run partial
    (try_except
       (perform respond PageUrl ;; perform respond (SaveScreenshot image) ;; ret tt)
       any_exception (fun _ => ret tt))
    (appends s (fun r extra => vision_queries extra = 0%nat /\ exists v, r = Returns v)) s.
Proof. silent_block. Qed.

Lemma scroll_on_is_silent partial current_scroll scroll_step page_height (s : state W H) :
  run partial
    (try_except
       (if current_scroll + scroll_step >=? page_height then ret false
        else
          perform respond (ScrollTo 0 (current_scroll + scroll_step)) ;;
          perform respond (WaitForTimeout 1000) ;;
          ret true)
       any_exception (fun _ => ret false))
    (appends s (fun r extra => vision_queries extra = 0%nat /\ exists v, r = Returns v)) s.
Proof.
  destruct (current_scroll + scroll_step >=? page_height).
  - run_step. run_step. apply appends_here; [reflexivity | split; [reflexivity | eauto]].
  - silent_block.
Qed.

Lemma round_setup_is_silent partial viewport_size (s : state W H) :
  run partial
    (try_except (r <- round_setup respond viewport_size ;; ret (Some r))
       any_exception (fun _ => ret None))
    (appends s (fun r extra =>
       vision_queries extra = 0%nat /\
       exists v, r = Returns v /\
         forall page_height scroll_step max_iterations,
           v = Some (page_height, scroll_step, max_iterations) ->
           max_iterations <= 15)) s.
Proof.
  unfold round_setup.
  repeat (run_step;
          try match goal with
              | r : outcome _ |- _ => destruct r
              end;
          cbn [any_exception trace]);
  try destruct (scroll_step_of _ =? 0);
  repeat (run_step; cbn [any_exception trace]);
  (eexists; split;
   [ cbn [trace]; rewrite <- ?app_assoc; reflexivity
   | split; [reflexivity | eexists; split; [reflexivity|]] ]);
  intros page_height scroll_step max_iterations [=]; subst; lia.
Qed.

Lemma click_reported_target_is_silent partial viewport_size vision_result (s : state W H) :
  run partial (click_reported_target py_int respond viewport_size vision_result)
    (appends s (fun _ extra => vision_queries extra = 0%nat)) s.
Proof.
  unfold click_reported_target, settle_after_click. apply run_try_except.
  destruct (PyStr.split "," (PyStr.strip vision_result)) as [|p0 [|p1 [|p2 [|p3 l]]]];
    try (run_step; apply appends_here; reflexivity).
  destruct (String.eqb (PyStr.upper p0) "CLICK");
    [| run_step; apply appends_here; reflexivity].
  destruct (py_int p1) as [click_x|];
    [| run_step; cbn [is_ValueError is_IndexError orb]; run_step; apply appends_here;
       reflexivity].
  destruct (py_int p2) as [click_y|];
    [| run_step; cbn [is_ValueError is_IndexError orb]; run_step; apply appends_here;
       reflexivity].
  destruct (in_viewport viewport_size click_x click_y);
    [| run_step; apply appends_here; reflexivity].
  repeat (run_step;
          try match goal with
              | r : outcome (option _) |- _ => destruct r as [[?|]|?]
              | r : outcome unit |- _ => destruct r as [[]|?]
              end;
          cbn [any_exception trace];
          try match goal with
              | |- context [is_ValueError ?e || is_IndexError ?e] =>
                  destruct (is_ValueError e || is_IndexError e)
              end);
    (eexists; split; [cbn [trace]; rewrite <- ?app_assoc; reflexivity | reflexivity]).
Qed.

(** A scan of the page asks the model at most once for each iteration. *)
Lemma scan_page_queries partial viewport_size page_height scroll_step iterations :
  forall total_clicks (s : state W H),
  run partial (scan_page py_int respond viewport_size page_height scroll_step iterations total_clicks)
    (appends s (at_most iterations)) s.
Proof.
  induction iterations as [|n IH]; intros total_clicks s; cbn [scan_page].
  - run_step. apply appends_here; [reflexivity | unfold at_most; cbn; lia].
  - run_step. eapply run_consequence; [| apply read_viewport_is_silent].
    intros r s1 (e1 & E1 & Hq1 & [[current_scroll image]|] & ->).
    2:{ apply (run_at_most_after partial _ s s1 e1 0 n); [exact E1 | lia | lia | apply IH]. }
    apply (run_at_most_after partial _ s s1 e1 0 (S n)); [exact E1 | lia | lia |].
    run_step. eapply run_consequence; [| apply save_debug_is_silent].
    intros r s2 (e2 & E2 & Hq2 & [] & ->).
    apply (run_at_most_after partial _ s1 s2 e2 0 (S n)); [exact E2 | lia | lia |].
    run_step. run_step.
    destruct r as [response|e].
    2:{ eexists; split; [reflexivity|]. unfold at_most. cbn. lia. }
    match goal with
    | |- run _ _ _ ?s3 =>
        apply (run_at_most_after partial _ s2 s3
                 [Entry (ChatCompletion
                           (PaginationPrompt viewport_size.1 viewport_size.2) image 100)
                    (Returns response)] 1 n);
        [reflexivity | cbn; lia | lia |]
    end.
    run_step.
    match goal with
    | |- run _ ?m _ ?s3 =>
        assert (Hrep : run partial m
                         (appends s3 (fun _ extra => vision_queries extra = 0%nat)) s3)
    end.
    { destruct (negb _).
      - apply click_reported_target_is_silent.
      - run_step. apply appends_here; reflexivity. }
    eapply run_consequence; [| exact Hrep].
    intros r s4 (e4 & E4 & Hq4). destruct r as [[|]|e].
    + run_step. exists e4. split; [exact E4|]. unfold at_most. lia.
    + apply (run_at_most_after partial _ _ s4 e4 0 n); [exact E4 | lia | lia |].
      run_step. eapply run_consequence; [| apply scroll_on_is_silent].
      intros r s5 (e5 & E5 & Hq5 & [|] & ->).
      * apply (run_at_most_after partial _ s4 s5 e5 0 n); [exact E5 | lia | lia | apply IH].
      * run_step. exists e5. split; [exact E5|]. unfold at_most. lia.
    + exists e4. split; [exact E4|]. unfold at_most. lia.
Qed.

Lemma appends_both {A} (s : state W H) (P P' : outcome A -> list entry -> Prop) r s' :
  appends s P r s' -> appends s P' r s' ->
  appends s (fun r extra => P r extra /\ P' r extra) r s'.
Proof.
  intros (e1 & E1 & H1) (e2 & E2 & H2). exists e1. split; [exact E1|].
  rewrite E1 in E2. apply app_inv_head in E2. subst e2. now split.
Qed.

Lemma run_both partial {A} (m : M W H A) (Q Q' : outcome A -> state W H -> Prop) s :
  run partial m Q s -> run partial m Q' s ->
  run partial m (fun r s' => Q r s' /\ Q' r s') s.
Proof. unfold run. destruct (m s) as [[r s']|]; tauto. Qed.

(** The rounds ask the model at most fifteen times for each round that
    remains below the ceiling. *)
Lemma pagination_rounds_queries viewport_size fuel :
  forall total_clicks (s : state W H),
  run True (pagination_rounds py_int respond fuel viewport_size total_clicks)
    (appends s (at_most (15 * Z.to_nat (max_clicks - total_clicks)))) s.
Proof.
  induction fuel as [|fuel IH]; intros total_clicks s;
    cbn [pagination_rounds]; destruct (total_clicks <? max_clicks) eqn:Hlt;
    cbv iota;
    try (run_step; apply appends_here; [reflexivity | unfold at_most; cbn; lia]).
  - exact I.
  - apply Z.ltb_lt in Hlt.
    run_step. eapply run_consequence; [| apply round_setup_is_silent].
    intros r s1 (e1 & E1 & Hq1 & [[[page_height scroll_step] max_iterations]|] & -> & Hmax).
    2:{ run_step. exists e1. split; [exact E1|]. unfold at_most. lia. }
    specialize (Hmax _ _ _ eq_refl).
    apply (run_at_most_after True _ s s1 e1 0 (15 * Z.to_nat (max_clicks - total_clicks)));
      [exact E1 | lia | lia |].
    run_step. eapply run_consequence;
      [| apply run_both; [apply (scan_page_adds py_int respond True) | apply scan_page_queries]].
    cbn beta. intros r s2 [(e2 & E2 & _ & _ & Hr2) (e2' & E2' & Hq2)].
    rewrite E2 in E2'. apply app_inv_head in E2'. subst e2'. unfold at_most in Hq2.
    destruct r as [[total found]|e]; cbn [fst snd].
    2:{ exists e2. split; [exact E2|]. unfold at_most. lia. }
    destruct Hr2 as [_ Hf]. destruct found.
    + apply (run_at_most_after True _ s1 s2 e2 15
               (15 * Z.to_nat (max_clicks - total)));
        [exact E2 | lia | lia | apply IH].
    + run_step. exists e2. split; [exact E2|]. unfold at_most. lia.
Qed.

(** X12.  The exhauster is bounded in what it asks of the vision model:
    with fuel for the rounds below the ceiling it ends having made at most
    300 vision queries, fifteen scan stops for each of at most twenty
    rounds, whatever the page and the model answer. *)
Theorem pagination_asks_at_most_300 (w : W) (h : H) (fuel : nat) :
  (Z.to_nat max_clicks <= fuel)%nat ->
  exists r s',
    vision_detect_pagination py_int respond true fuel (State w [] h) = Some (r, s') /\
    (vision_queries (trace s') <= 300)%nat.
Proof.
  intros Hfuel.
  assert (Hrun : run False (vision_detect_pagination py_int respond true fuel)
                   (fun _ s' => (vision_queries (trace s') <= 300)%nat) (State w [] h)).
  { unfold vision_detect_pagination. cbn [negb].
    apply run_try_except. run_step. run_step. cbn [trace world heap] in *.
    destruct r as [v|e]; cbn [any_exception].
    2:{ run_step. cbn [trace]. cbn. lia. }
    set (viewport_size := viewport_or_default v).
    run_step. eapply run_consequence;
      [| apply run_total_and_partial;
         [ apply (pagination_rounds_add py_int respond viewport_size fuel 0); exact Hfuel
         | apply (pagination_rounds_queries viewport_size fuel 0) ] ].
    cbn beta. intros r s1 [_ (extra & E & Hq)]. cbn [trace] in E.
    unfold at_most in Hq. change (Z.to_nat (max_clicks - 0)) with 20%nat in Hq.
    assert (Hs : (vision_queries (trace s1) <= 300)%nat).
    { rewrite E, vision_queries_app. cbn [app]. 
      change (vision_queries [Entry ViewportSize (Returns v)]) with 0%nat. lia. }
    destruct r as [total|e].
    - destruct (total >? 0); run_step; exact Hs.
    - cbn [any_exception]. run_step. exact Hs. }
  apply run_total_result in Hrun. destruct Hrun as (r & s' & Hrun & Hq).
  now exists r, s'.
Qed.

End PaginationQueries.

Lemma pagination_asks_at_most_300_witness :
  exists r s',
    vision_detect_pagination PyStr.int (scripted always_click) true 20 (State blank_browser [] tt)
    = Some (r, s') /\
    (vision_queries (trace s') <= 300)%nat.
Proof.
  apply (pagination_asks_at_most_300 PyStr.int (scripted always_click) blank_browser tt 20).
  vm_compute. lia.
Defined.

(** ** Traversal: which pages are loaded (job_page_discovery.py) *)

Lemma navigations_app (tr1 tr2 : list entry) :
  navigations (tr1 ++ tr2) = navigations tr1 ++ navigations tr2.
Proof. apply omap_app. Qed.

Section TraversalLoads.

Context {W : Type}.
Variable respond : forall A, call A -> W -> outcome A * W.

Ltac load_end :=
  eexists; split; [cbn [trace]; rewrite <- ?app_assoc; reflexivity | reflexivity].

Lemma explore_page_navigates verbose current_url k (s : state W discovery) :
  run False
    (try_except (explore_page respond verbose current_url k)
       any_exception (fun _ => ret tt))
    (fun r s' => exists extra,
       trace s' = trace s ++ extra /\ navigations extra = [current_url]) s.
Proof.
  unfold explore_page. apply run_try_except.
  run_step. run_step.
  destruct r; [|cbn [any_exception]; run_step; load_end].
  run_step. run_step.
  destruct r; [|cbn [any_exception]; run_step; load_end].
  run_step. run_step.
  destruct r as [v|]; [|cbn [any_exception]; run_step; load_end].
  run_step. run_step.
  destruct (Py.getitem v "is_job_page") as [flag|] eqn:Hg;
    [|cbn [any_exception]; run_step; load_end].
  destruct (Py.truthy flag) eqn:Ht.
  - run_step. run_step.
    destruct (Py.getitem v "confidence") as [confidence|] eqn:Hconf;
      [|cbn [any_exception]; run_step; load_end].
    run_step. run_step. run_step.
    assert (Hfmt : forall (Q : outcome unit -> state W discovery -> Prop) s0,
              (Q (Returns tt) s0) ->
              (forall e, Q (Raises e) s0) ->
              run False (if verbose then lift (Py.format_percent confidence) else ret tt) Q s0).
    { intros Q s0 Hok Hbad. destruct verbose; [|exact Hok].
      apply run_lift. destruct (Py.format_percent confidence) as [[]|]; auto. }
    apply Hfmt; [|intros e; cbn [any_exception]; run_step; load_end].
    run_step. run_step.
    destruct r as [related_links|]; [|cbn [any_exception]; run_step; load_end].
    run_step. load_end.
  - run_step. run_step.
    destruct r as [nav|]; [|cbn [any_exception]; run_step; load_end].
    run_step. run_step. run_step.
    destruct (fst nav) as [|link nav_links] eqn:Hnav.
    + run_step. run_step. run_step.
      destruct r as [job_links|]; [|cbn [any_exception]; run_step; load_end].
      run_step. load_end.
    + run_step. run_step. run_step.
      destruct r as [job_links|]; [|cbn [any_exception]; run_step; load_end].
      run_step. load_end.
Qed.

(** What one iteration after the pop loads: nothing, the visited set
    being left alone, or the URL dequeued, which was not visited and now
    is. *)
Definition loads_one (current_url : string) (s s' : state W discovery) : Prop :=
  exists extra,
    trace s' = trace s ++ extra /\
    ((navigations extra = [] /\ visited_urls (heap s') = visited_urls (heap s)) \/
     (current_url ∉ visited_urls (heap s) /\
      navigations extra = [current_url] /\
      visited_urls (heap s') = {[ current_url ]} ∪ visited_urls (heap s))).

Lemma visit_loads_one verbose current_url k (s : state W discovery) :
  run False (visit respond verbose current_url k)
    (fun r s' => r = Returns tt /\ loads_one current_url s s') s.
Proof.
  unfold visit. run_step. run_step.
  destruct (bool_decide (current_url ∈ visited_urls (heap s))) eqn:Hin; cbn [orb].
  { run_step. split; [reflexivity|]. exists []. rewrite app_nil_r. split; [reflexivity|].
    now left. }
  apply bool_decide_eq_false in Hin.
  destruct (k >? MAX_DEPTH) eqn:Hdeep.
  { run_step. split; [reflexivity|]. exists []. rewrite app_nil_r. split; [reflexivity|].
    now left. }
  run_step. run_step.
  eapply run_consequence;
    [| apply run_both; [apply explore_page_step | apply explore_page_navigates]].
  cbn beta. intros r s' [(-> & Hv & _) (extra & E & Hnav)].
  cbn [heap trace mark_visited visited_urls] in *.
  split; [reflexivity|]. exists extra. split; [exact E|]. right. now repeat split.
Qed.

(** What the loop loads: pages that were not visited, each once, and
    exactly those that join the visited set. *)
Definition loads_new (s s' : state W discovery) : Prop :=
  exists extra,
    trace s' = trace s ++ extra /\
    NoDup (navigations extra) /\
    (forall u, u ∈ navigations extra -> u ∉ visited_urls (heap s)) /\
    visited_urls (heap s') = visited_urls (heap s) ∪ list_to_set (navigations extra).

Lemma explore_loads_new verbose fuel :
  forall s : state W discovery,
  run True (explore respond fuel verbose) (fun r s' => loads_new s s') s.
Proof.
  assert (Hnone : forall s : state W discovery, loads_new s s).
  { intros s. exists []. rewrite app_nil_r. cbn. repeat split.
    - constructor.
    - intros u Hu. inversion Hu.
    - set_solver. }
  induction fuel as [|fuel IH]; intros s.
  - unfold run. cbn [explore]. unfold bind, get_heap.
    destruct (pages_to_explore (heap s)) as [|[u k] rest]; [apply Hnone|].
    destruct (_ <? _); [exact I | apply Hnone].
  - destruct (pages_to_explore (heap s)) as [|[u k] rest] eqn:Hq.
    { unfold run. rewrite explore_done by auto. apply Hnone. }
    destruct (Z.ltb_spec (Z.of_nat (size (visited_urls (heap s)))) MAX_PAGES_TO_EXPLORE)
      as [Hsize|Hsize].
    2:{ unfold run. rewrite explore_done by auto. apply Hnone. }
    unfold run. rewrite (explore_unfold respond fuel verbose s u k rest Hq Hsize).
    pose proof (visit_loads_one verbose u k
                  (State (world s) (trace s) (pop_front (heap s)))) as Hvisit.
    apply run_total_result in Hvisit.
    destruct Hvisit as (r & s1 & -> & -> & e1 & E1 & Hcase).
    cbn [heap trace visited_urls pop_front] in *.
    specialize (IH s1). unfold run in IH.
    destruct (explore respond fuel verbose s1) as [[r s2]|]; [|exact I].
    destruct IH as (e2 & E2 & Hd2 & Hnew2 & Hv2).
    exists (e1 ++ e2). split; [now rewrite E2, E1, app_assoc|].
    rewrite navigations_app.
    destruct Hcase as [[Hn1 Hv1]|(Hin & Hn1 & Hv1)]; rewrite Hn1.
    + cbn [app]. rewrite Hv1 in *. now repeat split.
    + cbn [app]. repeat split.
      * constructor; [|exact Hd2]. intros Hu. apply Hnew2 in Hu. rewrite Hv1 in Hu.
        set_solver.
      * intros u0 Hu0. apply elem_of_cons in Hu0 as [->|Hu0]; [exact Hin|].
        apply Hnew2 in Hu0. rewrite Hv1 in Hu0. set_solver.
      * rewrite Hv2, Hv1. cbn [list_to_set]. clear. set_solver.
Qed.


End TraversalLoads.


(** ** Action executor: what is done to the page (viewport_analyzer.py) *)

(** What an action does with the mouse and the keyboard. *)
Inductive gesture :=
| MouseClicked (x y : Z)
| KeyPressed (key : string)
| TextTyped (text : string)
| OptionSelected (value : string)
| TextClicked (text : string).

Definition gesture_of (e : entry) : option gesture :=
  match e with
  | Entry c _ =>
      match c with
      | MouseClick x y => Some (MouseClicked x y)
      | KeyboardPress key => Some (KeyPressed key)
      | KeyboardType text => Some (TextTyped text)
      | SelectOption value => Some (OptionSelected value)
      | ClickText text => Some (TextClicked text)
      | _ => None
      end
  end.

Definition gestures (tr : list entry) : list gesture := omap gesture_of tr.

Section ActionGestures.

Context {W H : Type}.
Variable respond : forall A, call A -> W -> outcome A * W.
Hypothesis clock : clock_answers respond.

Ltac clock_read :=
  match goal with
  | E : respond _ Now ?w = (?r, _) |- _ =>
      let timestamp := fresh "timestamp" in
      let Ht := fresh in
      destruct (clock w) as (timestamp & Ht);
      rewrite E in Ht; cbn [fst] in Ht; subst r; clear E
  end.

Ltac action_paths :=
  repeat (run_step;
          try clock_read;
          try match goal with
              | r : outcome _ |- _ => destruct r
              end;
          cbn [any_exception trace world heap]).

Ltac gesture_end :=
  eexists; eexists; split; [reflexivity|];
  split; [cbn [trace]; rewrite <- ?app_assoc; reflexivity|].

(** X14.  A click action on a box of four values clicks the mouse once and
    does nothing else with mouse or keyboard; the point is always the
    origin plus half the size, [(x + w // 2, y + h // 2)], which is the
    point of the coordinate resolver when the third or the fourth value is
    at most 100; a successful result reports this point and the box. *)
Theorem click_action_clicks_once (b0 b1 b2 b3 : Z) text x y option_value
    (s : state W H) :
  let args := ActionArgs (Some [b0; b1; b2; b3]) text x y option_value in
  (exists d s' extra,
     perform_action respond "click" args s = Some (Returns d, s') /\
     trace s' = trace s ++ extra /\
     gestures extra = [MouseClicked (b0 + b2 / 2) (b1 + b3 / 2)] /\
     (d !! "success" = Some (JBool true) ->
      d !! "coordinates" = Some (JArr [JInt (b0 + b2 / 2); JInt (b1 + b3 / 2)]) /\
      d !! "bbox" = Some (JArr [JInt b0; JInt b1; JInt b2; JInt b3]))) /\
  (b2 <= 100 \/ b3 <= 100 ->
   resolve_click_point [b0; b1; b2; b3] = Some (b0 + b2 / 2, b1 + b3 / 2)).
Proof.
  intros args. split.
  - assert (Hrun : run False (perform_action respond "click" args)
              (fun r s' => exists d extra, r = Returns d /\
                 trace s' = trace s ++ extra /\
                 gestures extra = [MouseClicked (b0 + b2 / 2) (b1 + b3 / 2)] /\
                 (d !! "success" = Some (JBool true) ->
                  d !! "coordinates"
                  = Some (JArr [JInt (b0 + b2 / 2); JInt (b1 + b3 / 2)]) /\
                  d !! "bbox" = Some (JArr [JInt b0; JInt b1; JInt b2; JInt b3]))) s).
    { unfold perform_action, _perform_click, checked_center, args.
      cbn [String.eqb Ascii.eqb Bool.eqb arg_bbox].
      action_paths; gesture_end;
        (split; [reflexivity|]);
        first [ intros _; split; reflexivity
              | intros Hs; rewrite lookup_insert_eq in Hs; discriminate Hs ]. }
    apply run_total_result in Hrun.
    destruct Hrun as (r & s' & Hrun & d & extra & -> & Hd).
    now exists d, s', extra.
  - intros Hsmall. unfold resolve_click_point.
    destruct (b2 >? 100) eqn:E2; [destruct (b3 >? 100) eqn:E3|]; try reflexivity.
    apply Z.gtb_lt in E2, E3. lia.
Qed.

(** X15.  An input action on a box of four values with a text that is
    not empty clicks the box, presses Control+a and types the text, in
    this order and nothing else: what it did with mouse and keyboard is a
    prefix of these three gestures, and all three when it reports
    success. *)
Theorem input_action_types_the_text (b0 b1 b2 b3 : Z) (ch : ascii) (rest : string)
    x y option_value (s : state W H) :
  let text := String ch rest in
  let script :=
    [MouseClicked (b0 + b2 / 2) (b1 + b3 / 2); KeyPressed "Control+a"; TextTyped text] in
  exists d s' extra,
    perform_action respond "input"
      (ActionArgs (Some [b0; b1; b2; b3]) (Some text) x y option_value) s
    = Some (Returns d, s') /\
    trace s' = trace s ++ extra /\
    gestures extra `prefix_of` script /\
    (d !! "success" = Some (JBool true) -> gestures extra = script).
Proof.
  intros text script.
  assert (Hrun : run False
            (perform_action respond "input"
               (ActionArgs (Some [b0; b1; b2; b3]) (Some text) x y option_value))
            (fun r s' => exists d extra, r = Returns d /\
               trace s' = trace s ++ extra /\
               gestures extra `prefix_of` script /\
               (d !! "success" = Some (JBool true) -> gestures extra = script)) s).
  { unfold perform_action, _perform_input, checked_center, text.
    cbn [String.eqb Ascii.eqb Bool.eqb arg_bbox arg_text].
    action_paths; gesture_end;
      (split;
       [ cbn; unfold script, text;
         first [ reflexivity
               | eexists; reflexivity ]
       | first [ intros _; reflexivity
               | intros Hs; rewrite lookup_insert_eq in Hs; discriminate Hs ] ]). }
  apply run_total_result in Hrun.
  destruct Hrun as (r & s' & Hrun & d & extra & -> & Hd).
  now exists d, s', extra.
Qed.


End ActionGestures.

Lemma click_action_clicks_once_witness :
  exists d s' extra,
    perform_action (scripted always_click) "click"
      (ActionArgs (Some [10; 20; 81; 30]) None None None None) (start tt)
    = Some (Returns d, s') /\
    trace s' = trace (start tt) ++ extra /\
    gestures extra = [MouseClicked (10 + 81 / 2) (20 + 30 / 2)] /\
    (d !! "success" = Some (JBool true) ->
     d !! "coordinates" = Some (JArr [JInt (10 + 81 / 2); JInt (20 + 30 / 2)]) /\
     d !! "bbox" = Some (JArr [JInt 10; JInt 20; JInt 81; JInt 30])).
Proof.
  exact (proj1 (click_action_clicks_once (scripted always_click)
                  (scripted_clock_answers always_click) 10 20 81 30
                  None None None None (start tt))).
Defined.

Lemma input_action_types_the_text_witness :
  exists d s' extra,
    perform_action (scripted always_click) "input"
      (ActionArgs (Some [10; 20; 200; 30]) (Some "abc"%string) None None None) (start tt)
    = Some (Returns d, s') /\
    trace s' = trace (start tt) ++ extra /\
    gestures extra `prefix_of`
      [MouseClicked (10 + 200 / 2) (20 + 30 / 2); KeyPressed "Control+a";
       TextTyped "abc"] /\
    (d !! "success" = Some (JBool true) ->
     gestures extra
     = [MouseClicked (10 + 200 / 2) (20 + 30 / 2); KeyPressed "Control+a";
        TextTyped "abc"]).
Proof.
  exact (input_action_types_the_text (scripted always_click)
           (scripted_clock_answers always_click) 10 20 200 30 "a" "bc"
           None None None (start tt)).
Defined.

